(** * FlowCytometryTools: [core/containers.py]

    A shallow embedding of [FCMeasurement.transform], [FCMeasurement.subsample],
    [FCMeasurement.gate] and [FCCollection.transform], together with the parts
    of Python, numpy and pandas those methods rely on.

    Layout: every definition comes first (Python values and floats, slices,
    [random.sample], the pandas frame, the Transformation collaborator, the
    Measurement and the Collection); the lemmas and theorems follow. *)

From Stdlib Require Import ZArith String List Bool Lia Permutation.
From Stdlib Require Import SpecFloat.
Import ListNotations.

Local Open Scope string_scope.
Local Open Scope list_scope.
Local Open Scope Z_scope.

(* ===================================================================== *)
(** * Part I: definitions                                                 *)
(* ===================================================================== *)

(** ** Exceptions and the error monad *)

(** The exception classes the modelled code can raise.  [Exception_] is the
    bare [Exception] that [transform] raises on a range mismatch. *)
Inductive exn : Type :=
| ValueError (msg : string)
| TypeError (msg : string)
| IndexError (msg : string)
| KeyError (key : string)
| OverflowError (msg : string)
| AttributeError (msg : string)
| Exception_ (msg : string).


Inductive result (A : Type) : Type :=
| Ok (a : A)
| Raise (e : exn).

Arguments Ok {A} a.
Arguments Raise {A} e.

Definition bind {A B : Type} (r : result A) (k : A -> result B) : result B :=
  match r with
  | Ok a => k a
  | Raise e => Raise e
  end.

Notation "x <- r ;; k" := (bind r (fun x => k))
  (at level 61, r at next level, right associativity).

Definition is_ok {A : Type} (r : result A) : bool :=
  match r with Ok _ => true | Raise _ => false end.

(** ** Python floats: IEEE 754 binary64 *)

Module Float64.

Definition prec : Z := 53.
Definition emax : Z := 1024.

Abbreviation float := spec_float (only parsing).

Definition mul : float -> float -> float := SFmul prec emax.
Definition add : float -> float -> float := SFadd prec emax.
Definition sub : float -> float -> float := SFsub prec emax.
Definition abs : float -> float := SFabs.
Definition ltb : float -> float -> bool := SFltb.
Definition leb : float -> float -> bool := SFleb.
Definition eqb : float -> float -> bool := SFeqb.

(** A well-formed binary64 datum: canonical mantissa, exponent in range. *)
Definition valid (f : float) : bool := valid_binary prec emax f.

Definition is_nan (f : float) : bool :=
  match f with S754_nan => true | _ => false end.

Definition isfinite (f : float) : bool :=
  match f with
  | S754_zero _ | S754_finite _ _ _ => true
  | S754_infinity _ | S754_nan => false
  end.

(** Zero of either sign, a positive number or plus infinity. *)
Definition nonneg (f : float) : bool :=
  match f with
  | S754_zero _ => true
  | S754_finite s _ _ | S754_infinity s => negb s
  | S754_nan => false
  end.

(** A key that orders the floats other than NaN as the comparison of
    binary64 does: the class (minus infinity, negative, zero, positive, plus
    infinity) first, then the exponent, then the mantissa. *)
Definition order_key (f : float) : Z * Z * Z :=
  match f with
  | S754_infinity true => (-2, 0, 0)
  | S754_finite true m e => (-1, - e, - Z.pos m)
  | S754_zero _ | S754_nan => (0, 0, 0)
  | S754_finite false m e => (1, e, Z.pos m)
  | S754_infinity false => (2, 0, 0)
  end.

Definition key_lt (a b : Z * Z * Z) : Prop :=
  fst (fst a) < fst (fst b) \/
  (fst (fst a) = fst (fst b) /\
   (snd (fst a) < snd (fst b) \/
    (snd (fst a) = snd (fst b) /\ snd a < snd b))).

Definition key_le (a b : Z * Z * Z) : Prop := key_lt a b \/ a = b.

(** The literals [0.0] and [1.0]. *)
Definition zero : float := S754_zero false.
Definition one : float := S754_finite false 4503599627370496 (-52).

(** numpy's default tolerances, [rtol = 1e-05] and [atol = 1e-08], as the
    binary64 values nearest to the decimal literals. *)
Definition rtol : float := S754_finite false 5902958103587057 (-69).
Definition atol : float := S754_finite false 6044629098073146 (-79).

(** [float(n)] for a Python int: rounded to nearest, ties to even. *)
Definition of_int (n : Z) : float := binary_normalize prec emax n 0 false.

(** Truncation toward zero of a finite float, [None] on infinities and NaN. *)
Definition trunc (f : float) : option Z :=
  match f with
  | S754_zero _ => Some 0
  | S754_finite s m e =>
      let a := if 0 <=? e then Z.pos m * 2 ^ e else Z.pos m / 2 ^ (- e) in
      Some (if s then - a else a)
  | S754_infinity _ | S754_nan => None
  end.

(** Floor of a finite float: the reading of [floor] the specification uses. *)
Definition floor (f : float) : option Z :=
  match f with
  | S754_zero _ => Some 0
  | S754_finite s m e =>
      Some (if 0 <=? e
            then (if s then - (Z.pos m * 2 ^ e) else Z.pos m * 2 ^ e)
            else (if s then - Z.pos m else Z.pos m) / 2 ^ (- e))
  | S754_infinity _ | S754_nan => None
  end.

End Float64.

(** ** Python semantics used by the methods *)

Module Py.

Import Float64.

(** Values that can appear inside a tuple key. *)
Inductive value : Type :=
| VInt (n : Z)
| VFloat (f : float)
| VStr (s : string)
| VNone.

(** [isinstance(x, float)]. *)
Definition is_float (v : value) : bool :=
  match v with VFloat _ => true | _ => false end.

(** [n * f] for an int [n] and a float [f]: the int is converted first. *)
Definition int_mul_float (n : Z) (f : float) : result float :=
  let nf := of_int n in
  match nf with
  | S754_infinity _ => Raise (OverflowError "int too large to convert to float")
  | _ => Ok (mul nf f)
  end.

(** [int(f)] for a float [f]. *)
Definition int_of_float (f : float) : result Z :=
  match trunc f with
  | Some z => Ok z
  | None =>
      if is_nan f
      then Raise (ValueError "cannot convert float NaN to integer")
      else Raise (OverflowError "cannot convert float infinity to integer")
  end.

(** [l[i]] on a tuple or list: negative indices count from the end. *)
Definition getitem {A : Type} (l : list A) (i : Z) : result A :=
  let n := Z.of_nat (length l) in
  let j := if i <? 0 then i + n else i in
  if (j <? 0) || (n <=? j)
  then Raise (IndexError "tuple index out of range")
  else match nth_error l (Z.to_nat j) with
       | Some x => Ok x
       | None => Raise (IndexError "tuple index out of range")
       end.

(** A [slice] object whose fields are ints or [None]. *)
Record slice : Type := Slice {
  start : option Z;
  stop : option Z;
  step : option Z
}.

(** [a < b] where [a] may be [None]: Python 3 refuses to order [None]. *)
Definition lt_opt (a : option Z) (b : Z) : result bool :=
  match a with
  | Some x => Ok (x <? b)
  | None =>
      Raise (TypeError "'<' not supported between instances of 'NoneType' and 'int'")
  end.

(** A slice bound brought into range: negative bounds count from the end. *)
Definition clamp (n lower upper b : Z) : Z :=
  if b <? 0 then Z.max (b + n) lower else Z.min b upper.

(** [slice.indices(n)]: the normalised (start, stop, step) for length [n]. *)
Definition slice_indices (s : slice) (n : Z) : result (Z * Z * Z) :=
  let st := match step s with Some k => k | None => 1 end in
  if st =? 0 then Raise (ValueError "slice step cannot be zero") else
  let lower := if st <? 0 then -1 else 0 in
  let upper := if st <? 0 then n - 1 else n in
  let a := match start s with
           | None => if st <? 0 then upper else lower
           | Some b => clamp n lower upper b
           end in
  let z := match stop s with
           | None => if st <? 0 then lower else upper
           | Some b => clamp n lower upper b
           end in
  Ok (a, z, st).

(** [len(range(a, z, st))] for a non-zero step. *)
Definition range_len (a z st : Z) : Z :=
  if 0 <? st
  then (if a <? z then (z - a - 1) / st + 1 else 0)
  else (if z <? a then (a - z - 1) / (- st) + 1 else 0).

(** [list(range(a, z, st))]. *)
Definition range (a z st : Z) : list Z :=
  map (fun i => a + Z.of_nat i * st) (seq 0 (Z.to_nat (range_len a z st))).

(** The positions a slice selects in a sequence of length [n]. *)
Definition slice_positions (s : slice) (n : Z) : result (list Z) :=
  azs <- slice_indices s n ;;
  let '(a, z, st) := azs in Ok (range a z st).

(** Drawing [k] items from distinct positions of [pool]; the [j]-th draw is
    reduced modulo the number of items still in the pool. *)
Fixpoint draw {A : Type} (draws : list nat) (pool : list A) (k : nat) : list A :=
  match k with
  | O => []
  | S k' =>
      let j := (hd O draws mod length pool)%nat in
      match nth_error pool j with
      | Some x => x :: draw (tl draws) (firstn j pool ++ skipn (S j) pool) k'
      | None => []
      end
  end.

(** [random.sample(population, k)].  The random source is explicit: [draws]
    is the sequence of numbers the generator hands out. *)
Definition sample {A : Type} (draws : list nat) (population : list A) (k : Z)
  : result (list A) :=
  if (k <? 0) || (Z.of_nat (length population) <? k)
  then Raise (ValueError "Sample larger than population or is negative")
  else Ok (draw draws population (Z.to_nat k)).

(** The builtins [min] and [max] on a non-empty sequence of floats: the
    first item is kept until a later one compares strictly below (above)
    it. *)
Definition min (xs : list float) : result float :=
  match xs with
  | [] => Raise (ValueError "min() arg is an empty sequence")
  | x :: rest => Ok (fold_left (fun best y => if ltb y best then y else best) rest x)
  end.

Definition max (xs : list float) : result float :=
  match xs with
  | [] => Raise (ValueError "max() arg is an empty sequence")
  | x :: rest => Ok (fold_left (fun best y => if ltb best y then y else best) rest x)
  end.

(** [list(zip( *rows ))]: the columns of a list of rows, as many as the
    shortest row has items; none when there is no row. *)
Definition zip_star (rows : list (list float)) : list (list float) :=
  match rows with
  | [] => []
  | r :: rest =>
      let n := fold_left Nat.min (map (@length float) rest) (length r) in
      map (fun i => map (fun row => nth i row S754_nan) rows) (seq 0 n)
  end.

(** The [i]-th item of [itertools.cycle(l)]; nothing when [l] is empty. *)
Definition cycle_nth {A : Type} (l : list A) (i : nat) : option A :=
  match l with
  | [] => None
  | _ :: _ => nth_error l (i mod length l)%nat
  end.

(** [zip(xs, ys, zs)] where [ys] and [zs] are given by position: the result
    stops at the first position where one of them has run out. *)
Fixpoint zip3 {A B C : Type} (i : nat) (xs : list A) (ys : nat -> option B)
  (zs : nat -> option C) : list (A * B * C) :=
  match xs with
  | [] => []
  | x :: xs' =>
      match ys i, zs i with
      | Some y, Some z => (x, y, z) :: zip3 (S i) xs' ys zs
      | _, _ => []
      end
  end.

End Py.

(** ** numpy: [isclose], [allclose] and the NaN-skipping reductions *)

Module Np.

Import Float64.

(** [np.isclose(a, b)] with the default tolerances: finite operands are
    compared within tolerance, the others for equality; NaN is close to
    nothing. *)
Definition isclose (a b : float) : bool :=
  if isfinite a && isfinite b
  then leb (abs (sub a b)) (add atol (mul rtol (abs b)))
  else eqb a b.

(** [np.allclose(xs, b)]. *)
Definition allclose (xs : list float) (b : float) : bool :=
  forallb (fun a => isclose a b) xs.

(** The larger of two values, NaN being skipped ([skipna=True]). *)
Definition fmax (a b : float) : float :=
  if is_nan a then b
  else if is_nan b then a
  else if ltb a b then b else a.

Definition fmin (a b : float) : float :=
  if is_nan a then b
  else if is_nan b then a
  else if ltb b a then b else a.

(** [max()] and [min()] of a pandas object: NaN when nothing is left. *)
Definition nanmax (xs : list float) : float := fold_left fmax xs S754_nan.
Definition nanmin (xs : list float) : float := fold_left fmin xs S754_nan.

End Np.

(** ** pandas: the event table *)

Module Pandas.

Import Float64.

Abbreviation cell := spec_float (only parsing).
Abbreviation label := Z (only parsing).

(** A frame is kept row by row: the column names, and for every row its
    index label and its cells in column order. *)
Record DataFrame : Type := Frame {
  columns : list string;
  rows : list (label * list cell)
}.

(** [df.index] and [df.shape[0]]. *)
Definition index (df : DataFrame) : list label := map fst (rows df).
Definition num_rows (df : DataFrame) : Z := Z.of_nat (length (rows df)).

(** Every row is as wide as the header. *)
Definition rectangular (df : DataFrame) : Prop :=
  Forall (fun r => length (snd r) = length (columns df)) (rows df).

(** A frame as pandas holds it: distinct column names, rows of full width. *)
Definition well_formed (df : DataFrame) : Prop :=
  NoDup (columns df) /\ rectangular df.

Definition take {A : Type} (l : list A) (positions : list Z) : list A :=
  flat_map (fun p => match nth_error l (Z.to_nat p) with
                     | Some x => [x]
                     | None => []
                     end) positions.

(** [df.iloc[s]] for a slice [s]: selection by position. *)
Definition iloc (df : DataFrame) (s : Py.slice) : result DataFrame :=
  ps <- Py.slice_positions s (num_rows df) ;;
  Ok (Frame (columns df) (take (rows df) ps)).

(** [df.loc[labels]] for a list of labels: per requested label, every row
    that carries it. *)
Fixpoint loc_rows (rs : list (label * list cell)) (labels : list label)
  : result (list (label * list cell)) :=
  match labels with
  | [] => Ok []
  | l :: ls =>
      match filter (fun r => fst r =? l) rs with
      | [] => Raise (KeyError "label not in index")
      | hit => rest <- loc_rows rs ls ;; Ok (hit ++ rest)
      end
  end.

Definition loc (df : DataFrame) (labels : list label) : result DataFrame :=
  rs <- loc_rows (rows df) labels ;; Ok (Frame (columns df) rs).

(** Position of a column name in a header. *)
Fixpoint position (c : string) (cols : list string) : option nat :=
  match cols with
  | [] => None
  | c' :: cols' =>
      if String.eqb c c' then Some O
      else match position c cols' with
           | Some i => Some (S i)
           | None => None
           end
  end.

Definition has_column (cols : list string) (c : string) : bool :=
  existsb (String.eqb c) cols.

Fixpoint positions (cs cols : list string) : result (list nat) :=
  match cs with
  | [] => Ok []
  | c :: cs' =>
      match position c cols with
      | None => Raise (KeyError c)
      | Some i => rest <- positions cs' cols ;; Ok (i :: rest)
      end
  end.

Definition project (ps : list nat) (r : label * list cell) : label * list cell :=
  (fst r, map (fun i => nth i (snd r) S754_nan) ps).

(** [df[cs]] for a list of column names. *)
Definition getitem (df : DataFrame) (cs : list string) : result DataFrame :=
  ps <- positions cs (columns df) ;;
  Ok (Frame cs (map (project ps) (rows df))).

(** [df.filter(cs)]: the names of [cs] that are columns, in the order of
    [cs]. *)
Definition filter_items (df : DataFrame) (cs : list string) : result DataFrame :=
  getitem df (filter (has_column (columns df)) cs).

(** The cells of one column, top to bottom. *)
Definition column (df : DataFrame) (c : string) : option (list cell) :=
  match position c (columns df) with
  | Some i => Some (map (fun r => nth i (snd r) S754_nan) (rows df))
  | None => None
  end.

Fixpoint set_nth {A : Type} (i : nat) (x : A) (l : list A) : list A :=
  match i, l with
  | _, [] => []
  | O, _ :: l' => x :: l'
  | S i', y :: l' => y :: set_nth i' x l'
  end.

Definition has_dup (ls : list label) : bool :=
  negb (Nat.eqb (length (nodup Z.eq_dec ls)) (length ls)).

(** Alignment of a column on the rows of the frame it is assigned to: taken
    as it is when the two indexes are equal, looked up by label otherwise. *)
Definition align (target : list label) (src : list (label * cell))
  : result (list cell) :=
  if list_eq_dec Z.eq_dec target (map fst src) then Ok (map snd src)
  else if has_dup (map fst src)
  then Raise (ValueError "cannot reindex on an axis with duplicate labels")
  else Ok (map (fun l => match find (fun p => fst p =? l) src with
                         | Some p => snd p
                         | None => S754_nan
                         end) target).

(** [df[c] = series]: an existing column is overwritten where it stands, a
    new one is appended. *)
Definition setitem_column (df : DataFrame) (c : string)
  (series : list (label * cell)) : result DataFrame :=
  vs <- align (index df) series ;;
  match position c (columns df) with
  | Some i =>
      Ok (Frame (columns df)
            (map (fun rv => (fst (fst rv), set_nth i (snd rv) (snd (fst rv))))
               (combine (rows df) vs)))
  | None =>
      Ok (Frame (columns df ++ [c])
            (map (fun rv => (fst (fst rv), snd (fst rv) ++ [snd rv]))
               (combine (rows df) vs)))
  end.

(** [value[c]] as a labelled series, for the assignment [df[k] = value[c]].
    Under a name that [value] carries more than once, [value[c]] is a frame
    of several columns, and pandas refuses to assign it to the one column
    [k]. *)
Definition series (value : DataFrame) (c : string) : result (list (label * cell)) :=
  match position c (columns value) with
  | Some i =>
      if Nat.ltb 1 (count_occ string_dec (columns value) c)
      then Raise (ValueError "Columns must be same length as key")
      else Ok (map (fun r => (fst r, nth i (snd r) S754_nan)) (rows value))
  | None => Raise (KeyError c)
  end.

Fixpoint setitem_pairs (df : DataFrame) (value : DataFrame)
  (pairs : list (string * string)) : result DataFrame :=
  match pairs with
  | [] => Ok df
  | (k1, k2) :: pairs' =>
      s <- series value k2 ;;
      df' <- setitem_column df k1 s ;;
      setitem_pairs df' value pairs'
  end.

(** [df[cs] = value] for a list of names and a frame: the columns of [value]
    are paired with [cs] in order. *)
Definition setitem (df : DataFrame) (cs : list string) (value : DataFrame)
  : result DataFrame :=
  if negb (Nat.eqb (length cs) (length (columns value)))
  then Raise (ValueError "Columns must be same length as key")
  else setitem_pairs df value (combine cs (columns value)).

(** [df.max().max()] and [df.min().min()]: the reduction runs over each
    column, then over the per-column results. *)
Definition column_cells (df : DataFrame) : list (list cell) :=
  map (fun i => map (fun r => nth i (snd r) S754_nan) (rows df))
    (seq 0 (length (columns df))).

Definition max_max (df : DataFrame) : cell :=
  Np.nanmax (map Np.nanmax (column_cells df)).

Definition min_min (df : DataFrame) : cell :=
  Np.nanmin (map Np.nanmin (column_cells df)).

End Pandas.

(** ** The Transformation collaborator ([core/transforms.py]) *)

Import Float64 Pandas.

(** Values handed to a Transformation as arguments.  [Log10 r] stands for the
    float [np.log10(r)], kept symbolic. *)
Inductive argument : Type :=
| Num (f : float)
| Log10 (r : float)
| Str (s : string).

(** Modelled from the spec: the [Transformation] class of
    [core/transforms.py] is not part of the sources at hand.  It is built
    from (kind, direction, positional arguments, keyword arguments) and can
    hold the bounds of a fitted spline. *)
Record Transformation : Type := mkTransformation {
  t_kind : string;
  t_direction : string;
  t_args : list argument;
  t_kwargs : list (string * argument);
  t_spline : option (cell * cell)
}.

(** [Transformation(transform, direction, args, **kwargs)]. *)
Definition new_Transformation (transform direction : string)
  (args : list argument) (kwargs : list (string * argument)) : Transformation :=
  mkTransformation transform direction args kwargs None.

(** [transformer.set_spline(xmin, xmax)]. *)
Definition set_spline (xmin xmax : cell) (t : Transformation) : Transformation :=
  mkTransformation (t_kind t) (t_direction t) (t_args t) (t_kwargs t)
    (Some (xmin, xmax)).

(** The [transform] argument: an already built Transformation, or the name
    of one to build. *)
Inductive transform_spec : Type :=
| Prebuilt (t : Transformation)
| ToBuild (name : string).

(** The numeric map a Transformation stands for, cell by cell; it may look
    at the whole sub-table it is called on (to fit a missing spline). *)
Definition transform_fun : Type :=
  Transformation -> bool -> DataFrame -> cell -> cell.

(** [transformer(x, use_spln)]: a table of the same shape as [x]. *)
Definition call_Transformation (tfun : transform_fun) (t : Transformation)
  (x : DataFrame) (use_spln : bool) : DataFrame :=
  Frame (columns x)
    (map (fun r => (fst r, map (tfun t use_spln x) (snd r))) (rows x)).

(** [key in kwargs] and [kwargs[key] = v]. *)
Definition has_key (key : string) (kwargs : list (string * argument)) : bool :=
  existsb (fun kv => String.eqb key (fst kv)) kwargs.

Fixpoint set_key (key : string) (v : argument) (kwargs : list (string * argument))
  : list (string * argument) :=
  match kwargs with
  | [] => [(key, v)]
  | (k, w) :: rest =>
      if String.eqb key k then (k, v) :: rest else (k, w) :: set_key key v rest
  end.

(** [transform in {'hlog', 'tlog', 'hlog_inv', 'tlog_inv'}]. *)
Definition range_sensitive (transform : string) : bool :=
  existsb (String.eqb transform) ["hlog"; "tlog"; "hlog_inv"; "tlog_inv"].

(** ** FCMeasurement *)

Module FCMeasurement.

(** One row of [meta['_channels_']]: the channel's name [$PnN] and its
    declared range [$PnR], the latter as read through [float(...)]. *)
Record channel_row : Type := ChannelRow {
  PnN : string;
  PnR : float
}.

(** The metadata of a sample: the channel table, whose rows are labelled by
    channel number, the channel names, and the remaining annotations. *)
Record Meta : Type := mkMeta {
  meta_channels : list (Z * channel_row);
  meta_channel_names : list string;
  meta_fields : list (string * string)
}.

Record t : Type := mk {
  ID : string;
  datafile : string;
  data : DataFrame;
  meta : Meta
}.

(** The properties [channels] and [channel_names]. *)
Definition channels (self : t) : list (Z * channel_row) :=
  meta_channels (meta self).

Definition channel_names (self : t) : list string :=
  meta_channel_names (meta self).

(** Modelled from the spec: [copy], [get_data] and the [data] and [ID]
    setters live in [core/bases.py], which is not part of the sources at
    hand.  A copy owns its table and carries the same metadata; as values,
    the copy is the record itself. *)
Definition copy (self : t) : t := self.

Definition get_data (self : t) : DataFrame := data self.

Definition set_data (self : t) (d : DataFrame) : t :=
  mk (ID self) (datafile self) d (meta self).

Definition set_ID (self : t) (i : string) : t :=
  mk i (datafile self) (data self) (meta self).

(** The list comprehension of [transform]:
    [[float(r['$PnR']) for i, r in channel_meta.iterrows()
      if channel_names[i - 1] in channels]]. *)
Fixpoint selected_ranges (channel_meta : list (Z * channel_row))
  (names : list string) (chans : list string) : result (list float) :=
  match channel_meta with
  | [] => Ok []
  | (i, r) :: rest =>
      name <- Py.getitem names (i - 1) ;;
      ranges <- selected_ranges rest names chans ;;
      Ok (if has_column chans name then PnR r :: ranges else ranges)
  end.

Definition range_mismatch_hint : string :=
  "Not all specified channels have the same data range, therefore they cannot be transformed together. HINT: Try transforming one channel at a time. You'll need to provide the name of the channel in the transform.".

(** Modelled from the spec: the [queueable] decorator lives in
    [core/bases.py], which is not part of the sources at hand.  With
    [apply_now] left at its default it runs the method at once and then
    treats what the method returned as a Measurement.  A Measurement is
    handed on as it is, and so is an exception; the pair that [transform]
    returns under [get_transformer=True] is a tuple, on which the decorator
    fails with an [AttributeError] (the text of the message is not
    modelled). *)
Definition queueable {A : Type} (returned : result (t * option A))
  : result (t * option A) :=
  match returned with
  | Ok (new, None) => Ok (new, None)
  | Ok (_, Some _) => Raise (AttributeError "tuple")
  | Raise e => Raise e
  end.

(** [FCMeasurement.transform], under its decorator [@queueable].  The
    warning issued when [d] is given together with [auto_range] has no effect
    on the result and is left out; so is [apply_now]. *)
Definition transform (tfun : transform_fun) (self : t)
  (transform : transform_spec) (direction : string)
  (chans : option (list string)) (return_all auto_range use_spln
  get_transformer : bool) (new_ID : option string)
  (args : list argument) (kwargs : list (string * argument))
  : result (t * option Transformation) :=
  queueable (
  let new := copy self in
  let data := data new in
  let chans := match chans with
               | None => columns data
               | Some cs => cs
               end in
  transformer <-
    match transform with
    | Prebuilt tr => Ok tr
    | ToBuild name =>
        kwargs <-
          (if auto_range then
             if has_key "d" kwargs then Ok kwargs
             else
               let channel_meta := channels self in
               ranges <- selected_ranges channel_meta (channel_names self) chans ;;
               r0 <- Py.getitem ranges 0 ;;
               if negb (Np.allclose ranges r0)
               then Raise (Exception_ range_mismatch_hint)
               else if range_sensitive name
                    then Ok (set_key "d" (Log10 r0) kwargs)
                    else Ok kwargs
           else Ok kwargs) ;;
        Ok (new_Transformation name direction args kwargs)
    end ;;
  sub <- Pandas.getitem data chans ;;
  let transformed := call_Transformation tfun transformer sub use_spln in
  new_data <- (if return_all then Ok data else filter_items data chans) ;;
  new_data <- Pandas.setitem new_data chans transformed ;;
  let new := set_data new new_data in
  let new := match new_ID with
             | Some i => set_ID new i
             | None => new
             end in
  if get_transformer then Ok (new, Some transformer) else Ok (new, None)).

(** The block [## create transformer] of [transform], on its own. *)
Definition create_transformer (self : t) (transform : transform_spec)
  (direction : string) (chans : list string) (auto_range : bool)
  (args : list argument) (kwargs : list (string * argument))
  : result Transformation :=
  match transform with
  | Prebuilt tr => Ok tr
  | ToBuild name =>
      kwargs <-
        (if auto_range then
           if has_key "d" kwargs then Ok kwargs
           else
             let channel_meta := channels self in
             ranges <- selected_ranges channel_meta (channel_names self) chans ;;
             r0 <- Py.getitem ranges 0 ;;
             if negb (Np.allclose ranges r0)
             then Raise (Exception_ range_mismatch_hint)
             else if range_sensitive name
                  then Ok (set_key "d" (Log10 r0) kwargs)
                  else Ok kwargs
         else Ok kwargs) ;;
      Ok (new_Transformation name direction args kwargs)
  end.

(** The blocks [## create new data] and [## update new Measurement] of
    [transform], on their own, up to the [return] of the method body: the
    decorator has not seen the result yet. *)
Definition create_new_data (tfun : transform_fun) (self : t)
  (transformer : Transformation) (chans : list string)
  (return_all use_spln get_transformer : bool) (new_ID : option string)
  : result (t * option Transformation) :=
  let new := copy self in
  let data := data new in
  sub <- Pandas.getitem data chans ;;
  let transformed := call_Transformation tfun transformer sub use_spln in
  new_data <- (if return_all then Ok data else filter_items data chans) ;;
  new_data <- Pandas.setitem new_data chans transformed ;;
  let new := set_data new new_data in
  let new := match new_ID with
             | Some i => set_ID new i
             | None => new
             end in
  if get_transformer then Ok (new, Some transformer) else Ok (new, None).

(** The [key] argument of [subsample]. *)
Inductive key : Type :=
| KInt (n : Z)
| KFloat (f : float)
| KTuple (xs : list Py.value)
| KSlice (s : Py.slice)
| KStr (s : string)
| KNone.

(** [int(num_events * x)] for an element [x] of a tuple key. *)
Definition scaled (num_events : Z) (x : Py.value) : result Z :=
  match x with
  | Py.VFloat f => p <- Py.int_mul_float num_events f ;; Py.int_of_float p
  | Py.VInt n => Ok (num_events * n)
  | Py.VStr _ | Py.VNone =>
      Raise (TypeError "int() argument must be a string, a bytes-like object or a real number")
  end.

(** [FCMeasurement.subsample].  [draws] is the random source consumed by
    [random.sample].  The [except IndexError] handler prints a hint and
    re-raises, so it does not show in the result. *)
Definition subsample (draws : list nat) (self : t) (key : key)
  (order : string) (auto_resize : bool) : result t :=
  let data := get_data self in
  let num_events := num_rows data in
  key <-
    match key with
    | KFloat f =>
        if ltb one f || ltb f zero
        then Raise (ValueError "If float, key must be between 0.0 and 1.0")
        else p <- Py.int_mul_float num_events f ;;
             n <- Py.int_of_float p ;;
             Ok (KInt n)
    | KTuple xs =>
        let all_float := forallb Py.is_float xs in
        if (2 <? Z.of_nat (length xs)) || negb all_float
        then Raise (ValueError "Tuple must consist of two floats, each between 0.0 and 1.0")
        else x0 <- Py.getitem xs 0 ;;
             start <- scaled num_events x0 ;;
             x1 <- Py.getitem xs 1 ;;
             stop <- scaled num_events x1 ;;
             Ok (KSlice (Py.Slice (Some start) (Some stop) None))
    | _ => Ok key
    end ;;
  newdata <-
    match key with
    | KSlice s =>
        s <- (if auto_resize then
                c <- Py.lt_opt (Py.stop s) num_events ;;
                let stop := if c then Py.stop s else Some num_events in
                c <- Py.lt_opt (Py.start s) num_events ;;
                let start := if c then Py.start s else Some num_events in
                Ok (Py.Slice start stop (Py.step s))
              else Ok s) ;;
        iloc data s
    | KInt n =>
        let n := if auto_resize && (num_events <? n) then num_events else n in
        let order := if n <? 1 then "start" else order in
        if String.eqb order "random" then
          labels <- Py.sample draws (index data) n ;;
          loc data labels
        else if String.eqb order "start" then
          iloc data (Py.Slice None (Some n) None)
        else if String.eqb order "end" then
          iloc data (Py.Slice (Some (- n)) None None)
        else Raise (ValueError "order must be in ('random', 'start', 'end')")
    | _ => Raise (TypeError "'key' must be of type int, float, tuple or slice.")
    end ;;
  let newsample := copy self in
  Ok (set_data newsample newdata).

(** A gate: any callable taking an event table to a filtered table. *)
Definition Gate : Type := DataFrame -> result DataFrame.

(** [FCMeasurement.gate], as a function on values; its decorator
    [@queueable] hands the Measurement it returns on as it is. *)
Definition gate (self : t) (gate : Gate) : result t :=
  let data := get_data self in
  newdata <- gate data ;;
  let newsample := copy self in
  Ok (set_data newsample newdata).

(** The property [counts]. *)
Definition counts (self : t) : Z := num_rows (get_data self).

(** *** Metadata fields *)

(** A value of the metadata dict. *)
Inductive meta_value : Type :=
| MetaChannels (rows : list (Z * channel_row))
| MetaNames (names : list string)
| MetaText (s : string).

Fixpoint assoc {V : Type} (key : string) (d : list (string * V)) : option V :=
  match d with
  | [] => None
  | (k, v) :: rest => if String.eqb key k then Some v else assoc key rest
  end.

(** [meta.get(field)]: [None] for a field that is absent. *)
Definition meta_get (m : Meta) (field : string) : option meta_value :=
  if String.eqb field "_channels_" then Some (MetaChannels (meta_channels m))
  else if String.eqb field "_channel_names_" then Some (MetaNames (meta_channel_names m))
  else option_map MetaText (assoc field (meta_fields m)).

(** [d[key]] on a dict. *)
Definition dict_getitem {V : Type} (d : list (string * V)) (key : string)
  : result V :=
  match assoc key d with
  | Some v => Ok v
  | None => Raise (KeyError key)
  end.

(** [FCMeasurement.get_meta_fields], for a list of field names ([to_list]
    of [core/utils.py] turns a single name into such a list, and [get_meta]
    of [core/bases.py] hands out the metadata). *)
Definition get_meta_fields (self : t) (fields : list string)
  : list (string * option meta_value) :=
  let meta := meta self in
  map (fun field => (field, meta_get meta field)) fields.

(** [FCMeasurement.ID_from_data]. *)
Definition ID_from_data (self : t) (ID_field : string)
  : result (option meta_value) :=
  match dict_getitem (get_meta_fields self [ID_field]) ID_field with
  | Ok v => Ok v
  | Raise (KeyError _) =>
      Raise (Exception_ ("The keyword '" ++ ID_field
                         ++ "' does not exist in the following FCS file: "
                         ++ datafile self))
  | Raise e => Raise e
  end.

(** *** Drawing gates *)

(** The [gate_lw] argument of [plot]: one width, or a sequence of widths. *)
Inductive line_width : Type :=
| OneWidth (w : float)
| Widths (ws : list float).

Definition default_gate_colors : list string := ["b"; "g"; "r"; "m"; "c"; "y"].

(** The widths [plot] cycles through: a single width is not an instance of
    [collections.Iterable] (the name Python has up to version 3.9) and is
    wrapped in a list. *)
Definition gate_widths (gate_lw : line_width) : list float :=
  match gate_lw with
  | OneWidth w => [w]
  | Widths ws => ws
  end.

(** The gate-drawing loop of [FCMeasurement.plot]: the calls
    [g.plot(ax=ax, ax_channels=channel_names, color=c, lw=lw)] it makes,
    in order, as triples (gate, colour, width).  [gates] is what
    [to_list(gates)] gives: [None], or a list of gates. *)
Definition plot_gates {G : Type} (gates : option (list G))
  (gate_colors : option (list string)) (gate_lw : line_width)
  : list (G * string * float) :=
  match gates with
  | None => []
  | Some gs =>
      let gate_colors :=
        match gate_colors with
        | None => Py.cycle_nth default_gate_colors
        | Some cs => nth_error cs
        end in
      let gate_lw := gate_widths gate_lw in
      let gate_lw := Py.cycle_nth gate_lw in
      Py.zip3 0 gs gate_colors gate_lw
  end.

(** *** The interactive view *)

(** The two GUI launchers of [FlowCytometryTools.gui]. *)
Inductive gui_backend : Type := wx_backend | webagg_backend.

(** [FCMeasurement.view_interactively]: the backend whose [GUILauncher] is
    started.  [version] is [matplotlib.__version__]; strings are compared
    character by character, as Python compares them. *)
Definition view_interactively (version : string) (backend : string)
  : result gui_backend :=
  let backend :=
    if String.eqb backend "auto" then
      if String.leb "1.4.3" version then "WebAgg" else "wx"
    else backend in
  if String.eqb backend "wx" then Ok wx_backend
  else if String.eqb backend "webagg" then Ok webagg_backend
  else Raise (ValueError ("No support for backend " ++ backend)).

End FCMeasurement.

(** ** FCCollection *)

Module FCCollection.

(** A dict-like container: the measurements under their keys, in the order
    the dict iterates them. *)
Record t : Type := mk {
  ID : string;
  members : list (string * FCMeasurement.t)
}.

Definition values (self : t) : list FCMeasurement.t := map snd (members self).

Definition copy (self : t) : t := self.

Definition set_ID (self : t) (i : string) : t := mk i (members self).

(** Running a fallible function over a list, stopping at the first error. *)
Fixpoint traverse {A B : Type} (f : A -> result B) (l : list A) : result (list B) :=
  match l with
  | [] => Ok []
  | x :: l' => y <- f x ;; ys <- traverse f l' ;; Ok (y :: ys)
  end.

(** Modelled from the spec: [MeasurementCollection.apply] lives in
    [core/bases.py], which is not part of the sources at hand.  With
    [applyto='data'] it is the fan-out of [func] over the tables of all
    members, whose results are collected. *)
Definition apply_data {A : Type} (func : DataFrame -> result A) (self : t)
  : result (list A) :=
  traverse (fun v => func (FCMeasurement.get_data v)) (values self).

Definition range_mismatch : string :=
  "Not all specified channels have the same data range, therefore they cannot be transformed together.".

(** [FCCollection.transform]. *)
Definition transform (tfun : transform_fun) (self : t)
  (transform : transform_spec) (direction : string) (share_transform : bool)
  (chans : option (list string)) (return_all auto_range use_spln
  get_transformer : bool) (new_ID : option string)
  (args : list argument) (kwargs : list (string * argument))
  : result (t * option Transformation) :=
  let new := copy self in
  res <-
    (if share_transform then
       first <- Py.getitem (values self) 0 ;;
       let channel_meta := FCMeasurement.channels first in
       let channel_names := FCMeasurement.channel_names first in
       let chans := match chans with
                    | None => channel_names
                    | Some cs => cs
                    end in
       transformer <-
         match transform with
         | Prebuilt tr => Ok tr
         | ToBuild name =>
             kwargs <-
               (if auto_range then
                  if has_key "d" kwargs then Ok kwargs
                  else
                    ranges <- FCMeasurement.selected_ranges channel_meta
                                channel_names chans ;;
                    r0 <- Py.getitem ranges 0 ;;
                    if negb (Np.allclose ranges r0)
                    then Raise (Exception_ range_mismatch)
                    else if range_sensitive name
                         then Ok (set_key "d" (Log10 r0) kwargs)
                         else Ok kwargs
                else Ok kwargs) ;;
             let transformer := new_Transformation name direction args kwargs in
             if use_spln then
               maxes <- apply_data (fun x => sub <- Pandas.getitem x chans ;;
                                             Ok (max_max sub)) self ;;
               let xmax := Np.nanmax maxes in
               mins <- apply_data (fun x => sub <- Pandas.getitem x chans ;;
                                            Ok (min_min sub)) self ;;
               let xmin := Np.nanmin mins in
               Ok (set_spline xmin xmax transformer)
             else Ok transformer
         end ;;
       items <- traverse
                  (fun kv =>
                     r <- FCMeasurement.transform tfun (snd kv)
                            (Prebuilt transformer) "forward" (Some chans)
                            return_all true use_spln false None [] [] ;;
                     Ok (fst kv, fst r))
                  (members new) ;;
       Ok (mk (ID new) items, Some transformer)
     else
       items <- traverse
                  (fun kv =>
                     r <- FCMeasurement.transform tfun (snd kv) transform
                            direction chans return_all auto_range use_spln
                            false None args kwargs ;;
                     Ok (fst kv, fst r))
                  (members new) ;;
       Ok (mk (ID new) items, None)) ;;
  let new := fst res in
  let new := match new_ID with
             | Some i => set_ID new i
             | None => new
             end in
  if share_transform && get_transformer
  then Ok (new, snd res)
  else Ok (new, None).

(** The block [## create transformer] of the shared branch, on its own. *)
Definition create_shared_transformer (self : t) (first : FCMeasurement.t)
  (transform : transform_spec) (direction : string) (chans : list string)
  (auto_range use_spln : bool) (args : list argument)
  (kwargs : list (string * argument)) : result Transformation :=
  let channel_meta := FCMeasurement.channels first in
  let channel_names := FCMeasurement.channel_names first in
  match transform with
  | Prebuilt tr => Ok tr
  | ToBuild name =>
      kwargs <-
        (if auto_range then
           if has_key "d" kwargs then Ok kwargs
           else
             ranges <- FCMeasurement.selected_ranges channel_meta
                         channel_names chans ;;
             r0 <- Py.getitem ranges 0 ;;
             if negb (Np.allclose ranges r0)
             then Raise (Exception_ range_mismatch)
             else if range_sensitive name
                  then Ok (set_key "d" (Log10 r0) kwargs)
                  else Ok kwargs
         else Ok kwargs) ;;
      let transformer := new_Transformation name direction args kwargs in
      if use_spln then
        maxes <- apply_data (fun x => sub <- Pandas.getitem x chans ;;
                                      Ok (max_max sub)) self ;;
        let xmax := Np.nanmax maxes in
        mins <- apply_data (fun x => sub <- Pandas.getitem x chans ;;
                                     Ok (min_min sub)) self ;;
        let xmin := Np.nanmin mins in
        Ok (set_spline xmin xmax transformer)
      else Ok transformer
  end.

(** The loop [## transform all measurements] of the shared branch. *)
Definition transform_all (tfun : transform_fun) (self : t)
  (transformer : Transformation) (chans : list string)
  (return_all use_spln : bool) : result (list (string * FCMeasurement.t)) :=
  traverse
    (fun kv =>
       r <- FCMeasurement.transform tfun (snd kv) (Prebuilt transformer)
              "forward" (Some chans) return_all true use_spln false None [] [] ;;
       Ok (fst kv, fst r))
    (members self).

End FCCollection.
(** ** FCOrderedCollection *)

Module FCOrderedCollection.

(** The value found under ['bins'] in the keyword arguments of [plot]. *)
Inductive bins_argument : Type :=
| BinCount (n : Z)
| BinEdges.

(** [np.linspace(lo, hi, n)], kept symbolic. *)
Inductive linspace : Type := Linspace (lo hi : float) (n : Z).

(** What [plot] stores under ['bins']: one array for a single channel, a
    list of arrays otherwise. *)
Inductive bins : Type :=
| OneAxis (b : linspace)
| Axes (bs : list linspace).

(** The loop [for i, c in enumerate(channel_names)] of [plot]. *)
Fixpoint channel_bins (i : Z) (channel_names : list string)
  (min_list max_list : list (list float)) (nbins : Z) : result (list linspace) :=
  match channel_names with
  | [] => Ok []
  | _ :: rest =>
      mins <- Py.getitem min_list i ;;
      min_v <- Py.min mins ;;
      maxs <- Py.getitem max_list i ;;
      max_v <- Py.max maxs ;;
      more <- channel_bins (i + 1) rest min_list max_list nbins ;;
      Ok (Linspace min_v max_v nbins :: more)
  end.

(** The block [Determine data limits for binning] of
    [FCOrderedCollection.plot]: the new value of [kwargs['bins']], or [None]
    when the keyword arguments are left as they are. *)
Definition plot_bins (self : FCCollection.t) (channel_names : list string)
  (kind : string) (bins_kwarg : option bins_argument) : result (option bins) :=
  if String.eqb kind "histogram" then
    let nbins := match bins_kwarg with
                 | Some b => b
                 | None => BinCount 200
                 end in
    match nbins with
    | BinCount nbins =>
        lists <- FCCollection.traverse
                   (fun sample =>
                      let data := FCMeasurement.data sample in
                      sub <- Pandas.getitem data channel_names ;;
                      let mins := map Np.nanmin (column_cells sub) in
                      sub <- Pandas.getitem data channel_names ;;
                      let maxs := map Np.nanmax (column_cells sub) in
                      Ok (mins, maxs))
                   (FCCollection.values self) ;;
        let min_list := Py.zip_star (map fst lists) in
        let max_list := Py.zip_star (map snd lists) in
        bins <- channel_bins 0 channel_names min_list max_list nbins ;;
        if Nat.eqb (length channel_names) 1
        then b <- Py.getitem bins 0 ;; Ok (Some (OneAxis b))
        else Ok (Some (Axes bins))
    | BinEdges => Ok None
    end
  else Ok None.

End FCOrderedCollection.


(** ** The cells behind the bounds of a shared spline *)

(** All the cells of the selected channels of one table, column by column. *)
Definition selected_cells (chans : list string) (df : DataFrame) : list cell :=
  match Pandas.getitem df chans with
  | Ok sub => concat (column_cells sub)
  | Raise _ => []
  end.

(** The cells of one channel of a table; none when the table does not have
    the channel. *)
Definition channel_cells (df : DataFrame) (c : string) : list cell :=
  match column df c with
  | Some cells => cells
  | None => []
  end.

(** The channels a shared transform works on. *)
Definition shared_channels (self : FCCollection.t) (chans : option (list string))
  : list string :=
  match chans with
  | Some cs => cs
  | None =>
      match hd_error (FCCollection.values self) with
      | Some first => FCMeasurement.channel_names first
      | None => []
      end
  end.

(** ** Measurements as objects in a store *)

(** [gate] statement by statement over a store of Measurement objects, so
    that what happens to the receiver is visible. *)
Module Store.

Definition ref : Type := nat.
Definition store : Type := list FCMeasurement.t.

Definition deref (h : store) (r : ref) : option FCMeasurement.t := nth_error h r.

(** A new object is placed after the existing ones. *)
Definition alloc (h : store) (m : FCMeasurement.t) : ref * store :=
  (length h, h ++ [m]).

Definition update (h : store) (r : ref) (m : FCMeasurement.t) : store :=
  set_nth r m h.

(** [newsample = self.copy()]: a fresh object with the fields of [self]. *)
Definition copy (h : store) (self : ref) : option (ref * store) :=
  match deref h self with
  | Some m => Some (alloc h (FCMeasurement.copy m))
  | None => None
  end.

(** [obj.data = d]. *)
Definition set_data (h : store) (r : ref) (d : DataFrame) : option store :=
  match deref h r with
  | Some m => Some (update h r (FCMeasurement.set_data m d))
  | None => None
  end.

(** [FCMeasurement.gate] on the store: the reference of the new sample and
    the store after the call; [None] when [self] is dangling. *)
Definition gate (h : store) (self : ref) (gate : FCMeasurement.Gate)
  : option (result (ref * store)) :=
  match deref h self with
  | None => None
  | Some m =>
      let data := FCMeasurement.get_data m in
      match gate data with
      | Raise e => Some (Raise e)
      | Ok newdata =>
          match copy h self with
          | None => None
          | Some (newsample, h1) =>
              match set_data h1 newsample newdata with
              | None => None
              | Some h2 => Some (Ok (newsample, h2))
              end
          end
      end
  end.

End Store.

(** ** Sample data *)

Module Examples.

Import FCMeasurement.

(** The floats [1000.0], [2000.0], [1000000.0], [1000001.0], [0.5], [2.0]
    and [3.0]. *)
Definition f1000 : float := S754_finite false 8796093022208000 (-43).
Definition f2000 : float := S754_finite false 8796093022208000 (-42).
Definition f1000000 : float := S754_finite false 8589934592000000 (-33).
Definition f1000001 : float := S754_finite false 8589943181934592 (-33).
Definition half : float := S754_finite false 4503599627370496 (-53).
Definition two : float := S754_finite false 4503599627370496 (-51).
Definition three : float := S754_finite false 6755399441055744 (-51).

(** A table of three events over the channels A, B and C. *)
Definition table3 : DataFrame :=
  Frame ["A"; "B"; "C"]
    [(0, [of_int 1; of_int 2; of_int 3]);
     (1, [of_int 4; of_int 5; of_int 6]);
     (2, [of_int 7; of_int 8; of_int 9])].

Definition meta_of (ra rb rc : float) : Meta :=
  mkMeta [(1, ChannelRow "A" ra); (2, ChannelRow "B" rb); (3, ChannelRow "C" rc)]
    ["A"; "B"; "C"] [].

Definition sample3 : FCMeasurement.t :=
  mk "well A1" "a1.fcs" table3 (meta_of f1000 f1000 f2000).

(** Two events that carry the same row label. *)
Definition table_dup : DataFrame :=
  Frame ["A"; "B"; "C"]
    [(0, [of_int 1; of_int 2; of_int 3]);
     (0, [of_int 4; of_int 5; of_int 6])].

Definition sample_dup : FCMeasurement.t :=
  mk "well A2" "a2.fcs" table_dup (meta_of f1000 f1000 f2000).


(** A second sample that declares another range for channel A. *)
Definition table3' : DataFrame :=
  Frame ["A"; "B"; "C"]
    [(0, [of_int 10; of_int 20; of_int 30]);
     (1, [of_int 0; of_int 50; of_int 60])].

Definition sample3' : FCMeasurement.t :=
  mk "well B1" "b1.fcs" table3' (meta_of f2000 f2000 f2000).

Definition plate : FCCollection.t :=
  FCCollection.mk "plate" [("A1", sample3); ("B1", sample3')].

(** A Transformation backend that negates every cell, and a gate that keeps
    the first event only. *)
Definition negate : transform_fun := fun _ _ _ c => SFopp c.

Definition first_event : Gate := fun d => Ok (Frame (columns d) (firstn 1 (rows d))).

End Examples.

(* ===================================================================== *)
(** * Part II: lemmas and theorems                                        *)
(* ===================================================================== *)

(** ** The error monad *)

Lemma bind_ok {A B : Type} (r : result A) (k : A -> result B) (b : B) :
  bind r k = Ok b -> exists a, r = Ok a /\ k a = Ok b.
Proof.
  destruct r as [a | e]; simpl; intros H; [exists a; auto | discriminate].
Qed.

Lemma bind_raise {A B : Type} (r : result A) (k : A -> result B) (e : exn) :
  bind r k = Raise e -> r = Raise e \/ exists a, r = Ok a /\ k a = Raise e.
Proof.
  destruct r as [a | e']; simpl; intros H.
  - right; exists a; auto.
  - left; congruence.
Qed.

(** Splits every successful [bind] found among the hypotheses. *)
Ltac inv_bind :=
  repeat match goal with
         | H : bind _ _ = Ok _ |- _ =>
             let a := fresh "a" in
             let Ha := fresh "Ha" in
             apply bind_ok in H; destruct H as [a [Ha H]]
         | H : Ok _ = Ok _ |- _ => injection H as H
         | H : Raise _ = Ok _ |- _ => discriminate H
         end.

(** ** Positional selection *)

Section Take.

Context {A : Type}.

Lemma take_nil (l : list A) : take l [] = [].
Proof. reflexivity. Qed.

Lemma take_seq (l : list A) (n s : nat) :
  (s + n <= length l)%nat ->
  take l (map Z.of_nat (seq s n)) = firstn n (skipn s l).
Proof.
  revert s; induction n as [| n IH]; intros s Hlen; simpl.
  - reflexivity.
  - rewrite Nat2Z.id.
    destruct (nth_error l s) as [x |] eqn:Hx.
    + assert (Hs : skipn s l = x :: skipn (S s) l).
      { clear -Hx. revert l Hx; induction s as [| s IHs]; intros [| y l] Hx;
          simpl in *; try discriminate.
        - injection Hx as ->; reflexivity.
        - apply IHs; exact Hx. }
      rewrite Hs; simpl. f_equal.
      unfold take in IH. apply IH. lia.
    + apply nth_error_None in Hx. lia.
Qed.

Lemma range_step1 (a : Z) (s n : nat) :
  0 <= a ->
  map (fun i => a + Z.of_nat i * 1) (seq s n) =
  map Z.of_nat (seq (Z.to_nat a + s) n).
Proof.
  intros Ha. revert s; induction n as [| n IH]; intros s; simpl.
  - reflexivity.
  - f_equal; [lia |].
    rewrite IH. now rewrite Nat.add_succ_r.
Qed.

(** The positions [a, a+1, ..., z-1] select the window between [a] and [z]. *)
Lemma take_range (l : list A) (a z : Z) :
  0 <= a -> z <= Z.of_nat (length l) ->
  take l (Py.range a z 1) =
  firstn (Z.to_nat (z - a)) (skipn (Z.to_nat a) l).
Proof.
  intros Ha Hz. unfold Py.range, Py.range_len.
  replace (0 <? 1) with true by reflexivity.
  destruct (a <? z) eqn:Haz.
  - apply Z.ltb_lt in Haz.
    replace ((z - a - 1) / 1 + 1) with (z - a) by (rewrite Z.div_1_r; lia).
    rewrite range_step1 by lia. rewrite Nat.add_0_r.
    apply take_seq. lia.
  - apply Z.ltb_ge in Haz.
    replace (Z.to_nat (z - a)) with O by lia. reflexivity.
Qed.

Lemma firstn_incl (l : list A) (n : nat) : incl (firstn n l) l.
Proof.
  intros x Hx. rewrite <- (firstn_skipn n l). apply in_or_app. now left.
Qed.

Lemma skipn_incl (l : list A) (n : nat) : incl (skipn n l) l.
Proof.
  intros x Hx. rewrite <- (firstn_skipn n l). apply in_or_app. now right.
Qed.

End Take.

(** ** Slices by position *)

(** A slice without a step is the window between its normalised bounds. *)
Lemma iloc_unit_step (df : DataFrame) (a z : option Z) :
  let n := num_rows df in
  let a' := match a with Some b => Py.clamp n 0 n b | None => 0 end in
  let z' := match z with Some b => Py.clamp n 0 n b | None => n end in
  iloc df (Py.Slice a z None) =
  Ok (Frame (columns df)
        (firstn (Z.to_nat (z' - a')) (skipn (Z.to_nat a') (rows df)))).
Proof.
  intros n a' z'. unfold iloc, Py.slice_positions, Py.slice_indices. cbn.
  fold n. fold a' z'. f_equal. f_equal.
  assert (Hn : 0 <= n) by (unfold n, num_rows; lia).
  apply take_range.
  - unfold a', Py.clamp. destruct a as [b |]; [destruct (Z.ltb_spec b 0) |]; lia.
  - fold (num_rows df). fold n. unfold z', Py.clamp.
    destruct z as [b |]; [destruct (Z.ltb_spec b 0) |]; lia.
Qed.

(** [df.iloc[:k]] keeps the first rows. *)
Lemma iloc_head (df : DataFrame) (k : Z) :
  iloc df (Py.Slice None (Some k) None) =
  Ok (Frame (columns df)
        (firstn (Z.to_nat (Py.clamp (num_rows df) 0 (num_rows df) k)) (rows df))).
Proof.
  rewrite iloc_unit_step. cbn. now rewrite Z.sub_0_r.
Qed.

(** [df.iloc[a:]] drops the rows before the bound. *)
Lemma iloc_tail (df : DataFrame) (a : Z) :
  iloc df (Py.Slice (Some a) None None) =
  Ok (Frame (columns df)
        (skipn (Z.to_nat (Py.clamp (num_rows df) 0 (num_rows df) a)) (rows df))).
Proof.
  rewrite iloc_unit_step. cbn. f_equal. f_equal.
  apply firstn_all2. rewrite length_skipn.
  assert (0 <= Py.clamp (num_rows df) 0 (num_rows df) a).
  { unfold Py.clamp, num_rows. destruct (Z.ltb_spec a 0); lia. }
  unfold num_rows in *. lia.
Qed.

(** ** [subsample]: counts below one *)

Import FCMeasurement.

Lemma num_rows_nonneg (df : DataFrame) : 0 <= num_rows df.
Proof. unfold num_rows; lia. Qed.

(** With a count below one the requested [order] is overwritten by
    ['start'], and the result is [data.iloc[:n]]. *)
Lemma subsample_below_one (draws : list nat) (self : t) (n : Z)
  (order : string) (auto_resize : bool) :
  n < 1 ->
  subsample draws self (KInt n) order auto_resize =
  Ok (set_data self
        (Frame (columns (data self))
           (firstn (Z.to_nat (Py.clamp (num_rows (data self)) 0
                                (num_rows (data self)) n))
              (rows (data self))))).
Proof.
  intros Hn. unfold subsample, get_data, copy. cbn [bind].
  pose proof (num_rows_nonneg (data self)) as HN.
  replace (auto_resize && (num_rows (data self) <? n)) with false
    by (destruct (Z.ltb_spec (num_rows (data self)) n); [lia |];
        now rewrite andb_false_r).
  replace (n <? 1) with true by (symmetry; apply Z.ltb_lt; exact Hn).
  cbn -[iloc num_rows]. now rewrite iloc_head.
Qed.

(** A zero count gives the empty table. *)
Lemma subsample_zero (draws : list nat) (self : t) (order : string)
  (auto_resize : bool) :
  subsample draws self (KInt 0) order auto_resize =
  Ok (set_data self (Frame (columns (data self)) [])).
Proof.
  rewrite subsample_below_one by lia.
  unfold Py.clamp. cbn.
  pose proof (num_rows_nonneg (data self)).
  now replace (Z.min 0 (num_rows (data self))) with 0 by lia.
Qed.

(** A negative count [n] keeps all rows but the last [-n]. *)
Lemma subsample_negative (draws : list nat) (self : t) (n : Z)
  (order : string) (auto_resize : bool) :
  n < 0 ->
  subsample draws self (KInt n) order auto_resize =
  Ok (set_data self
        (Frame (columns (data self))
           (firstn (Z.to_nat (num_rows (data self) + n)) (rows (data self))))).
Proof.
  intros Hn. rewrite subsample_below_one by lia.
  unfold Py.clamp. replace (n <? 0) with true by (symmetry; now apply Z.ltb_lt).
  do 3 f_equal. f_equal. lia.
Qed.

(** C4, at the failing input: on a table of three events [subsample(-1)]
    applies the 'start' policy whatever the order, yet the result is not
    empty: the first two events are returned. *)
Theorem subsample_minus_one_keeps_rows :
  forall (draws : list nat) (order : string) (auto_resize : bool),
    exists new,
      subsample draws Examples.sample3 (KInt (-1)) order auto_resize = Ok new /\
      index (data new) = [0; 1] /\
      new = set_data Examples.sample3
              (Frame (columns Examples.table3) (firstn 2 (rows Examples.table3))).
Proof.
  intros draws order auto_resize.
  rewrite subsample_negative by lia.
  eexists; split; [reflexivity | split; reflexivity].
Qed.

(** ** [subsample]: tuple keys *)

(** A tuple of two floats is turned into the slice between the two scaled
    bounds, whatever the floats are. *)
Lemma subsample_tuple_window (draws : list nat) (self : t) (a b : float)
  (order : string) (auto_resize : bool) (lo hi : Z) :
  scaled (num_rows (data self)) (Py.VFloat a) = Ok lo ->
  scaled (num_rows (data self)) (Py.VFloat b) = Ok hi ->
  subsample draws self (KTuple [Py.VFloat a; Py.VFloat b]) order auto_resize =
  subsample draws self (KSlice (Py.Slice (Some lo) (Some hi) None)) order
    auto_resize.
Proof.
  intros Hlo Hhi.
  assert (G0 : Py.getitem [Py.VFloat a; Py.VFloat b] 0 = Ok (Py.VFloat a))
    by reflexivity.
  assert (G1 : Py.getitem [Py.VFloat a; Py.VFloat b] 1 = Ok (Py.VFloat b))
    by reflexivity.
  unfold subsample, get_data.
  cbn -[scaled num_rows iloc Py.lt_opt Py.getitem].
  rewrite G0. cbn [bind]. rewrite Hlo. cbn [bind].
  rewrite G1. cbn [bind]. rewrite Hhi. reflexivity.
Qed.

(** C5, at failing inputs: the tuple [(2.0, 3.0)] lies outside [0, 1] and is
    accepted (the result is an empty table); so is [(-0.5, 1.0)], which
    returns the last event; the one-element tuple [(0.5,)] fails with an
    [IndexError], not with the invalid-argument error. *)
Theorem subsample_tuple_not_validated :
  (forall draws order,
      subsample draws Examples.sample3
        (KTuple [Py.VFloat Examples.two; Py.VFloat Examples.three]) order false
      = Ok (set_data Examples.sample3 (Frame (columns Examples.table3) []))) /\
  (forall draws order,
      subsample draws Examples.sample3
        (KTuple [Py.VFloat (SFopp Examples.half); Py.VFloat one]) order false
      = Ok (set_data Examples.sample3
              (Frame (columns Examples.table3) (skipn 2 (rows Examples.table3))))) /\
  (forall draws order auto_resize,
      subsample draws Examples.sample3 (KTuple [Py.VFloat Examples.half]) order
        auto_resize
      = Raise (IndexError "tuple index out of range")).
Proof.
  split; [| split]; intros; reflexivity.
Qed.

(** ** [subsample]: slices with an open stop bound *)

Lemma slice_key_plain (draws : list nat) (self : t) (s : Py.slice)
  (order : string) :
  subsample draws self (KSlice s) order false =
  (d <- iloc (data self) s ;; Ok (set_data self d)).
Proof. reflexivity. Qed.

Lemma slice_key_resized (draws : list nat) (self : t) (lo hi : Z)
  (st : option Z) (order : string) :
  let n := num_rows (data self) in
  subsample draws self (KSlice (Py.Slice (Some lo) (Some hi) st)) order true =
  subsample draws self
    (KSlice (Py.Slice (Some (if lo <? n then lo else n))
               (Some (if hi <? n then hi else n)) st)) order false.
Proof.
  intros n. unfold subsample, get_data. cbn -[iloc num_rows]. fold n.
  destruct (lo <? n), (hi <? n); reflexivity.
Qed.

(** C10, counterexample: with [auto_resize=False] the slice [::0], whose
    stop bound is open, does not succeed; and the slice [1::-1] selects the
    events towards the start of the table, leaving out the last one. *)
Lemma open_stop_slice_can_fail :
  subsample [] Examples.sample3 (KSlice (Py.Slice None None (Some 0))) "random"
    false = Raise (ValueError "slice step cannot be zero") /\
  (exists new,
      subsample [] Examples.sample3 (KSlice (Py.Slice (Some 1) None (Some (-1))))
        "random" false = Ok new /\
      index (data new) = [1; 0]).
Proof.
  split; [reflexivity |].
  eexists; split; reflexivity.
Qed.

(** C10, amended: a slice key with an open stop bound makes [subsample] fail
    with a [TypeError] when [auto_resize] is set, before any row is selected
    (so does an open start bound); without [auto_resize] the same slice
    succeeds whenever its step is not zero, and for a missing or positive
    step it selects exactly what the slice ending at the end of the table
    selects (every row from the start bound on, when there is no step);
    with [auto_resize] and two integer bounds the bounds are clamped to the
    number of events and no [TypeError] is raised. *)
Theorem subsample_open_stop_slice :
  forall (draws : list nat) (self : t) (a st : option Z) (order : string),
    let n := num_rows (data self) in
    let unordered :=
      TypeError "'<' not supported between instances of 'NoneType' and 'int'" in
    subsample draws self (KSlice (Py.Slice a None st)) order true
      = Raise unordered /\
    (forall hi,
        subsample draws self (KSlice (Py.Slice None (Some hi) st)) order true
        = Raise unordered) /\
    (st <> Some 0 ->
     exists d,
       subsample draws self (KSlice (Py.Slice a None st)) order false
       = Ok (set_data self d)) /\
    ((st = None \/ exists k, st = Some k /\ 0 < k) ->
     subsample draws self (KSlice (Py.Slice a None st)) order false
     = subsample draws self (KSlice (Py.Slice a (Some n) st)) order false) /\
    (st = None ->
     subsample draws self (KSlice (Py.Slice a None st)) order false
     = Ok (set_data self
             (Frame (columns (data self))
                (skipn (Z.to_nat match a with
                                 | Some b => Py.clamp n 0 n b
                                 | None => 0
                                 end) (rows (data self)))))) /\
    (forall lo hi,
        subsample draws self (KSlice (Py.Slice (Some lo) (Some hi) st)) order true
        = subsample draws self
            (KSlice (Py.Slice (Some (if lo <? n then lo else n))
                       (Some (if hi <? n then hi else n)) st)) order false).
Proof.
  intros draws self a st order n unordered.
  pose proof (num_rows_nonneg (data self)) as Hn. fold n in Hn.
  split; [reflexivity |].
  split.
  { intros hi. unfold subsample, get_data. cbn -[iloc num_rows].
    destruct (hi <? num_rows (data self)); reflexivity. }
  split.
  { intros Hst. rewrite slice_key_plain.
    unfold iloc, Py.slice_positions, Py.slice_indices. cbn [Py.step].
    destruct (match st with Some k => k | None => 1 end =? 0) eqn:E.
    - exfalso. destruct st as [k |]; [| discriminate].
      apply Z.eqb_eq in E. subst k. now apply Hst.
    - cbn. eexists; reflexivity. }
  split.
  { intros Hst. rewrite !slice_key_plain.
    unfold iloc, Py.slice_positions, Py.slice_indices.
    cbn [Py.step Py.start Py.stop]. fold n.
    assert (Hpos : 0 < match st with Some k => k | None => 1 end).
    { destruct Hst as [-> | [k [-> Hk]]]; lia. }
    destruct (match st with Some k => k | None => 1 end) as [| p | p] eqn:Ek;
      try lia.
    cbn -[Py.range Py.clamp take].
    replace (Py.clamp n 0 n n) with n; [reflexivity |].
    unfold Py.clamp. destruct (Z.ltb_spec n 0); lia. }
  split.
  { intros ->. rewrite slice_key_plain.
    destruct a as [b |].
    - now rewrite iloc_tail.
    - rewrite iloc_unit_step. cbn. rewrite Z.sub_0_r.
      do 3 f_equal. apply firstn_all2. unfold num_rows. lia. }
  intros lo hi. apply slice_key_resized.
Qed.

Lemma subsample_open_stop_slice_witness :
  (exists d,
      subsample [] Examples.sample3 (KSlice (Py.Slice (Some 1) None (Some 2)))
        "random" false = Ok (set_data Examples.sample3 d)) /\
  subsample [] Examples.sample3 (KSlice (Py.Slice (Some 1) None (Some 2)))
    "random" false
  = subsample [] Examples.sample3 (KSlice (Py.Slice (Some 1) (Some 3) (Some 2)))
      "random" false /\
  subsample [] Examples.sample3 (KSlice (Py.Slice (Some 1) None None)) "random"
    false
  = Ok (set_data Examples.sample3
          (Frame (columns Examples.table3) (skipn 1 (rows Examples.table3)))).
Proof.
  pose proof (subsample_open_stop_slice [] Examples.sample3 (Some 1) (Some 2)
                "random") as [_ [_ [H3 [H4 _]]]].
  pose proof (subsample_open_stop_slice [] Examples.sample3 (Some 1) None
                "random") as [_ [_ [_ [_ [H5 _]]]]].
  split; [apply H3; discriminate |].
  split; [apply H4; right; exists 2; split; [reflexivity | lia] |].
  apply H5; reflexivity.
Defined.

(** ** [gate]: the receiver is left alone *)

Section StoreFacts.

Lemma set_nth_length {A : Type} (i : nat) (x : A) (l : list A) :
  length (set_nth i x l) = length l.
Proof.
  revert i; induction l as [| y l IH]; intros [| i]; simpl; auto.
Qed.

Lemma nth_error_set_nth_eq {A : Type} (i : nat) (x : A) (l : list A) :
  (i < length l)%nat -> nth_error (set_nth i x l) i = Some x.
Proof.
  revert i; induction l as [| y l IH]; intros [| i] Hi; simpl in *;
    try lia; auto.
  apply IH; lia.
Qed.

Lemma nth_error_set_nth_ne {A : Type} (i j : nat) (x : A) (l : list A) :
  i <> j -> nth_error (set_nth i x l) j = nth_error l j.
Proof.
  revert i j; induction l as [| y l IH]; intros [| i] [| j] Hij; simpl;
    try reflexivity; try congruence.
  apply IH; congruence.
Qed.

Lemma deref_alloc_old (h : Store.store) (m x : FCMeasurement.t) (r : Store.ref) :
  Store.deref h r = Some x ->
  Store.deref (snd (Store.alloc h m)) r = Some x.
Proof.
  unfold Store.deref, Store.alloc; simpl; intros H.
  rewrite nth_error_app1; [exact H |].
  apply nth_error_Some; congruence.
Qed.

Lemma deref_alloc_new (h : Store.store) (m : FCMeasurement.t) :
  Store.deref (snd (Store.alloc h m)) (fst (Store.alloc h m)) = Some m.
Proof.
  unfold Store.deref, Store.alloc; simpl.
  rewrite nth_error_app2 by lia. now rewrite Nat.sub_diag.
Qed.

End StoreFacts.

(** C9: after [m2 = m.gate(g)] the object [m] is what it was before the call
    (and so is every other object of the store), [m2] is a new object whose
    table is the output of [g] on the table of [m], and [m2] carries the
    metadata (and the ID and data file) of [m]. *)
Theorem gate_leaves_receiver_unchanged :
  forall (h : Store.store) (self : Store.ref) (m : FCMeasurement.t)
         (g : Gate) (out : DataFrame),
    Store.deref h self = Some m ->
    g (data m) = Ok out ->
    exists (m2 : Store.ref) (h' : Store.store),
      Store.gate h self g = Some (Ok (m2, h')) /\
      m2 <> self /\
      Store.deref h' self = Some m /\
      (forall r x, Store.deref h r = Some x -> Store.deref h' r = Some x) /\
      Store.deref h' m2 = Some (set_data m out) /\
      data (set_data m out) = out /\
      meta (set_data m out) = meta m /\
      FCMeasurement.gate m g = Ok (set_data m out).
Proof.
  intros h self m g out Hm Hg.
  assert (Hlt : (self < length h)%nat).
  { apply nth_error_Some. unfold Store.deref in Hm. congruence. }
  exists (length h), (h ++ [set_data m out]).
  assert (Hkeep : forall r x, Store.deref h r = Some x ->
                              Store.deref (h ++ [set_data m out]) r = Some x).
  { intros r x Hr. unfold Store.deref in *.
    rewrite nth_error_app1; [exact Hr |].
    apply nth_error_Some; congruence. }
  repeat split.
  - unfold Store.gate, get_data. rewrite Hm, Hg.
    unfold Store.copy. rewrite Hm.
    unfold Store.alloc, Store.set_data, Store.deref, FCMeasurement.copy.
    rewrite nth_error_app2 by lia. rewrite Nat.sub_diag. cbn [nth_error].
    unfold Store.update. do 3 f_equal.
    clear. induction h as [| y h IH]; simpl; [reflexivity | now rewrite IH].
  - lia.
  - apply Hkeep; exact Hm.
  - exact Hkeep.
  - unfold Store.deref. rewrite nth_error_app2 by lia.
    now rewrite Nat.sub_diag.
  - unfold FCMeasurement.gate, get_data, copy. now rewrite Hg.
Qed.

Lemma gate_leaves_receiver_unchanged_witness :
  exists (m2 : Store.ref) (h' : Store.store),
    Store.gate [Examples.sample3] 0%nat Examples.first_event = Some (Ok (m2, h')) /\
    m2 <> 0%nat /\
    Store.deref h' 0%nat = Some Examples.sample3 /\
    (forall r x, Store.deref [Examples.sample3] r = Some x ->
                 Store.deref h' r = Some x) /\
    Store.deref h' m2
    = Some (set_data Examples.sample3
              (Frame (columns Examples.table3) (firstn 1 (rows Examples.table3)))) /\
    data (set_data Examples.sample3
            (Frame (columns Examples.table3) (firstn 1 (rows Examples.table3))))
    = Frame (columns Examples.table3) (firstn 1 (rows Examples.table3)) /\
    meta (set_data Examples.sample3
            (Frame (columns Examples.table3) (firstn 1 (rows Examples.table3))))
    = meta Examples.sample3 /\
    FCMeasurement.gate Examples.sample3 Examples.first_event
    = Ok (set_data Examples.sample3
            (Frame (columns Examples.table3) (firstn 1 (rows Examples.table3)))).
Proof.
  apply (gate_leaves_receiver_unchanged [Examples.sample3] 0%nat Examples.sample3
           Examples.first_event
           (Frame (columns Examples.table3) (firstn 1 (rows Examples.table3))));
    reflexivity.
Defined.

(** ** [subsample]: random order *)

Section Sampling.

Context {A : Type}.

Lemma nth_error_split_perm (l : list A) (j : nat) (x : A) :
  nth_error l j = Some x ->
  Permutation (x :: firstn j l ++ skipn (S j) l) l.
Proof.
  revert j; induction l as [| y l IH]; intros [| j] H; simpl in *;
    try discriminate.
  - injection H as ->. apply Permutation_refl.
  - apply IH in H. cbn [skipn] in H.
    eapply perm_trans; [apply perm_swap |].
    apply perm_skip. exact H.
Qed.

Lemma nth_error_split_length (l : list A) (j : nat) (x : A) :
  nth_error l j = Some x ->
  length (firstn j l ++ skipn (S j) l) = pred (length l).
Proof.
  intros H.
  apply nth_error_split_perm, Permutation_length in H.
  cbn [length] in H. lia.
Qed.

(** Drawing without replacement: the items drawn and the items left over make
    up the pool. *)
Lemma draw_permutation (draws : list nat) (pool : list A) (k : nat) :
  (k <= length pool)%nat ->
  exists rest,
    Permutation (Py.draw draws pool k ++ rest) pool /\
    length (Py.draw draws pool k) = k.
Proof.
  revert draws pool; induction k as [| k IH]; intros draws pool Hk.
  - exists pool; split; [apply Permutation_refl | reflexivity].
  - cbn [Py.draw].
    assert (Hpos : (0 < length pool)%nat) by lia.
    set (j := (hd O draws mod length pool)%nat).
    assert (Hj : (j < length pool)%nat)
      by (apply Nat.mod_upper_bound; lia).
    destruct (nth_error pool j) as [x |] eqn:Hx;
      [| apply nth_error_None in Hx; lia].
    pose proof (nth_error_split_perm pool j x Hx) as Hperm.
    pose proof (nth_error_split_length pool j x Hx) as Hlen.
    destruct (IH (tl draws) (firstn j pool ++ skipn (S j) pool)) as [rest [Hr Hl]];
      [lia |].
    exists rest; split.
    + cbn [app]. eapply perm_trans; [| exact Hperm].
      apply perm_skip. exact Hr.
    + cbn [length]. now rewrite Hl.
Qed.

(** [random.sample] succeeds for [0 <= k <= len(population)] and returns [k]
    items of the population; they are pairwise distinct when the population
    has no repetition. *)
Lemma sample_spec (draws : list nat) (population : list A) (k : Z) :
  0 <= k <= Z.of_nat (length population) ->
  exists picked,
    Py.sample draws population k = Ok picked /\
    Z.of_nat (length picked) = k /\
    incl picked population /\
    (NoDup population -> NoDup picked).
Proof.
  intros Hk. unfold Py.sample.
  replace ((k <? 0) || (Z.of_nat (length population) <? k)) with false.
  2:{ symmetry. apply orb_false_iff. split; apply Z.ltb_ge; lia. }
  destruct (draw_permutation draws population (Z.to_nat k)) as [rest [Hp Hl]];
    [lia |].
  eexists; split; [reflexivity |].
  split; [rewrite Hl; lia |].
  split.
  - intros x Hx. eapply Permutation_in; [exact Hp |].
    apply in_or_app; left; exact Hx.
  - intros Hnd.
    apply Permutation_sym in Hp.
    pose proof (Permutation_NoDup Hp Hnd) as Hnd'.
    apply NoDup_app_remove_r in Hnd'. exact Hnd'.
Qed.

End Sampling.

(** Under distinct labels, [loc] returns one row per requested label. *)
Lemma filter_label_unique (rs : list (label * list cell)) (l : label) :
  NoDup (map fst rs) -> In l (map fst rs) ->
  exists r, filter (fun r => fst r =? l) rs = [r] /\ In r rs /\ fst r = l.
Proof.
  induction rs as [| r rs IH]; simpl; intros Hnd Hin; [contradiction |].
  inversion Hnd as [| ? ? Hnot Hnd']; subst.
  destruct (Z.eqb_spec (fst r) l) as [Heq | Hne].
  - exists r. split; [| auto].
    f_equal.
    assert (Hnone : forall r', In r' rs -> (fst r' =? l) = false).
    { intros r' Hr'. apply Z.eqb_neq. intros E. apply Hnot.
      rewrite Heq, <- E. now apply in_map. }
    clear -Hnone. induction rs as [| r' rs IH]; simpl; [reflexivity |].
    rewrite Hnone by (left; reflexivity).
    apply IH. intros; apply Hnone; right; assumption.
  - destruct Hin as [Hin | Hin]; [contradiction |].
    destruct (IH Hnd' Hin) as [r' [Hf [Hr' Hl]]].
    exists r'; auto.
Qed.

Lemma loc_rows_unique (rs : list (label * list cell)) (labels : list label) :
  NoDup (map fst rs) -> incl labels (map fst rs) ->
  exists out,
    loc_rows rs labels = Ok out /\ map fst out = labels /\ incl out rs.
Proof.
  intros Hnd. induction labels as [| l ls IH]; intros Hincl.
  - exists []; repeat split; auto. intros x [].
  - destruct (filter_label_unique rs l Hnd) as [r [Hf [Hr Hl]]];
      [apply Hincl; left; reflexivity |].
    destruct IH as [out [Ho [Hm Hi]]];
      [intros x Hx; apply Hincl; right; exact Hx |].
    exists (r :: out). cbn [loc_rows]. rewrite Hf, Ho. cbn.
    repeat split.
    + now rewrite Hl, Hm.
    + intros x [<- | Hx]; auto.
Qed.

(** A count between 0 and the number of events, under ['random']. *)
Lemma int_key_random (draws : list nat) (self : t) (k : Z) (auto_resize : bool) :
  NoDup (index (data self)) ->
  0 <= k <= num_rows (data self) ->
  exists newdata,
    subsample draws self (KInt k) "random" auto_resize
    = Ok (set_data self newdata) /\
    columns newdata = columns (data self) /\
    num_rows newdata = k /\
    NoDup (index newdata) /\
    NoDup (rows newdata) /\
    incl (rows newdata) (rows (data self)).
Proof.
  intros Hnd Hk.
  destruct (Z.ltb_spec k 1) as [Hlt | Hge].
  - assert (k = 0) by lia; subst k.
    rewrite subsample_zero.
    eexists; split; [reflexivity |]. cbn.
    repeat split; try constructor. intros x [].
  - unfold subsample, get_data, copy. cbn [bind].
    replace (auto_resize && (num_rows (data self) <? k)) with false
      by (destruct (Z.ltb_spec (num_rows (data self)) k); [lia |];
          now rewrite andb_false_r).
    replace (k <? 1) with false by (symmetry; apply Z.ltb_ge; lia).
    destruct (sample_spec draws (index (data self)) k) as [picked [Hs [Hl [Hi Hd]]]].
    { unfold index. rewrite length_map. exact Hk. }
    change (("random" =? "random")%string) with true. cbv iota.
    rewrite Hs. cbn [bind]. unfold loc.
    destruct (loc_rows_unique (rows (data self)) picked Hnd Hi)
      as [out [Ho [Hm Hincl]]].
    rewrite Ho. cbn [bind].
    eexists; split; [reflexivity |]. cbn [columns rows].
    assert (Hlab : NoDup (map fst out)) by (rewrite Hm; apply Hd; exact Hnd).
    repeat split; auto.
    + unfold num_rows. cbn [rows].
      rewrite <- (length_map fst out), Hm. exact Hl.
    + eapply NoDup_map_inv; exact Hlab.
Qed.

(** C6: on a table of [N] events with distinct row labels, for every integer
    [0 <= k <= N] and whatever the random draws are,
    [subsample(k, order='random', auto_resize=False)] succeeds and returns a
    table of exactly [k] rows, pairwise distinct (they carry pairwise
    distinct labels), each of them a row of the original table; columns and
    metadata are those of the original. *)
Theorem subsample_random_distinct :
  forall (draws : list nat) (self : t) (k : Z),
    NoDup (index (data self)) ->
    0 <= k <= num_rows (data self) ->
    exists newdata,
      subsample draws self (KInt k) "random" false = Ok (set_data self newdata) /\
      columns newdata = columns (data self) /\
      num_rows newdata = k /\
      NoDup (index newdata) /\
      NoDup (rows newdata) /\
      incl (rows newdata) (rows (data self)).
Proof.
  intros draws self k Hnd Hk. now apply int_key_random.
Qed.

Lemma subsample_random_distinct_witness :
  exists newdata,
    subsample [5; 7; 1]%nat Examples.sample3 (KInt 2) "random" false
    = Ok (set_data Examples.sample3 newdata) /\
    columns newdata = columns (data Examples.sample3) /\
    num_rows newdata = 2 /\
    NoDup (index newdata) /\
    NoDup (rows newdata) /\
    incl (rows newdata) (rows (data Examples.sample3)).
Proof.
  apply (subsample_random_distinct [5; 7; 1]%nat Examples.sample3 2).
  - repeat constructor; simpl; intuition discriminate.
  - cbn; lia.
Defined.

(** ** Columns of a frame *)

Lemma has_column_In (cols : list string) (c : string) :
  has_column cols c = true <-> In c cols.
Proof.
  unfold has_column. rewrite existsb_exists. split.
  - intros [x [Hx He]]. apply String.eqb_eq in He. now subst.
  - intros H. exists c. split; [exact H | apply String.eqb_refl].
Qed.

Lemma position_nth_error (c : string) (cols : list string) (i : nat) :
  position c cols = Some i -> nth_error cols i = Some c.
Proof.
  revert i; induction cols as [| c' cols IH]; intros i; simpl; [discriminate |].
  destruct (String.eqb_spec c c') as [-> | Hne].
  - intros [= <-]. reflexivity.
  - destruct (position c cols) as [j |]; [| discriminate].
    intros [= <-]. simpl. now apply IH.
Qed.

Lemma position_lt (c : string) (cols : list string) (i : nat) :
  position c cols = Some i -> (i < length cols)%nat.
Proof.
  intros H. apply position_nth_error in H.
  apply nth_error_Some. congruence.
Qed.

Lemma position_In (c : string) (cols : list string) :
  In c cols <-> exists i, position c cols = Some i.
Proof.
  split.
  - induction cols as [| c' cols IH]; simpl; [contradiction |].
    destruct (String.eqb_spec c c') as [-> | Hne]; [eauto |].
    intros [-> | H]; [contradiction |].
    destruct (IH H) as [i ->]. eauto.
  - intros [i H]. apply position_nth_error in H.
    eapply nth_error_In; exact H.
Qed.

Lemma position_inj (c c' : string) (cols : list string) (i : nat) :
  position c cols = Some i -> position c' cols = Some i -> c = c'.
Proof.
  intros H H'. apply position_nth_error in H, H'. congruence.
Qed.

Lemma positions_spec (cs cols : list string) (ps : list nat) :
  positions cs cols = Ok ps ->
  Forall2 (fun c i => position c cols = Some i) cs ps.
Proof.
  revert ps; induction cs as [| c cs IH]; intros ps; simpl.
  - intros [= <-]. constructor.
  - destruct (position c cols) as [i |] eqn:Hi; [| discriminate].
    intros H. apply bind_ok in H. destruct H as [rest [Hr [= <-]]].
    constructor; auto.
Qed.

Lemma positions_total (cs cols : list string) :
  incl cs cols -> exists ps, positions cs cols = Ok ps.
Proof.
  induction cs as [| c cs IH]; intros Hincl; simpl; [eauto |].
  destruct (proj1 (position_In c cols)) as [i ->];
    [apply Hincl; left; reflexivity |].
  destruct IH as [ps ->]; [intros x Hx; apply Hincl; right; exact Hx |].
  cbn. eauto.
Qed.

Lemma positions_incl (cs cols : list string) (ps : list nat) :
  positions cs cols = Ok ps -> incl cs cols.
Proof.
  intros H. apply positions_spec in H.
  induction H as [| c i cs ps Hc _ IH]; intros x; [intros [] |].
  intros [<- | Hx]; [| now apply IH].
  apply position_In; eauto.
Qed.

Lemma filter_present (cs cols : list string) :
  incl cs cols -> filter (has_column cols) cs = cs.
Proof.
  induction cs as [| c cs IH]; intros Hincl; simpl; [reflexivity |].
  rewrite (proj2 (has_column_In cols c)) by (apply Hincl; left; reflexivity).
  f_equal. apply IH. intros x Hx; apply Hincl; right; exact Hx.
Qed.

(** On names that are all present, [filter] is the plain selection. *)
Lemma filter_items_getitem (df : DataFrame) (cs : list string) (sub : DataFrame) :
  Pandas.getitem df cs = Ok sub -> filter_items df cs = Ok sub.
Proof.
  intros H. unfold filter_items.
  rewrite filter_present; [exact H |].
  unfold Pandas.getitem in H. apply bind_ok in H.
  destruct H as [ps [Hps _]]. eapply positions_incl; exact Hps.
Qed.


Lemma nth_set_nth_eq {A : Type} (i : nat) (x d : A) (l : list A) :
  (i < length l)%nat -> nth i (set_nth i x l) d = x.
Proof.
  revert i; induction l as [| y l IH]; intros [| i] Hi; simpl in *;
    try lia; auto.
  apply IH; lia.
Qed.

Lemma nth_set_nth_ne {A : Type} (i j : nat) (x d : A) (l : list A) :
  i <> j -> nth j (set_nth i x l) d = nth j l d.
Proof.
  revert i j; induction l as [| y l IH]; intros [| i] [| j] Hij; simpl;
    try reflexivity; try congruence.
  apply IH; congruence.
Qed.

Section Zip.

Context {R V B : Type}.

Lemma map_combine_left (f : R -> B) (rs : list R) (vs : list V) :
  length rs = length vs ->
  map (fun rv => f (fst rv)) (combine rs vs) = map f rs.
Proof.
  revert vs; induction rs as [| r rs IH]; intros [| v vs] H; simpl in *;
    try discriminate; auto.
  f_equal. apply IH. congruence.
Qed.

Lemma map_combine_right (f : R * V -> V) (rs : list R) (vs : list V) :
  length rs = length vs ->
  (forall r v, In r rs -> f (r, v) = v) ->
  map f (combine rs vs) = vs.
Proof.
  revert vs; induction rs as [| r rs IH]; intros [| v vs] H Hf; simpl in *;
    try discriminate; auto.
  f_equal; [apply Hf; auto |].
  apply IH; [congruence | intros; apply Hf; auto].
Qed.

Lemma map_combine_ext (f : R * V -> B) (g : R -> B) (rs : list R) (vs : list V) :
  length rs = length vs ->
  (forall r v, In r rs -> f (r, v) = g r) ->
  map f (combine rs vs) = map g rs.
Proof.
  revert vs; induction rs as [| r rs IH]; intros [| v vs] H Hf; simpl in *;
    try discriminate; auto.
  f_equal; [apply Hf; auto |].
  apply IH; [congruence | intros; apply Hf; auto].
Qed.

End Zip.

(** *** Assigning one column *)

Lemma align_same_index (target : list label) (s : list (label * cell)) :
  target = map fst s -> align target s = Ok (map snd s).
Proof.
  intros ->. unfold align.
  destruct (list_eq_dec Z.eq_dec (map fst s) (map fst s)); [reflexivity |].
  congruence.
Qed.

Lemma series_spec (value : DataFrame) (c : string) (i : nat) :
  NoDup (columns value) ->
  position c (columns value) = Some i ->
  exists s,
    series value c = Ok s /\
    map fst s = index value /\
    column value c = Some (map snd s).
Proof.
  intros Hnd Hi. unfold series, column. rewrite Hi.
  replace (Nat.ltb 1 (count_occ string_dec (columns value) c)) with false
    by (symmetry; apply Nat.ltb_ge;
        apply (proj1 (NoDup_count_occ string_dec (columns value)) Hnd c)).
  eexists; split; [reflexivity |].
  unfold index. rewrite !map_map. split; reflexivity.
Qed.

Lemma setitem_column_existing (df : DataFrame) (c : string)
  (s : list (label * cell)) (i : nat) :
  position c (columns df) = Some i ->
  map fst s = index df ->
  rectangular df ->
  exists df',
    setitem_column df c s = Ok df' /\
    columns df' = columns df /\
    index df' = index df /\
    rectangular df' /\
    column df' c = Some (map snd s) /\
    (forall c', c' <> c -> column df' c' = column df c').
Proof.
  intros Hi Hidx Hrect. unfold setitem_column.
  rewrite align_same_index by (symmetry; exact Hidx).
  cbn [bind]. rewrite Hi.
  assert (Hlen : length (rows df) = length (map snd s)).
  { rewrite length_map, <- (length_map fst s), Hidx.
    unfold index. now rewrite length_map. }
  assert (Hw : forall r, In r (rows df) -> (i < length (snd r))%nat).
  { intros r Hr. unfold rectangular in Hrect.
    rewrite Forall_forall in Hrect. rewrite (Hrect r Hr).
    eapply position_lt; exact Hi. }
  eexists; split; [reflexivity |].
  split; [reflexivity |].
  split.
  { unfold index; cbn [rows]. rewrite map_map. cbn [fst].
    now apply (map_combine_left (fun r => fst r)). }
  split.
  { unfold rectangular; cbn [rows columns].
    apply Forall_forall. intros r Hr.
    apply in_map_iff in Hr. destruct Hr as [[r0 v] [<- Hin]].
    cbn [fst snd]. rewrite set_nth_length.
    apply in_combine_l in Hin.
    unfold rectangular in Hrect. rewrite Forall_forall in Hrect.
    now apply Hrect. }
  split.
  { unfold column; cbn [columns rows]. rewrite Hi. f_equal.
    rewrite map_map. cbn [snd fst].
    apply (map_combine_right
             (fun rv => nth i (set_nth i (snd rv) (snd (fst rv))) S754_nan));
      [exact Hlen |].
    intros r v Hr. cbn [fst snd]. apply nth_set_nth_eq. now apply Hw. }
  intros c' Hne. unfold column; cbn [columns rows].
  destruct (position c' (columns df)) as [j |] eqn:Hj; [| reflexivity].
  f_equal. rewrite map_map. cbn [snd fst].
  apply (map_combine_ext
           (fun rv => nth j (set_nth i (snd rv) (snd (fst rv))) S754_nan)
           (fun r => nth j (snd r) S754_nan));
    [exact Hlen |].
  intros r v Hr. cbn [fst snd]. apply nth_set_nth_ne.
  intros ->. apply Hne. eapply position_inj; eassumption.
Qed.

(** *** Assigning several columns from a frame with the same names *)

Lemma setitem_pairs_same (cs : list string) (value : DataFrame) :
  NoDup (columns value) ->
  incl cs (columns value) ->
  forall df,
    index value = index df ->
    rectangular df ->
    incl cs (columns df) ->
    exists df',
      setitem_pairs df value (combine cs cs) = Ok df' /\
      columns df' = columns df /\
      index df' = index df /\
      rectangular df' /\
      (forall c, column df' c
                 = if has_column cs c then column value c else column df c).
Proof.
  intros Hnd.
  induction cs as [| c cs IH]; intros Hval df Hidx Hrect Hdf.
  - exists df. cbn. repeat split; auto.
  - cbn [combine setitem_pairs].
    destruct (proj1 (position_In c (columns value))) as [j Hj];
      [apply Hval; left; reflexivity |].
    destruct (proj1 (position_In c (columns df))) as [i Hi];
      [apply Hdf; left; reflexivity |].
    destruct (series_spec value c j Hnd Hj) as [s [Hs [Hsi Hsc]]].
    destruct (setitem_column_existing df c s i Hi) as
      [df1 [H1 [Hc1 [Hi1 [Hr1 [Hcol1 Hoth1]]]]]]; auto.
    { now rewrite Hsi. }
    destruct (IH (fun x Hx => Hval x (or_intror Hx)) df1) as
      [df' [H' [Hc' [Hi' [Hr' Hcol']]]]]; auto.
    { now rewrite Hi1. }
    { rewrite Hc1. intros x Hx; apply Hdf; right; exact Hx. }
    exists df'. rewrite Hs. cbn [bind]. rewrite H1. cbn [bind].
    split; [exact H' |].
    split; [congruence |].
    split; [congruence |].
    split; [exact Hr' |].
    intros c0. rewrite Hcol'. unfold has_column at 2. cbn [existsb].
    fold (has_column cs c0).
    destruct (has_column cs c0); [now rewrite orb_true_r |].
    rewrite orb_false_r.
    destruct (String.eqb_spec c0 c) as [-> | Hne].
    + rewrite Hcol1. now rewrite Hsc.
    + now apply Hoth1.
Qed.

(** *** Selecting columns, and calling a Transformation *)

Lemma getitem_spec (df : DataFrame) (cs : list string) (sub : DataFrame) :
  Pandas.getitem df cs = Ok sub ->
  columns sub = cs /\
  index sub = index df /\
  rectangular sub /\
  incl cs (columns df) /\
  (forall c, In c cs -> column sub c = column df c).
Proof.
  intros H. unfold Pandas.getitem in H. apply bind_ok in H.
  destruct H as [ps [Hps [= <-]]].
  pose proof (positions_spec _ _ _ Hps) as HF.
  pose proof (Forall2_length HF) as Hlen.
  split; [reflexivity |].
  split; [unfold index; cbn [rows]; now rewrite map_map |].
  split.
  { unfold rectangular; cbn [rows columns]. apply Forall_forall.
    intros r Hr. apply in_map_iff in Hr. destruct Hr as [r0 [<- _]].
    unfold project; cbn [snd]. now rewrite length_map. }
  split; [eapply positions_incl; exact Hps |].
  intros c Hc. unfold column; cbn [columns rows].
  destruct (proj1 (position_In c cs) Hc) as [j Hj]. rewrite Hj.
  pose proof (position_nth_error _ _ _ Hj) as Hnth.
  assert (Hi : exists i, nth_error ps j = Some i /\
                         position c (columns df) = Some i).
  { clear -HF Hnth. revert j Hnth.
    induction HF as [| c0 i0 cs ps H0 _ IH]; intros [| j] Hnth;
      simpl in *; try discriminate.
    - injection Hnth as <-. eauto.
    - now apply IH. }
  destruct Hi as [i [Hpi Hci]]. rewrite Hci. f_equal.
  rewrite map_map. apply map_ext. intros r. unfold project; cbn [snd].
  apply nth_error_nth.
  rewrite nth_error_map, Hpi. reflexivity.
Qed.

Lemma call_Transformation_spec (tfun : transform_fun) (tr : Transformation)
  (x : DataFrame) (use_spln : bool) :
  rectangular x ->
  let y := call_Transformation tfun tr x use_spln in
  columns y = columns x /\
  index y = index x /\
  (forall c, In c (columns x) ->
             column y c = option_map (map (tfun tr use_spln x)) (column x c)).
Proof.
  intros Hrect y. unfold y, call_Transformation.
  split; [reflexivity |].
  split; [unfold index; cbn [rows]; now rewrite map_map |].
  intros c Hc. unfold column; cbn [columns rows].
  destruct (proj1 (position_In c (columns x)) Hc) as [j Hj]. rewrite Hj.
  cbn [option_map]. f_equal. rewrite !map_map. cbn [snd].
  apply map_ext_in. intros r Hr.
  unfold rectangular in Hrect. rewrite Forall_forall in Hrect.
  pose proof (Hrect r Hr) as Hw. pose proof (position_lt _ _ _ Hj) as Hlt.
  rewrite (nth_indep _ S754_nan (tfun tr use_spln x S754_nan))
    by (rewrite length_map; lia).
  apply map_nth.
Qed.

(** The second half of [transform]: the Transformation is applied to the
    selected columns and the outcome is written back. *)
Lemma assign_transformed (tfun : transform_fun) (tr : Transformation)
  (df sub : DataFrame) (cs : list string) (return_all use_spln : bool) :
  rectangular df ->
  NoDup cs ->
  Pandas.getitem df cs = Ok sub ->
  exists new_data,
    (new_data <- (if return_all then Ok df else filter_items df cs) ;;
     Pandas.setitem new_data cs (call_Transformation tfun tr sub use_spln))
    = Ok new_data /\
    index new_data = index df /\
    rectangular new_data /\
    columns new_data = (if return_all then columns df else cs) /\
    (forall c, In c cs ->
               column new_data c
               = option_map (map (tfun tr use_spln sub)) (column df c)) /\
    (return_all = true ->
     forall c, ~ In c cs -> column new_data c = column df c).
Proof.
  intros Hrect Hnd Hsub.
  destruct (getitem_spec _ _ _ Hsub) as [Hc [Hi [Hr [Hincl Hcol]]]].
  destruct (call_Transformation_spec tfun tr sub use_spln Hr) as [Tc [Ti Tcol]].
  set (y := call_Transformation tfun tr sub use_spln) in *.
  assert (Hset : forall df0,
             index df0 = index df -> rectangular df0 -> incl cs (columns df0) ->
             exists df',
               Pandas.setitem df0 cs y = Ok df' /\
               columns df' = columns df0 /\
               index df' = index df /\
               rectangular df' /\
               (forall c, column df' c
                          = if has_column cs c then column y c else column df0 c)).
  { intros df0 H0 R0 I0. unfold Pandas.setitem.
    rewrite Tc, Hc, Nat.eqb_refl. cbn [negb].
    destruct (setitem_pairs_same cs y) with (df := df0)
      as [df' [H' [Hc' [Hi' [Hr' Hcol']]]]]; auto.
    - rewrite Tc, Hc. exact Hnd.
    - rewrite Tc, Hc. apply incl_refl.
    - congruence.
    - exists df'. repeat split; auto; congruence. }
  assert (Hy : forall c, In c cs ->
                 column y c = option_map (map (tfun tr use_spln sub)) (column df c)).
  { intros c Hin. rewrite Tcol by (rewrite Hc; exact Hin). now rewrite Hcol. }
  destruct return_all.
  - destruct (Hset df eq_refl Hrect Hincl) as [df' [H' [Hc' [Hi' [Hr' Hcol']]]]].
    exists df'. cbn [bind]. repeat split; auto.
    + intros c Hin. rewrite Hcol'.
      rewrite (proj2 (has_column_In cs c) Hin). now apply Hy.
    + intros _ c Hnot. rewrite Hcol'.
      destruct (has_column cs c) eqn:E; [| reflexivity].
      apply has_column_In in E. contradiction.
  - rewrite (filter_items_getitem _ _ _ Hsub). cbn [bind].
    destruct (Hset sub Hi Hr) as [df' [H' [Hc' [Hi' [Hr' Hcol']]]]].
    { rewrite Hc. apply incl_refl. }
    exists df'. repeat split; auto; try congruence.
    intros c Hin. rewrite Hcol'.
    rewrite (proj2 (has_column_In cs c) Hin). now apply Hy.
Qed.

(** ** [transform] on a Measurement *)

(** [transform] is its two blocks run one after the other, under the
    decorator. *)
Lemma transform_blocks (tfun : transform_fun) (self : t) (spec : transform_spec)
  (direction : string) (chans : option (list string))
  (return_all auto_range use_spln get_transformer : bool)
  (new_ID : option string) (args : list argument)
  (kwargs : list (string * argument)) :
  let sel := match chans with
             | None => columns (data self)
             | Some cs => cs
             end in
  transform tfun self spec direction chans return_all auto_range use_spln
    get_transformer new_ID args kwargs
  = queueable
      (transformer <- create_transformer self spec direction sel auto_range args
                        kwargs ;;
       create_new_data tfun self transformer sel return_all use_spln
         get_transformer new_ID).
Proof. destruct spec; reflexivity. Qed.

(** What the decorator does to the outcome of the method body. *)
Lemma queueable_ok {A : Type} (r : result (t * option A)) (new : t)
  (out : option A) :
  queueable r = Ok (new, out) <-> r = Ok (new, None) /\ out = None.
Proof.
  unfold queueable. destruct r as [[n [a |]] | e]; split;
    try discriminate; try (intros [H _]; discriminate H).
  - intros [= -> <-]. auto.
  - intros [[= ->] ->]. reflexivity.
Qed.


Lemma queueable_none {A : Type} (r : result (t * option A)) :
  (forall x, r = Ok x -> snd x = None) -> queueable r = r.
Proof.
  intros H. unfold queueable. destruct r as [[n [a |]] | e]; try reflexivity.
  specialize (H _ eq_refl). discriminate H.
Qed.

Lemma create_new_data_returns (tfun : transform_fun) (self : t)
  (tr : Transformation) (cs : list string)
  (return_all use_spln get_transformer : bool) (new_ID : option string)
  (x : t * option Transformation) :
  create_new_data tfun self tr cs return_all use_spln get_transformer new_ID
  = Ok x ->
  snd x = if get_transformer then Some tr else None.
Proof.
  unfold create_new_data. intros H.
  apply bind_ok in H. destruct H as [sub [_ H]].
  apply bind_ok in H. destruct H as [d0 [_ H]].
  apply bind_ok in H. destruct H as [d1 [_ H]].
  destruct get_transformer; injection H as <-; reflexivity.
Qed.

(** The default call, [get_transformer=False], goes through the decorator
    untouched. *)
Lemma transform_default (tfun : transform_fun) (self : t) (spec : transform_spec)
  (direction : string) (chans : option (list string))
  (return_all auto_range use_spln : bool)
  (new_ID : option string) (args : list argument)
  (kwargs : list (string * argument)) :
  let sel := match chans with
             | None => columns (data self)
             | Some cs => cs
             end in
  transform tfun self spec direction chans return_all auto_range use_spln
    false new_ID args kwargs
  = (transformer <- create_transformer self spec direction sel auto_range args
                      kwargs ;;
     create_new_data tfun self transformer sel return_all use_spln
       false new_ID).
Proof.
  intros sel. rewrite transform_blocks. fold sel. apply queueable_none.
  intros x H. apply bind_ok in H. destruct H as [tr [_ H]].
  now apply create_new_data_returns in H.
Qed.

(** Once the Transformation is there, the body of the method goes through as
    soon as the selected channels are columns of the table and none of them
    is selected twice. *)
Lemma create_new_data_spec (tfun : transform_fun) (self : t)
  (tr : Transformation) (cs : list string)
  (return_all use_spln get_transformer : bool) (new_ID : option string)
  (sub : DataFrame) :
  rectangular (data self) ->
  NoDup cs ->
  Pandas.getitem (data self) cs = Ok sub ->
  exists new_data,
    create_new_data tfun self tr cs return_all use_spln get_transformer new_ID
    = Ok (mk (match new_ID with Some i => i | None => ID self end)
            (datafile self) new_data (meta self),
          if get_transformer then Some tr else None) /\
    index new_data = index (data self) /\
    rectangular new_data /\
    columns new_data = (if return_all then columns (data self) else cs) /\
    (forall c, In c cs ->
               column new_data c
               = option_map (map (tfun tr use_spln sub)) (column (data self) c)) /\
    (return_all = true ->
     forall c, ~ In c cs -> column new_data c = column (data self) c).
Proof.
  intros Hrect Hnodup Hsub.
  destruct (assign_transformed tfun tr (data self) sub cs return_all use_spln
              Hrect Hnodup Hsub) as [nd [Hnd Hrest]].
  exists nd. split; [| exact Hrest].
  unfold create_new_data, copy. rewrite Hsub. cbn [bind].
  destruct (if return_all then Ok (data self) else filter_items (data self) cs)
    as [nd0 | e]; cbn [bind] in *; [| discriminate].
  rewrite Hnd. cbn [bind].
  destruct new_ID, get_transformer; reflexivity.
Qed.

(** An assignment [df[cs] = value] that goes through has found every
    column name of [value] once. *)
Lemma setitem_pairs_counts (pairs : list (string * string))
  (value : DataFrame) :
  forall df df',
    setitem_pairs df value pairs = Ok df' ->
    forall k, In k (map snd pairs) ->
              (count_occ string_dec (columns value) k <= 1)%nat.
Proof.
  induction pairs as [| [k1 k2] pairs IH]; intros df df' H k Hk; [destruct Hk |].
  cbn [setitem_pairs] in H.
  apply bind_ok in H. destruct H as [s [Hs H]].
  apply bind_ok in H. destruct H as [df1 [_ H]].
  destruct Hk as [<- | Hk]; [| eapply IH; eassumption].
  cbn [snd]. unfold series in Hs.
  destruct (position k2 (columns value)); [| discriminate].
  destruct (Nat.ltb_spec 1 (count_occ string_dec (columns value) k2));
    [discriminate | assumption].
Qed.

Lemma setitem_nodup (df df' value : DataFrame) (cs : list string) :
  Pandas.setitem df cs value = Ok df' -> NoDup (columns value).
Proof.
  unfold Pandas.setitem.
  destruct (Nat.eqb_spec (length cs) (length (columns value))) as [Hlen | Hne];
    cbn [negb]; [| discriminate].
  intros H. apply (NoDup_count_occ string_dec). intros k.
  destruct (in_dec string_dec k (columns value)) as [Hin | Hnot].
  - apply (setitem_pairs_counts _ _ _ _ H).
    clear H. revert cs Hlen Hin.
    induction (columns value) as [| c cols IH]; intros cs Hlen Hin; [destruct Hin |].
    destruct cs as [| c0 cs]; [discriminate |].
    cbn [combine map snd]. destruct Hin as [-> | Hin]; [now left | right].
    apply IH; [now injection Hlen | exact Hin].
  - apply (count_occ_not_In string_dec) in Hnot. lia.
Qed.

(** A call of [transform] that returns has selected no channel twice. *)
Lemma create_new_data_nodup (tfun : transform_fun) (self : t)
  (tr : Transformation) (cs : list string)
  (return_all use_spln get_transformer : bool) (new_ID : option string)
  (x : t * option Transformation) :
  create_new_data tfun self tr cs return_all use_spln get_transformer new_ID
  = Ok x ->
  NoDup cs.
Proof.
  unfold create_new_data. intros H.
  apply bind_ok in H. destruct H as [sub [Hsub H]].
  apply bind_ok in H. destruct H as [d0 [_ H]].
  apply bind_ok in H. destruct H as [d1 [Hset _]].
  apply setitem_nodup in Hset. cbn [call_Transformation columns] in Hset.
  now rewrite (proj1 (getitem_spec _ _ _ Hsub)) in Hset.
Qed.

(** C8, counterexample: with [return_all=False] and [channels=['C', 'A']]
    the result has the columns C, A in this order: channel C, third in the
    input, comes first, and channel A, first in the input, comes second. *)
Lemma transform_moves_selected_columns :
  exists new,
    transform Examples.negate Examples.sample3 (ToBuild "linear") "forward"
      (Some ["C"; "A"]) false false true false None [] [] = Ok (new, None) /\
    columns (data new) = ["C"; "A"] /\
    position "C" (columns (data Examples.sample3)) = Some 2%nat /\
    position "C" (columns (data new)) = Some 0%nat /\
    position "A" (columns (data Examples.sample3)) = Some 0%nat /\
    position "A" (columns (data new)) = Some 1%nat.
Proof.
  eexists. split; [vm_compute; reflexivity |]. repeat split.
Qed.

(** C8, amended: in a [transform] that returns, on a table with distinct
    column names and rows of full width, the result has the rows of the
    input.  With [return_all=False] its columns are exactly the selected
    channels, in the order in which they were selected.  With
    [return_all=True] its columns are those of the input, each in its old
    position, and every column that was not selected holds the values it
    held.  In both cases each selected channel holds the values the
    Transformation returned for the column of that name. *)
Theorem transform_columns :
  forall (tfun : transform_fun) (self : t) (spec : transform_spec)
         (direction : string) (chans : option (list string))
         (return_all auto_range use_spln get_transformer : bool)
         (new_ID : option string) (args : list argument)
         (kwargs : list (string * argument))
         (new : t) (tr : option Transformation),
    well_formed (data self) ->
    transform tfun self spec direction chans return_all auto_range use_spln
      get_transformer new_ID args kwargs = Ok (new, tr) ->
    let sel := match chans with
               | None => columns (data self)
               | Some cs => cs
               end in
    exists (transformer : Transformation) (sub : DataFrame),
      create_transformer self spec direction sel auto_range args kwargs
      = Ok transformer /\
      Pandas.getitem (data self) sel = Ok sub /\
      NoDup sel /\
      index (data new) = index (data self) /\
      meta new = meta self /\
      (return_all = false -> columns (data new) = sel) /\
      (return_all = true ->
       columns (data new) = columns (data self) /\
       (forall c, position c (columns (data new))
                  = position c (columns (data self))) /\
       forall c, ~ In c sel -> column (data new) c = column (data self) c) /\
      (forall c, In c sel ->
                 In c (columns (data self)) /\
                 column (data new) c
                 = option_map (map (tfun transformer use_spln sub))
                     (column (data self) c)).
Proof.
  intros tfun self spec direction chans return_all auto_range use_spln
    get_transformer new_ID args kwargs new tr [_ Hrect] H sel.
  rewrite transform_blocks in H. fold sel in H.
  apply queueable_ok in H. destruct H as [H _].
  apply bind_ok in H. destruct H as [transformer [Htr H]].
  pose proof (create_new_data_nodup _ _ _ _ _ _ _ _ _ H) as Hnodup.
  destruct (Pandas.getitem (data self) sel) as [sub | e] eqn:Hsub.
  2:{ unfold create_new_data, copy in H. rewrite Hsub in H. discriminate. }
  destruct (create_new_data_spec tfun self transformer sel return_all use_spln
              get_transformer new_ID sub Hrect Hnodup Hsub)
    as [nd [Hnd [Hi [Hr [Hc [Hsel Hoth]]]]]].
  rewrite Hnd in H. injection H as <- _.
  exists transformer, sub. cbn [data meta].
  split; [exact Htr |].
  split; [reflexivity |].
  split; [exact Hnodup |].
  split; [exact Hi |].
  split; [reflexivity |].
  split; [intros ->; exact Hc |].
  split.
  { intros ->. split; [exact Hc |]. split; [intros c; now rewrite Hc |].
    now apply Hoth. }
  intros c Hin. split.
  - destruct (getitem_spec _ _ _ Hsub) as [_ [_ [_ [Hincl _]]]].
    now apply Hincl.
  - now apply Hsel.
Qed.

Lemma transform_columns_witness :
  exists (transformer : Transformation) (sub : DataFrame),
    create_transformer Examples.sample3 (ToBuild "hlog") "forward" ["C"; "A"]
      false [] [] = Ok transformer /\
    Pandas.getitem Examples.table3 ["C"; "A"] = Ok sub /\
    NoDup ["C"; "A"] /\
    index (Frame ["C"; "A"]
             [(0, [SFopp (of_int 3); SFopp (of_int 1)]);
              (1, [SFopp (of_int 6); SFopp (of_int 4)]);
              (2, [SFopp (of_int 9); SFopp (of_int 7)])])
    = index Examples.table3 /\
    meta Examples.sample3 = meta Examples.sample3 /\
    (false = false ->
     columns (Frame ["C"; "A"]
                [(0, [SFopp (of_int 3); SFopp (of_int 1)]);
                 (1, [SFopp (of_int 6); SFopp (of_int 4)]);
                 (2, [SFopp (of_int 9); SFopp (of_int 7)])]) = ["C"; "A"]) /\
    (false = true ->
     columns (Frame ["C"; "A"]
                [(0, [SFopp (of_int 3); SFopp (of_int 1)]);
                 (1, [SFopp (of_int 6); SFopp (of_int 4)]);
                 (2, [SFopp (of_int 9); SFopp (of_int 7)])])
     = columns Examples.table3 /\
     (forall c, position c (columns (Frame ["C"; "A"]
                [(0, [SFopp (of_int 3); SFopp (of_int 1)]);
                 (1, [SFopp (of_int 6); SFopp (of_int 4)]);
                 (2, [SFopp (of_int 9); SFopp (of_int 7)])]))
                = position c (columns Examples.table3)) /\
     forall c, ~ In c ["C"; "A"] ->
               column (Frame ["C"; "A"]
                         [(0, [SFopp (of_int 3); SFopp (of_int 1)]);
                          (1, [SFopp (of_int 6); SFopp (of_int 4)]);
                          (2, [SFopp (of_int 9); SFopp (of_int 7)])]) c
               = column Examples.table3 c) /\
    (forall c, In c ["C"; "A"] ->
               In c (columns Examples.table3) /\
               column (Frame ["C"; "A"]
                         [(0, [SFopp (of_int 3); SFopp (of_int 1)]);
                          (1, [SFopp (of_int 6); SFopp (of_int 4)]);
                          (2, [SFopp (of_int 9); SFopp (of_int 7)])]) c
               = option_map (map (Examples.negate transformer true sub))
                   (column Examples.table3 c)).
Proof.
  apply (transform_columns Examples.negate Examples.sample3 (ToBuild "hlog")
           "forward" (Some ["C"; "A"]) false false true false None [] []
           (set_data Examples.sample3
              (Frame ["C"; "A"]
                 [(0, [SFopp (of_int 3); SFopp (of_int 1)]);
                  (1, [SFopp (of_int 6); SFopp (of_int 4)]);
                  (2, [SFopp (of_int 9); SFopp (of_int 7)])]))
           None).
  - split.
    + repeat constructor; simpl; intuition discriminate.
    + repeat constructor.
  - reflexivity.
Defined.

(** ** Binary64 arithmetic: shifting and rounding *)

Section Rounding.

Lemma iter_pos_nat {A : Type} (f : A -> A) (p : positive) (x : A) :
  iter_pos f p x = Nat.iter (Pos.to_nat p) f x.
Proof.
  revert x; induction p as [p IH | p IH |]; intros x; cbn [iter_pos].
  - rewrite !IH, Pos2Nat.inj_xI.
    replace (S (2 * Pos.to_nat p))%nat with (Pos.to_nat p + S (Pos.to_nat p))%nat
      by lia.
    rewrite Nat.iter_add. f_equal. now rewrite Nat.iter_succ_r.
  - rewrite !IH, Pos2Nat.inj_xO.
    replace (2 * Pos.to_nat p)%nat with (Pos.to_nat p + Pos.to_nat p)%nat by lia.
    now rewrite Nat.iter_add.
  - reflexivity.
Qed.

(** One step of the shift register on a non-negative mantissa. *)
Lemma shr_1_spec (r : shr_record) :
  0 <= shr_m r ->
  shr_m (shr_1 r) = shr_m r / 2 /\
  shr_r (shr_1 r) = Z.odd (shr_m r) /\
  shr_s (shr_1 r) = shr_r r || shr_s r.
Proof.
  destruct r as [m r s]; cbn [shr_m shr_r shr_s]. intros Hm.
  destruct m as [| [p | p |] |]; try lia; cbn [shr_1 shr_m shr_r shr_s];
    repeat split; try reflexivity.
  - apply (Z.div_unique (Z.pos p~1) 2 (Z.pos p) 1); lia.
  - apply (Z.div_unique (Z.pos p~0) 2 (Z.pos p) 0); lia.
Qed.

(** [n] steps divide the mantissa by [2 ^ n]; the two guard bits stay clear
    when nothing is shifted out. *)
Lemma shr_iter_spec (m : Z) (n : nat) :
  0 <= m ->
  let r := Nat.iter n shr_1 (Build_shr_record m false false) in
  shr_m r = m / 2 ^ Z.of_nat n /\
  (m mod 2 ^ Z.of_nat n = 0 -> shr_r r = false /\ shr_s r = false).
Proof.
  intros Hm. induction n as [| n IH]; cbn zeta.
  - cbn [Nat.iter nat_rect shr_m shr_r shr_s]. rewrite Z.div_1_r. auto.
  - cbn zeta in IH. destruct IH as [IHm IHf].
    set (r := Nat.iter n shr_1 (Build_shr_record m false false)) in *.
    change (Nat.iter (S n) shr_1 (Build_shr_record m false false))
      with (shr_1 r).
    assert (Hpow : 0 < 2 ^ Z.of_nat n) by (apply Z.pow_pos_nonneg; lia).
    assert (Hr : 0 <= shr_m r)
      by (rewrite IHm; apply Z.div_pos; lia).
    destruct (shr_1_spec r Hr) as [H1 [H2 H3]].
    rewrite Nat2Z.inj_succ, Z.pow_succ_r by lia.
    split.
    + rewrite H1, IHm, Z.div_div by lia. f_equal. lia.
    + intros Hmod.
      apply Z.mod_divide in Hmod; [| lia].
      destruct Hmod as [q Hq].
      assert (Hmod' : m mod 2 ^ Z.of_nat n = 0).
      { apply Z.mod_divide; [lia |]. exists (q * 2). lia. }
      destruct (IHf Hmod') as [Hfr Hfs].
      rewrite H2, H3, Hfr, Hfs, IHm. split; [| reflexivity].
      replace m with ((2 * q) * 2 ^ Z.of_nat n) by lia.
      rewrite Z.div_mul by lia.
      rewrite Z.odd_mul. reflexivity.
Qed.

(** [shr] on an exact mantissa. *)
Lemma shr_spec (m e n : Z) :
  0 <= m ->
  let '(r, e') := shr (Build_shr_record m false false) e n in
  shr_m r = m / 2 ^ Z.max 0 n /\
  e' = e + Z.max 0 n /\
  (m mod 2 ^ Z.max 0 n = 0 -> loc_of_shr_record r = loc_Exact).
Proof.
  intros Hm. unfold shr. destruct n as [| p | p].
  - cbn. rewrite Z.div_1_r, Z.add_0_r. auto.
  - rewrite iter_pos_nat.
    destruct (shr_iter_spec m (Pos.to_nat p) Hm) as [H1 H2].
    rewrite positive_nat_Z in H1, H2.
    replace (Z.max 0 (Z.pos p)) with (Z.pos p) by lia.
    split; [exact H1 |]. split; [reflexivity |].
    intros Hmod. destruct (H2 Hmod) as [Hr Hs].
    destruct (Nat.iter (Pos.to_nat p) shr_1 (Build_shr_record m false false))
      as [m' r' s']. cbn in Hr, Hs. subst. reflexivity.
  - cbn. rewrite Z.div_1_r, Z.add_0_r. auto.
Qed.

Lemma round_nearest_even_bounds (m : Z) (l : location) :
  m <= round_nearest_even m l <= m + 1 /\
  (l = loc_Exact -> round_nearest_even m l = m).
Proof.
  destruct l as [| []]; cbn; try (destruct (Z.even m)); split; auto; try lia;
    discriminate.
Qed.

End Rounding.

Import Float64.

(** Rounding an exact non-negative mantissa: the mantissa is shifted to its
    target exponent, rounded up by at most one unit (and not at all when no
    bit is lost), and shifted once more. *)
Lemma binary_round_aux_exact (s : bool) (m e : Z) :
  0 <= m ->
  exists m1 m2 e1 e2,
    e1 = e + Z.max 0 (fexp prec emax (Zdigits2 m + e) - e) /\
    m / 2 ^ (e1 - e) <= m1 <= m / 2 ^ (e1 - e) + 1 /\
    (m mod 2 ^ (e1 - e) = 0 -> m1 = m / 2 ^ (e1 - e)) /\
    e2 = e1 + Z.max 0 (fexp prec emax (Zdigits2 m1 + e1) - e1) /\
    m2 = m1 / 2 ^ (e2 - e1) /\
    binary_round_aux prec emax s m e loc_Exact =
    match m2 with
    | Z0 => S754_zero s
    | Zpos p => if e2 <=? emax - prec then S754_finite s p e2 else S754_infinity s
    | Zneg _ => S754_nan
    end.
Proof.
  intros Hm. unfold binary_round_aux, shr_fexp.
  cbn [shr_record_of_loc].
  pose proof (shr_spec m e (fexp prec emax (Zdigits2 m + e) - e) Hm) as H1.
  destruct (shr (Build_shr_record m false false) e
              (fexp prec emax (Zdigits2 m + e) - e)) as [r1 e1].
  destruct H1 as [Hm1 [He1 Hl1]].
  set (m1 := round_nearest_even (shr_m r1) (loc_of_shr_record r1)).
  destruct (round_nearest_even_bounds (shr_m r1) (loc_of_shr_record r1))
    as [Hb Hex]. fold m1 in Hb, Hex.
  assert (Hpow : 0 < 2 ^ Z.max 0 (fexp prec emax (Zdigits2 m + e) - e))
    by (apply Z.pow_pos_nonneg; lia).
  assert (Hm1' : 0 <= m1).
  { assert (0 <= shr_m r1) by (rewrite Hm1; apply Z.div_pos; lia). lia. }
  pose proof (shr_spec m1 e1 (fexp prec emax (Zdigits2 m1 + e1) - e1) Hm1') as H2.
  destruct (shr (Build_shr_record m1 false false) e1
              (fexp prec emax (Zdigits2 m1 + e1) - e1)) as [r2 e2].
  destruct H2 as [Hm2 [He2 _]].
  exists m1, (shr_m r2), e1, e2.
  replace (e1 - e) with (Z.max 0 (fexp prec emax (Zdigits2 m + e) - e)) by lia.
  replace (e2 - e1) with (Z.max 0 (fexp prec emax (Zdigits2 m1 + e1) - e1)) by lia.
  rewrite <- Hm1.
  repeat split; auto; lia.
Qed.




(** ** numpy's closeness test *)



(** ** [transform]: the range of the data *)

(** With the channel table numbered from one, as the loader numbers it, the
    ranges collected are those of the channels named in the selection, in
    the order of the channel table. *)
Lemma selected_ranges_numbered (names chans : list string)
  (channel_meta : list (Z * channel_row)) (off : nat) :
  map fst channel_meta
  = map (fun k => Z.of_nat k + 1) (seq off (length channel_meta)) ->
  (off + length channel_meta <= length names)%nat ->
  selected_ranges channel_meta names chans
  = Ok (map (fun ir => PnR (snd ir))
          (filter (fun ir => has_column chans
                               (nth (Z.to_nat (fst ir - 1)) names ""))
             channel_meta)).
Proof.
  revert off; induction channel_meta as [| [i r] rest IH]; intros off Hidx Hlen.
  - reflexivity.
  - cbn [map length seq fst] in Hidx. injection Hidx as Hi Hrest.
    cbn [length] in Hlen. cbn [selected_ranges].
    assert (Hi' : i - 1 = Z.of_nat off) by lia.
    assert (Hget : Py.getitem names (i - 1)
                   = Ok (nth (Z.to_nat (i - 1)) names "")).
    { unfold Py.getitem. rewrite Hi'.
      replace (Z.of_nat off <? 0) with false by (symmetry; apply Z.ltb_ge; lia).
      replace ((Z.of_nat off <? 0)
               || (Z.of_nat (length names) <=? Z.of_nat off)) with false.
      2:{ symmetry. apply orb_false_iff.
          split; [apply Z.ltb_ge | apply Z.leb_gt]; lia. }
      rewrite Nat2Z.id.
      destruct (nth_error names off) as [x |] eqn:Hx.
      - now rewrite (nth_error_nth _ _ _ Hx).
      - apply nth_error_None in Hx. lia. }
    rewrite Hget. cbn [bind].
    rewrite (IH (S off)) by (auto; lia). cbn [bind filter fst snd].
    destruct (has_column chans (nth (Z.to_nat (i - 1)) names "")); reflexivity.
Qed.

Lemma getitem_head {A : Type} (l : list A) (x : A) :
  hd_error l = Some x -> Py.getitem l 0 = Ok x.
Proof.
  destruct l as [| y l]; [discriminate |]. intros [= ->].
  unfold Py.getitem. cbn [length].
  replace (0 <? 0) with false by reflexivity.
  replace ((0 <? 0) || (Z.of_nat (S (length l)) <=? 0)) with false.
  - reflexivity.
  - symmetry. apply orb_false_iff. split; [reflexivity | apply Z.leb_gt; lia].
Qed.





(** ** The order of binary64 *)

Section FloatOrder.

Lemma compare_key (a b : float) :
  is_nan a = false -> is_nan b = false ->
  exists c,
    SFcompare a b = Some c /\
    (c = Lt <-> key_lt (order_key a) (order_key b)) /\
    (c = Eq <-> order_key a = order_key b).
Proof.
  intros Ha Hb.
  destruct a as [sa | sa | | sa ma ea]; try discriminate;
    destruct b as [sb | sb | | sb mb eb]; try discriminate;
    try (destruct sa); try (destruct sb);
    cbn [SFcompare order_key];
    try solve [eexists; split; [reflexivity |];
               unfold key_lt; cbn [fst snd];
               split; split; intros H; try discriminate H; try reflexivity;
               try lia; try (injection H; lia)].
  - change (Pos.compare_cont Eq ma mb) with (Pos.compare ma mb).
    eexists; split; [reflexivity |]. unfold key_lt; cbn [fst snd].
    destruct (Z.compare_spec ea eb) as [He | He | He];
      destruct (Pos.compare_spec ma mb) as [Hm | Hm | Hm];
      cbn [CompOpp]; split; split; intros H; try discriminate H;
      try reflexivity; try lia; try (injection H; lia);
      try (f_equal; [f_equal |]; lia).
  - change (Pos.compare_cont Eq ma mb) with (Pos.compare ma mb).
    eexists; split; [reflexivity |]. unfold key_lt; cbn [fst snd].
    destruct (Z.compare_spec ea eb) as [He | He | He];
      destruct (Pos.compare_spec ma mb) as [Hm | Hm | Hm];
      split; split; intros H; try discriminate H;
      try reflexivity; try lia; try (injection H; lia);
      try (f_equal; [f_equal |]; lia).
Qed.

Lemma ltb_key (a b : float) :
  is_nan a = false -> is_nan b = false ->
  (ltb a b = true <-> key_lt (order_key a) (order_key b)).
Proof.
  intros Ha Hb. destruct (compare_key a b Ha Hb) as [c [Hc [Hlt _]]].
  unfold ltb, SFltb. rewrite Hc. rewrite <- Hlt.
  destruct c; split; intros H; try discriminate; reflexivity.
Qed.

Lemma leb_key (a b : float) :
  is_nan a = false -> is_nan b = false ->
  (leb a b = true <-> key_le (order_key a) (order_key b)).
Proof.
  intros Ha Hb. destruct (compare_key a b Ha Hb) as [c [Hc [Hlt Heq]]].
  unfold leb, SFleb, key_le. rewrite Hc. rewrite <- Hlt, <- Heq.
  destruct c; split; intros H; try discriminate; auto;
    destruct H; discriminate.
Qed.

Lemma key_lt_trans (a b c : Z * Z * Z) :
  key_lt a b -> key_lt b c -> key_lt a c.
Proof. unfold key_lt. lia. Qed.

Lemma key_lt_total (a b : Z * Z * Z) : key_lt a b \/ key_le b a.
Proof.
  unfold key_le, key_lt.
  destruct a as [[a1 a2] a3], b as [[b1 b2] b3]; cbn [fst snd].
  destruct (Z.lt_trichotomy a1 b1) as [H | [H | H]]; try lia.
  destruct (Z.lt_trichotomy a2 b2) as [H' | [H' | H']]; try lia.
  destruct (Z.lt_trichotomy a3 b3) as [H'' | [H'' | H'']]; try lia.
  right; right. congruence.
Qed.

Lemma key_lt_irrefl (a b : Z * Z * Z) : key_lt a b -> key_le b a -> False.
Proof.
  unfold key_le, key_lt. intros H [H' | ->]; lia.
Qed.

Lemma key_le_trans (a b c : Z * Z * Z) :
  key_le a b -> key_le b c -> key_le a c.
Proof.
  unfold key_le. intros [H | ->] [H' | ->]; auto.
  left; eapply key_lt_trans; eassumption.
Qed.

End FloatOrder.

(** ** The NaN-skipping maximum and minimum *)

Section Extrema.

Lemma is_nan_true (a : float) : is_nan a = true -> a = S754_nan.
Proof. destruct a; try discriminate; reflexivity. Qed.

Lemma fmax_nan_r (a : float) : Np.fmax a S754_nan = a.
Proof. destruct a; reflexivity. Qed.

Lemma fmin_nan_r (a : float) : Np.fmin a S754_nan = a.
Proof. destruct a; reflexivity. Qed.

Lemma fmax_cases (a b : float) : Np.fmax a b = a \/ Np.fmax a b = b.
Proof.
  unfold Np.fmax. destruct (is_nan a), (is_nan b), (ltb a b); auto.
Qed.

Lemma fmin_cases (a b : float) : Np.fmin a b = a \/ Np.fmin a b = b.
Proof.
  unfold Np.fmin. destruct (is_nan a), (is_nan b), (ltb b a); auto.
Qed.

Lemma ltb_false_key (a b : float) :
  is_nan a = false -> is_nan b = false ->
  ltb a b = false -> key_le (order_key b) (order_key a).
Proof.
  intros Ha Hb E.
  destruct (key_lt_total (order_key a) (order_key b)) as [H | H]; [| exact H].
  apply (ltb_key a b Ha Hb) in H. congruence.
Qed.

Lemma ltb_trans (a b c : float) :
  is_nan a = false -> is_nan b = false -> is_nan c = false ->
  ltb a b = true -> ltb b c = true -> ltb a c = true.
Proof.
  intros Ha Hb Hc Hab Hbc.
  apply (ltb_key a b Ha Hb) in Hab. apply (ltb_key b c Hb Hc) in Hbc.
  apply (ltb_key a c Ha Hc). eapply key_lt_trans; eassumption.
Qed.

Lemma ltb_false_trans (a b c : float) :
  is_nan a = false -> is_nan b = false -> is_nan c = false ->
  ltb a b = false -> ltb b c = false -> ltb a c = false.
Proof.
  intros Ha Hb Hc Hab Hbc.
  apply (ltb_false_key a b Ha Hb) in Hab.
  apply (ltb_false_key b c Hb Hc) in Hbc.
  destruct (ltb a c) eqn:E; [| reflexivity].
  apply (ltb_key a c Ha Hc) in E. exfalso.
  eapply key_lt_irrefl; [exact E |].
  eapply key_le_trans; eassumption.
Qed.

Lemma fmax_assoc (a b c : float) :
  Np.fmax (Np.fmax a b) c = Np.fmax a (Np.fmax b c).
Proof.
  destruct (is_nan a) eqn:Ha; [apply is_nan_true in Ha; subst; reflexivity |].
  destruct (is_nan b) eqn:Hb.
  { apply is_nan_true in Hb; subst. now rewrite fmax_nan_r. }
  destruct (is_nan c) eqn:Hc.
  { apply is_nan_true in Hc; subst. now rewrite !fmax_nan_r. }
  unfold Np.fmax. rewrite Ha, Hb, Hc.
  destruct (ltb a b) eqn:Eab; destruct (ltb b c) eqn:Ebc;
    rewrite ?Ha, ?Hb, ?Hc, ?Eab, ?Ebc; try reflexivity.
  - now rewrite (ltb_trans a b c Ha Hb Hc Eab Ebc).
  - now rewrite (ltb_false_trans a b c Ha Hb Hc Eab Ebc).
Qed.

Lemma fmin_assoc (a b c : float) :
  Np.fmin (Np.fmin a b) c = Np.fmin a (Np.fmin b c).
Proof.
  destruct (is_nan a) eqn:Ha; [apply is_nan_true in Ha; subst; reflexivity |].
  destruct (is_nan b) eqn:Hb.
  { apply is_nan_true in Hb; subst. now rewrite fmin_nan_r. }
  destruct (is_nan c) eqn:Hc.
  { apply is_nan_true in Hc; subst. now rewrite !fmin_nan_r. }
  unfold Np.fmin. rewrite Ha, Hb, Hc.
  destruct (ltb b a) eqn:Eba; destruct (ltb c b) eqn:Ecb;
    rewrite ?Ha, ?Hb, ?Hc, ?Eba, ?Ecb; try reflexivity.
  - now rewrite (ltb_trans c b a Hc Hb Ha Ecb Eba).
  - now rewrite (ltb_false_trans c b a Hc Hb Ha Ecb Eba).
Qed.

(** A reduction started from any value is the reduction from NaN, combined
    with that value. *)
Lemma fold_fmax (xs : list float) (a : float) :
  fold_left Np.fmax xs a = Np.fmax a (Np.nanmax xs).
Proof.
  unfold Np.nanmax. revert a; induction xs as [| x xs IH]; intros a; cbn.
  - now rewrite fmax_nan_r.
  - rewrite (IH (Np.fmax a x)), (IH x). apply fmax_assoc.
Qed.

Lemma fold_fmin (xs : list float) (a : float) :
  fold_left Np.fmin xs a = Np.fmin a (Np.nanmin xs).
Proof.
  unfold Np.nanmin. revert a; induction xs as [| x xs IH]; intros a; cbn.
  - now rewrite fmin_nan_r.
  - rewrite (IH (Np.fmin a x)), (IH x). apply fmin_assoc.
Qed.

Lemma nanmax_app (xs ys : list float) :
  Np.nanmax (xs ++ ys) = Np.fmax (Np.nanmax xs) (Np.nanmax ys).
Proof.
  unfold Np.nanmax at 1. rewrite fold_left_app. apply fold_fmax.
Qed.

Lemma nanmin_app (xs ys : list float) :
  Np.nanmin (xs ++ ys) = Np.fmin (Np.nanmin xs) (Np.nanmin ys).
Proof.
  unfold Np.nanmin at 1. rewrite fold_left_app. apply fold_fmin.
Qed.

(** Reducing group by group and then across the groups is reducing
    everything at once. *)
Lemma nanmax_concat (ls : list (list float)) :
  Np.nanmax (map Np.nanmax ls) = Np.nanmax (concat ls).
Proof.
  induction ls as [| l ls IH]; [reflexivity |].
  cbn [map concat]. rewrite nanmax_app, <- IH.
  change (Np.nanmax l :: map Np.nanmax ls)
    with ([Np.nanmax l] ++ map Np.nanmax ls).
  rewrite nanmax_app. reflexivity.
Qed.

Lemma nanmin_concat (ls : list (list float)) :
  Np.nanmin (map Np.nanmin ls) = Np.nanmin (concat ls).
Proof.
  induction ls as [| l ls IH]; [reflexivity |].
  cbn [map concat]. rewrite nanmin_app, <- IH.
  change (Np.nanmin l :: map Np.nanmin ls)
    with ([Np.nanmin l] ++ map Np.nanmin ls).
  rewrite nanmin_app. reflexivity.
Qed.

(** The maximum is one of the values, above all of them; NaN only when
    every value is NaN. *)
Lemma nanmax_spec (xs : list float) :
  (forall c, In c xs -> is_nan c = false ->
             is_nan (Np.nanmax xs) = false /\ leb c (Np.nanmax xs) = true) /\
  (is_nan (Np.nanmax xs) = false -> In (Np.nanmax xs) xs).
Proof.
  induction xs as [| x xs [IHb IHm]] using rev_ind.
  - split; [intros c [] | discriminate].
  - rewrite nanmax_app.
    change (Np.nanmax [x]) with x.
    set (M := Np.nanmax xs) in *.
    split.
    + intros c Hin Hc. apply in_app_or in Hin.
      unfold Np.fmax.
      destruct Hin as [Hin | [Heq | []]].
      * destruct (IHb c Hin Hc) as [HM Hle]. rewrite HM.
        destruct (is_nan x) eqn:Hx; [auto |].
        destruct (ltb M x) eqn:E; [| auto].
        split; [exact Hx |].
        apply (leb_key c M Hc HM) in Hle.
        apply (ltb_key M x HM Hx) in E.
        apply (leb_key c x Hc Hx).
        eapply key_le_trans; [exact Hle | left; exact E].
      * subst c. rewrite Hc.
        assert (Hrefl : leb x x = true)
          by (apply (leb_key x x Hc Hc); right; reflexivity).
        destruct (is_nan M) eqn:HM; [auto |].
        destruct (ltb M x) eqn:E; [auto |].
        split; [exact HM |].
        apply (leb_key x M Hc HM). now apply ltb_false_key.
    + intros Hn. apply in_or_app.
      destruct (fmax_cases M x) as [E | E]; rewrite E in *.
      * left. now apply IHm.
      * right; left; reflexivity.
Qed.

Lemma nanmin_spec (xs : list float) :
  (forall c, In c xs -> is_nan c = false ->
             is_nan (Np.nanmin xs) = false /\ leb (Np.nanmin xs) c = true) /\
  (is_nan (Np.nanmin xs) = false -> In (Np.nanmin xs) xs).
Proof.
  induction xs as [| x xs [IHb IHm]] using rev_ind.
  - split; [intros c [] | discriminate].
  - rewrite nanmin_app.
    change (Np.nanmin [x]) with x.
    set (M := Np.nanmin xs) in *.
    split.
    + intros c Hin Hc. apply in_app_or in Hin.
      unfold Np.fmin.
      destruct Hin as [Hin | [Heq | []]].
      * destruct (IHb c Hin Hc) as [HM Hle]. rewrite HM.
        destruct (is_nan x) eqn:Hx; [auto |].
        destruct (ltb x M) eqn:E; [| auto].
        split; [exact Hx |].
        apply (leb_key M c HM Hc) in Hle.
        apply (ltb_key x M Hx HM) in E.
        apply (leb_key x c Hx Hc).
        eapply key_le_trans; [left; exact E | exact Hle].
      * subst c. rewrite Hc.
        assert (Hrefl : leb x x = true)
          by (apply (leb_key x x Hc Hc); right; reflexivity).
        destruct (is_nan M) eqn:HM; [auto |].
        destruct (ltb x M) eqn:E; [auto |].
        split; [exact HM |].
        apply (leb_key M x HM Hc). now apply ltb_false_key.
    + intros Hn. apply in_or_app.
      destruct (fmin_cases M x) as [E | E]; rewrite E in *.
      * left. now apply IHm.
      * right; left; reflexivity.
Qed.

End Extrema.

(** ** [transform] on a Collection *)

Section Traverse.

Context {A B : Type}.

Lemma traverse_ok (f : A -> result B) (l : list A) (ys : list B) :
  FCCollection.traverse f l = Ok ys -> Forall2 (fun x y => f x = Ok y) l ys.
Proof.
  revert ys; induction l as [| x l IH]; intros ys H; cbn in H.
  - injection H as <-. constructor.
  - apply bind_ok in H. destruct H as [y [Hy H]].
    apply bind_ok in H. destruct H as [ys' [Hys [= <-]]].
    constructor; auto.
Qed.

Lemma traverse_raise (f : A -> result B) (l : list A) (e : exn) :
  FCCollection.traverse f l = Raise e -> exists x, In x l /\ f x = Raise e.
Proof.
  induction l as [| x l IH]; intros H; cbn in H; [discriminate |].
  destruct (f x) as [y |] eqn:Hy; cbn in H.
  - destruct (FCCollection.traverse f l) as [ys |] eqn:Hys; cbn in H;
      [discriminate |].
    destruct (IH H) as [x' [Hin Hx']]. exists x'; split; [right |]; auto.
  - injection H as ->. exists x; split; [left; reflexivity | exact Hy].
Qed.

Lemma traverse_map (f : A -> result B) (g : A -> B) (l : list A) (ys : list B) :
  FCCollection.traverse f l = Ok ys ->
  (forall x y, f x = Ok y -> y = g x) ->
  ys = map g l.
Proof.
  intros H Hg. apply traverse_ok in H.
  induction H as [| x y l ys Hxy _ IH]; [reflexivity |].
  cbn. f_equal; auto.
Qed.

End Traverse.

(** The per-member extremum of the selected channels is the extremum of
    their cells. *)
Lemma member_max (chans : list string) (x sub : DataFrame) :
  Pandas.getitem x chans = Ok sub ->
  max_max sub = Np.nanmax (selected_cells chans x).
Proof.
  intros H. unfold selected_cells, max_max. rewrite H. apply nanmax_concat.
Qed.

Lemma member_min (chans : list string) (x sub : DataFrame) :
  Pandas.getitem x chans = Ok sub ->
  min_min sub = Np.nanmin (selected_cells chans x).
Proof.
  intros H. unfold selected_cells, min_min. rewrite H. apply nanmin_concat.
Qed.

Lemma global_max (self : FCCollection.t) (chans : list string)
  (maxes : list cell) :
  FCCollection.apply_data
    (fun x => sub <- Pandas.getitem x chans ;; Ok (max_max sub)) self = Ok maxes ->
  Np.nanmax maxes
  = Np.nanmax (flat_map (fun v => selected_cells chans (data v))
                 (FCCollection.values self)).
Proof.
  intros H. unfold FCCollection.apply_data in H.
  apply traverse_map
    with (g := fun v => Np.nanmax (selected_cells chans (data v))) in H.
  - subst maxes. rewrite flat_map_concat_map, <- nanmax_concat, map_map.
    reflexivity.
  - intros v y Hy. apply bind_ok in Hy. destruct Hy as [sub [Hs [= <-]]].
    now apply member_max.
Qed.

Lemma global_min (self : FCCollection.t) (chans : list string)
  (mins : list cell) :
  FCCollection.apply_data
    (fun x => sub <- Pandas.getitem x chans ;; Ok (min_min sub)) self = Ok mins ->
  Np.nanmin mins
  = Np.nanmin (flat_map (fun v => selected_cells chans (data v))
                 (FCCollection.values self)).
Proof.
  intros H. unfold FCCollection.apply_data in H.
  apply traverse_map
    with (g := fun v => Np.nanmin (selected_cells chans (data v))) in H.
  - subst mins. rewrite flat_map_concat_map, <- nanmin_concat, map_map.
    reflexivity.
  - intros v y Hy. apply bind_ok in Hy. destruct Hy as [sub [Hs [= <-]]].
    now apply member_min.
Qed.

(** The shared branch of [FCCollection.transform] is its blocks run one
    after the other. *)
Lemma shared_blocks (tfun : transform_fun) (self : FCCollection.t)
  (first : FCMeasurement.t) (spec : transform_spec) (direction : string)
  (chans : option (list string))
  (return_all auto_range use_spln get_transformer : bool)
  (new_ID : option string) (args : list argument)
  (kwargs : list (string * argument)) :
  hd_error (FCCollection.values self) = Some first ->
  let sel := shared_channels self chans in
  FCCollection.transform tfun self spec direction true chans return_all
    auto_range use_spln get_transformer new_ID args kwargs
  = (transformer <- FCCollection.create_shared_transformer self first spec
                      direction sel auto_range use_spln args kwargs ;;
     items <- FCCollection.transform_all tfun self transformer sel return_all
                use_spln ;;
     Ok (FCCollection.mk (match new_ID with
                          | Some i => i
                          | None => FCCollection.ID self
                          end) items,
         if get_transformer then Some transformer else None)).
Proof.
  intros Hfirst sel.
  assert (Hsel : sel = match chans with
                       | None => channel_names first
                       | Some cs => cs
                       end).
  { unfold sel, shared_channels. now rewrite Hfirst. }
  unfold FCCollection.transform. rewrite (getitem_head _ _ Hfirst).
  cbn [bind]. rewrite <- Hsel.
  unfold FCCollection.create_shared_transformer, FCCollection.transform_all,
    FCCollection.copy.
  destruct spec as [tr | name]; cbn [bind].
  - destruct (FCCollection.traverse _ (FCCollection.members self)) as [items |];
      cbn [bind fst snd andb]; [| reflexivity].
    destruct new_ID, get_transformer; reflexivity.
  - match goal with
    | |- context [bind ?k _] =>
        match k with
        | (if auto_range then _ else _) => destruct k as [kw |]
        end
    end; cbn [bind]; [| reflexivity].
    destruct use_spln; cbn [bind].
    + destruct (FCCollection.apply_data
                  (fun x => sub <- Pandas.getitem x sel ;; Ok (max_max sub)) self)
        as [maxes |]; cbn [bind]; [| reflexivity].
      destruct (FCCollection.apply_data
                  (fun x => sub <- Pandas.getitem x sel ;; Ok (min_min sub)) self)
        as [mins |]; cbn [bind]; [| reflexivity].
      destruct (FCCollection.traverse _ (FCCollection.members self)) as [items |];
        cbn [bind fst snd andb]; [| reflexivity].
      destruct new_ID, get_transformer; reflexivity.
    + destruct (FCCollection.traverse _ (FCCollection.members self)) as [items |];
        cbn [bind fst snd andb]; [| reflexivity].
      destruct new_ID, get_transformer; reflexivity.
Qed.

Lemma values_nonempty (tfun : transform_fun) (self : FCCollection.t)
  (spec : transform_spec) (direction : string) (chans : option (list string))
  (return_all auto_range use_spln get_transformer : bool)
  (new_ID : option string) (args : list argument)
  (kwargs : list (string * argument))
  (out : FCCollection.t * option Transformation) :
  FCCollection.transform tfun self spec direction true chans return_all
    auto_range use_spln get_transformer new_ID args kwargs = Ok out ->
  exists first, hd_error (FCCollection.values self) = Some first.
Proof.
  intros H. destruct (FCCollection.values self) as [| first rest] eqn:Hv.
  - unfold FCCollection.transform in H. rewrite Hv in H. discriminate.
  - exists first; reflexivity.
Qed.


Lemma getitem_ok (df : DataFrame) (cs : list string) :
  incl cs (columns df) -> exists sub, Pandas.getitem df cs = Ok sub.
Proof.
  intros Hincl. destruct (positions_total cs (columns df) Hincl) as [ps Hps].
  unfold Pandas.getitem. rewrite Hps. cbn. eauto.
Qed.


Lemma transform_without_transformer (tfun : transform_fun) (self : t)
  (spec : transform_spec) (direction : string) (chans : option (list string))
  (return_all auto_range use_spln : bool) (new_ID : option string)
  (args : list argument) (kwargs : list (string * argument))
  (r : t * option Transformation) :
  transform tfun self spec direction chans return_all auto_range use_spln false
    new_ID args kwargs = Ok r ->
  snd r = None.
Proof.
  destruct r as [new out]. intros H. apply queueable_ok in H.
  cbn [snd]. tauto.
Qed.

Lemma traverse_members (f : FCMeasurement.t -> result (t * option Transformation))
  (l items : list (string * FCMeasurement.t)) :
  (forall v r, f v = Ok r -> snd r = None) ->
  FCCollection.traverse (fun kv => r <- f (snd kv) ;; Ok (fst kv, fst r)) l
  = Ok items ->
  map fst items = map fst l /\
  Forall2 (fun kv kv' => f (snd kv) = Ok (snd kv', None)) l items.
Proof.
  intros Hnone H. apply traverse_ok in H.
  induction H as [| kv kv' l items Hkv _ [IHk IHf]]; [split; [reflexivity | constructor] |].
  apply bind_ok in Hkv. destruct Hkv as [r [Hr [= <-]]].
  cbn [map fst snd]. split; [now rewrite IHk |].
  constructor; [| exact IHf].
  rewrite Hr. pose proof (Hnone _ _ Hr) as Hsnd.
  destruct r as [new out]; cbn in *; now subst out.
Qed.

Lemma traverse_members_raise {R : Type} (f : FCMeasurement.t -> result (t * R))
  (l : list (string * FCMeasurement.t)) (e : exn) :
  FCCollection.traverse (fun kv => r <- f (snd kv) ;; Ok (fst kv, fst r)) l
  = Raise e ->
  exists k v, In (k, v) l /\ f v = Raise e.
Proof.
  intros H. apply traverse_raise in H. destruct H as [[k v] [Hin H]].
  exists k, v. split; [exact Hin |]. cbn [fst snd] in H.
  destruct (f v) as [r | e']; cbn [bind] in H; [discriminate |].
  injection H as <-. reflexivity.
Qed.

Lemma traverse_total {A B : Type} (f : A -> result B) (g : A -> B) (l : list A) :
  (forall x, In x l -> f x = Ok (g x)) ->
  FCCollection.traverse f l = Ok (map g l).
Proof.
  induction l as [| x l IH]; intros H; [reflexivity |].
  cbn. rewrite (H x) by now left. cbn.
  rewrite IH by (intros y Hy; apply H; now right). reflexivity.
Qed.


Lemma traverse_exists {A B : Type} (f : A -> result B) (l : list A) :
  (forall x, In x l -> exists y, f x = Ok y) ->
  exists ys, FCCollection.traverse f l = Ok ys.
Proof.
  induction l as [| x l IH]; intros H; [exists []; reflexivity |].
  destruct (H x (or_introl eq_refl)) as [y Hy].
  destruct IH as [ys Hys]; [intros z Hz; apply H; now right |].
  exists (y :: ys). cbn. now rewrite Hy, Hys.
Qed.

(** C7: when a shared Transformation is built with [use_spln], the bounds
    handed to [set_spline] are the minimum of the per-member minima and the
    maximum of the per-member maxima of the selected channels; they are the
    least and the greatest of all the cells of those channels over all the
    members: each of the two is one of these cells, and every such cell lies
    between them.  Whenever the call returns, with or without
    [get_transformer], the Transformation that carries these bounds is the
    one every member was transformed with, and the one handed back when it
    was asked for.  The call does return when the range step goes through
    and every member has the selected channels, none of them selected
    twice. *)
Theorem shared_spline_bounds :
  forall (tfun : transform_fun) (self : FCCollection.t) (name direction : string)
         (chans : option (list string))
         (return_all auto_range get_transformer : bool)
         (new_ID : option string) (args : list argument)
         (kwargs : list (string * argument)),
    let sel := shared_channels self chans in
    let member_cells := fun v : FCMeasurement.t => selected_cells sel (data v) in
    let cells := flat_map member_cells (FCCollection.values self) in
    let xmin := Np.nanmin cells in
    let xmax := Np.nanmax cells in
    let outcome :=
      FCCollection.transform tfun self (ToBuild name) direction true chans
        return_all auto_range true get_transformer new_ID args kwargs in
    (forall new out,
        outcome = Ok (new, out) ->
        exists tr,
          out = (if get_transformer then Some tr else None) /\
          t_spline tr = Some (xmin, xmax) /\
          t_kind tr = name /\ t_direction tr = direction /\ t_args tr = args /\
          Forall2 (fun kv kv' =>
                     transform tfun (snd kv) (Prebuilt tr) "forward" (Some sel)
                       return_all true true false None [] []
                     = Ok (snd kv', None))
            (FCCollection.members self) (FCCollection.members new)) /\
    (forall (first : FCMeasurement.t) (kw : list (string * argument)),
        hd_error (FCCollection.values self) = Some first ->
        (if auto_range && negb (has_key "d" kwargs)
         then exists ranges r0,
                selected_ranges (channels first) (channel_names first) sel
                = Ok ranges /\
                hd_error ranges = Some r0 /\
                Np.allclose ranges r0 = true /\
                kw = (if range_sensitive name
                      then set_key "d" (Log10 r0) kwargs
                      else kwargs)
         else kw = kwargs) ->
        NoDup sel ->
        (forall v, In v (FCCollection.values self) ->
                   rectangular (data v) /\ incl sel (columns (data v))) ->
        exists new,
          outcome
          = Ok (new,
                if get_transformer
                then Some (set_spline xmin xmax
                             (new_Transformation name direction args kw))
                else None)) /\
    xmin = Np.nanmin (map (fun v => Np.nanmin (member_cells v))
                        (FCCollection.values self)) /\
    xmax = Np.nanmax (map (fun v => Np.nanmax (member_cells v))
                        (FCCollection.values self)) /\
    (forall c, In c cells -> is_nan c = false ->
               leb xmin c = true /\ leb c xmax = true /\
               In xmin cells /\ In xmax cells).
Proof.
  intros tfun self name direction chans return_all auto_range get_transformer
    new_ID args kwargs sel member_cells cells xmin xmax outcome.
  split; [| split; [| split; [| split]]].
  - intros new out H. unfold outcome in H.
    destruct (values_nonempty _ _ _ _ _ _ _ _ _ _ _ _ _ H) as [first Hfirst].
    rewrite (shared_blocks tfun self first _ _ _ _ _ _ _ _ _ _ Hfirst) in H.
    fold sel in H.
    apply bind_ok in H. destruct H as [tr [Htr H]].
    apply bind_ok in H. destruct H as [items [Hitems H]].
    injection H as <- <-.
    unfold FCCollection.create_shared_transformer in Htr.
    apply bind_ok in Htr. destruct Htr as [kw [_ Htr]].
    apply bind_ok in Htr. destruct Htr as [maxes [Hmax Htr]].
    apply bind_ok in Htr. destruct Htr as [mins [Hmin Htr]].
    injection Htr as <-.
    apply global_max in Hmax. apply global_min in Hmin.
    eexists. split; [reflexivity |].
    split; [cbn [set_spline t_spline]; now rewrite Hmax, Hmin |].
    split; [reflexivity |]. split; [reflexivity |]. split; [reflexivity |].
    cbn [FCCollection.members].
    unfold FCCollection.transform_all in Hitems.
    apply (traverse_members
             (fun v => transform tfun v (Prebuilt _) "forward" (Some sel) return_all
                         true true false None [] [])) in Hitems.
    + exact (proj2 Hitems).
    + intros v r. apply transform_without_transformer.
  - intros first kw Hfirst Hkw Hnodup Hmembers. unfold outcome.
    rewrite (shared_blocks tfun self first _ _ _ _ _ _ _ _ _ _ Hfirst).
    fold sel.
    assert (Hget : forall v, In v (FCCollection.values self) ->
                             exists sub, Pandas.getitem (data v) sel = Ok sub).
    { intros v Hv. apply getitem_ok. apply (Hmembers v Hv). }
    destruct (traverse_exists
                (fun v => sub <- Pandas.getitem (get_data v) sel ;; Ok (max_max sub))
                (FCCollection.values self)) as [maxes Hmax].
    { intros v Hv. destruct (Hget v Hv) as [sub Hsub].
      unfold get_data. rewrite Hsub. cbn. eauto. }
    destruct (traverse_exists
                (fun v => sub <- Pandas.getitem (get_data v) sel ;; Ok (min_min sub))
                (FCCollection.values self)) as [mins Hmin].
    { intros v Hv. destruct (Hget v Hv) as [sub Hsub].
      unfold get_data. rewrite Hsub. cbn. eauto. }
    assert (Htr : FCCollection.create_shared_transformer self first (ToBuild name)
                    direction sel auto_range true args kwargs
                  = Ok (set_spline xmin xmax
                          (new_Transformation name direction args kw))).
    { unfold FCCollection.create_shared_transformer.
      assert (Hstep : (if auto_range then
                         if has_key "d" kwargs then Ok kwargs
                         else
                           ranges <- selected_ranges (channels first)
                                       (channel_names first) sel ;;
                           r0 <- Py.getitem ranges 0 ;;
                           if negb (Np.allclose ranges r0)
                           then Raise (Exception_ FCCollection.range_mismatch)
                           else if range_sensitive name
                                then Ok (set_key "d" (Log10 r0) kwargs)
                                else Ok kwargs
                       else Ok kwargs) = Ok kw).
      { destruct auto_range; cbn [andb] in Hkw; [| now subst kw].
        destruct (has_key "d" kwargs); cbn [negb] in Hkw; [now subst kw |].
        destruct Hkw as [ranges [r0 [Hr [Hh [Hclose ->]]]]].
        rewrite Hr. cbn [bind]. rewrite (getitem_head _ _ Hh). cbn [bind].
        rewrite Hclose. cbn [negb]. destruct (range_sensitive name); reflexivity. }
      rewrite Hstep. cbn [bind].
      unfold FCCollection.apply_data. rewrite Hmax. cbn [bind].
      rewrite Hmin. cbn [bind].
      apply global_max in Hmax. apply global_min in Hmin.
      now rewrite Hmax, Hmin. }
    rewrite Htr. cbn [bind].
    destruct (traverse_exists
                (fun kv : string * FCMeasurement.t =>
                   r <- transform tfun (snd kv)
                          (Prebuilt (set_spline xmin xmax
                                       (new_Transformation name direction args kw)))
                          "forward" (Some sel) return_all true true false None
                          [] [] ;;
                   Ok (fst kv, fst r))
                (FCCollection.members self)) as [items Hitems].
    { intros [k v] Hkv. cbn [fst snd].
      assert (Hv : In v (FCCollection.values self)).
      { unfold FCCollection.values. apply in_map_iff. exists (k, v). auto. }
      destruct (Hmembers v Hv) as [Hrect _].
      destruct (Hget v Hv) as [sub Hsub].
      destruct (create_new_data_spec tfun v
                  (set_spline xmin xmax (new_Transformation name direction args kw))
                  sel return_all true false None sub Hrect Hnodup Hsub)
        as [nd [Hnd _]].
      rewrite transform_default. cbn [create_transformer bind].
      rewrite Hnd. cbn [bind]. eauto. }
    unfold FCCollection.transform_all. rewrite Hitems. cbn [bind]. eauto.
  - unfold xmin, cells. rewrite flat_map_concat_map, <- nanmin_concat, map_map.
    reflexivity.
  - unfold xmax, cells. rewrite flat_map_concat_map, <- nanmax_concat, map_map.
    reflexivity.
  - intros c Hin Hc.
    destruct (nanmax_spec cells) as [Hub Hmem].
    destruct (nanmin_spec cells) as [Hlb Hmem'].
    destruct (Hub c Hin Hc) as [Hn Hle]. destruct (Hlb c Hin Hc) as [Hn' Hle'].
    repeat split; auto.
Qed.

Lemma shared_spline_bounds_witness :
  exists new,
    FCCollection.transform Examples.negate Examples.plate (ToBuild "hlog")
      "forward" true (Some ["A"; "B"]) true true true false None [] []
    = Ok (new, None).
Proof.
  pose proof (shared_spline_bounds Examples.negate Examples.plate "hlog"
                "forward" (Some ["A"; "B"]) true true false None [] [])
    as [_ [H _]].
  apply (H Examples.sample3 [("d", Log10 Examples.f1000)] eq_refl).
  - exists [Examples.f1000; Examples.f1000], Examples.f1000.
    repeat split; reflexivity.
  - repeat constructor; simpl; intuition discriminate.
  - intros v [<- | [<- | []]];
      (split; [repeat constructor | intros c [<- | [<- | []]]; cbn; auto]).
Defined.

(** The global bounds are not those of a single member: on the sample plate
    they are 0 and 50, while the first member alone spans 1 to 8. *)
Example plate_bounds :
  let cells_of := fun v : FCMeasurement.t => selected_cells ["A"; "B"] (data v) in
  Np.nanmin (flat_map cells_of (FCCollection.values Examples.plate)) = of_int 0 /\
  Np.nanmax (flat_map cells_of (FCCollection.values Examples.plate)) = of_int 50 /\
  Np.nanmin (cells_of Examples.sample3) = of_int 1 /\
  Np.nanmax (cells_of Examples.sample3) = of_int 8.
Proof. repeat split; reflexivity. Qed.

(** *** Where the validation error can come from *)













(** ** Binary64 arithmetic: integers and fractions *)

Section Digits.

Lemma digits2_bounds (p : positive) :
  2 ^ (Z.pos (digits2_pos p) - 1) <= Z.pos p < 2 ^ Z.pos (digits2_pos p).
Proof.
  induction p as [p IH | p IH |]; cbn [digits2_pos].
  - rewrite Pos2Z.inj_succ.
    replace (Z.succ (Z.pos (digits2_pos p)) - 1) with
      (Z.succ (Z.pos (digits2_pos p) - 1)) by lia.
    rewrite !Z.pow_succ_r by lia. lia.
  - rewrite Pos2Z.inj_succ.
    replace (Z.succ (Z.pos (digits2_pos p)) - 1) with
      (Z.succ (Z.pos (digits2_pos p) - 1)) by lia.
    rewrite !Z.pow_succ_r by lia. lia.
  - cbn. lia.
Qed.

Lemma pow2_lt_exponent (a b : Z) : 0 <= b -> 2 ^ a < 2 ^ b -> a < b.
Proof.
  intros Hb H. destruct (Z.lt_ge_cases a b) as [Hlt | Hge]; [exact Hlt |].
  assert (2 ^ b <= 2 ^ a) by (apply Z.pow_le_mono_r; lia). lia.
Qed.

Lemma digits2_upper (p : positive) (d : Z) :
  0 <= d -> Z.pos p < 2 ^ d -> Z.pos (digits2_pos p) <= d.
Proof.
  intros Hd Hp. pose proof (digits2_bounds p) as [Hlo _].
  assert (Z.pos (digits2_pos p) - 1 < d)
    by (apply pow2_lt_exponent; [exact Hd | lia]).
  lia.
Qed.

Lemma digits2_unique (p : positive) (d : Z) :
  2 ^ (d - 1) <= Z.pos p < 2 ^ d -> Z.pos (digits2_pos p) = d.
Proof.
  intros [Hlo Hhi]. pose proof (digits2_bounds p) as [Hlo' Hhi'].
  assert (Hd : 0 < d).
  { destruct (Z.lt_ge_cases 0 d) as [H | H]; [exact H |].
    assert (2 ^ d <= 2 ^ 0) by (apply Z.pow_le_mono_r; lia).
    change (2 ^ 0) with 1 in *. lia. }
  assert (Z.pos (digits2_pos p) - 1 < d)
    by (apply pow2_lt_exponent; lia).
  assert (d - 1 < Z.pos (digits2_pos p))
    by (apply pow2_lt_exponent; lia).
  lia.
Qed.

Lemma digits2_shift (p k : positive) :
  Z.pos (digits2_pos (Pos.iter xO p k)) = Z.pos (digits2_pos p) + Z.pos k.
Proof.
  apply digits2_unique.
  change (Pos.iter xO p k) with (shift_pos k p).
  rewrite shift_pos_correct. change (Z.pow_pos 2 k) with (2 ^ Z.pos k).
  pose proof (digits2_bounds p) as [Hlo Hhi].
  assert (Hk : 0 < 2 ^ Z.pos k) by (apply Z.pow_pos_nonneg; lia).
  replace (Z.pos (digits2_pos p) + Z.pos k - 1)
    with (Z.pos k + (Z.pos (digits2_pos p) - 1)) by lia.
  rewrite (Z.add_comm (Z.pos (digits2_pos p)) (Z.pos k)).
  rewrite !Z.pow_add_r by lia. nia.
Qed.

End Digits.

(** An integer below [2 ^ 53] converts exactly, to a normalised float. *)
Lemma of_int_exact (n : positive) :
  Z.pos n < 2 ^ 53 ->
  exists (m : positive) (e : Z),
    of_int (Z.pos n) = S754_finite false m e /\
    -52 <= e <= 0 /\
    Z.pos (digits2_pos m) = 53 /\
    Z.pos m = Z.pos n * 2 ^ (- e).
Proof.
  intros Hn.
  pose proof (digits2_bounds n) as [Hlo Hhi].
  assert (Hd : Z.pos (digits2_pos n) <= 53) by (apply digits2_upper; lia).
  set (d := Z.pos (digits2_pos n)) in *.
  assert (Hd1 : 1 <= d) by (unfold d; lia).
  unfold of_int, binary_normalize, binary_round. fold d.
  assert (Hfexp : fexp prec emax (d + 0) = d - 53)
    by (unfold fexp, emin, prec, emax; lia).
  rewrite Hfexp.
  assert (Halign : exists m,
             shl_align n 0 (d - 53) = (m, d - 53) /\
             Z.pos (digits2_pos m) = 53 /\
             Z.pos m = Z.pos n * 2 ^ (53 - d)).
  { unfold shl_align. rewrite Z.sub_0_r.
    destruct (d - 53) as [| q | q] eqn:Eq; try lia.
    - exists n. replace (53 - d) with 0 by lia.
      split; [reflexivity |]. split; [fold d; lia | lia].
    - exists (Pos.iter xO n q).
      split; [reflexivity |]. split.
      + rewrite digits2_shift. fold d. lia.
      + change (Pos.iter xO n q) with (shift_pos q n).
        rewrite shift_pos_correct. change (Z.pow_pos 2 q) with (2 ^ Z.pos q).
        replace (53 - d) with (Z.pos q) by lia. lia. }
  destruct Halign as [m [-> [Hm53 Hmv]]].
  exists m, (d - 53).
  replace (- (d - 53)) with (53 - d) by lia.
  split; [| repeat split; auto; lia].
  destruct (binary_round_aux_exact false (Z.pos m) (d - 53))
    as [m1 [m2 [e1 [e2 [He1 [Hb [Hex [He2 [Hm2 ->]]]]]]]]]; [lia |].
  cbn [Zdigits2] in He1.
  assert (Hf1 : fexp prec emax (Z.pos (digits2_pos m) + (d - 53)) = d - 53)
    by (rewrite Hm53; unfold fexp, emin, prec, emax; lia).
  rewrite Hf1 in He1.
  assert (E1 : e1 = d - 53) by lia. clear He1. subst e1.
  replace (d - 53 - (d - 53)) with 0 in Hb, Hex by lia.
  change (2 ^ 0) with 1 in Hb, Hex. rewrite Z.div_1_r in Hb, Hex.
  assert (E2 : m1 = Z.pos m) by (apply Hex; apply Z.mod_1_r).
  clear Hb Hex. subst m1.
  cbn [Zdigits2] in He2. rewrite Hf1 in He2.
  assert (E3 : e2 = d - 53) by lia. clear He2. subst e2.
  replace (d - 53 - (d - 53)) with 0 in Hm2 by lia.
  change (2 ^ 0) with 1 in Hm2. rewrite Z.div_1_r in Hm2. subst m2.
  replace (d - 53 <=? emax - prec) with true
    by (symmetry; apply Z.leb_le; unfold emax, prec; lia).
  reflexivity.
Qed.

Lemma pow2_pos (a : Z) : 0 <= a -> 0 < 2 ^ a.
Proof. intros; apply Z.pow_pos_nonneg; lia. Qed.

Lemma pow2_split (a b : Z) : 0 <= a -> 0 <= b -> 2 ^ (a + b) = 2 ^ a * 2 ^ b.
Proof. intros; apply Z.pow_add_r; assumption. Qed.

(** Rounding an exact value that does not exceed an integer [n] below
    [2 ^ 53] gives a float that does not exceed [n] either: [n] lies on the
    grid of every exponent the result can take. *)
Lemma round_below_integer (m : positive) (e n : Z) :
  n < 2 ^ 53 -> e <= 0 -> Z.pos m <= n * 2 ^ (- e) ->
  binary_round_aux prec emax false (Z.pos m) e loc_Exact = S754_zero false \/
  exists (m' : positive) (e' : Z),
    binary_round_aux prec emax false (Z.pos m) e loc_Exact
    = S754_finite false m' e' /\
    e' <= 0 /\ Z.pos m' <= n * 2 ^ (- e').
Proof.
  intros Hn He Hm.
  assert (Hpe : 0 < 2 ^ (- e)) by (apply pow2_pos; lia).
  assert (Hn0 : 0 < n) by nia.
  destruct (binary_round_aux_exact false (Z.pos m) e)
    as [m1 [m2 [e1 [e2 [He1 [Hb [Hex [He2 [Hm2 ->]]]]]]]]]; [lia |].
  cbn [Zdigits2] in He1.
  (* the first shift *)
  assert (Hlt : Z.pos m < 2 ^ (53 - e)).
  { replace (53 - e) with (53 + - e) by lia. rewrite pow2_split by lia. nia. }
  assert (Hdig : Z.pos (digits2_pos m) <= 53 - e)
    by (apply digits2_upper; [lia | exact Hlt]).
  assert (Hfe : fexp prec emax (Z.pos (digits2_pos m) + e) <= 0)
    by (unfold fexp, emin, prec, emax; lia).
  assert (He1' : e <= e1 <= 0) by lia.
  set (n1 := e1 - e) in *.
  assert (Hn1 : 0 <= n1) by (unfold n1; lia).
  assert (Hp1 : 0 < 2 ^ n1) by (apply pow2_pos; lia).
  assert (Hgrid : 2 ^ (- e) = 2 ^ (- e1) * 2 ^ n1).
  { rewrite <- pow2_split by lia. f_equal. unfold n1. lia. }
  set (q := n * 2 ^ (- e1)) in *.
  assert (Hmq : Z.pos m <= 2 ^ n1 * q) by (unfold q; rewrite Hgrid in Hm; lia).
  assert (Hm1 : 0 <= m1 <= q).
  { assert (Hdiv : 0 <= Z.pos m / 2 ^ n1) by (apply Z.div_pos; lia).
    split; [lia |].
    destruct (Z.eq_dec (Z.pos m mod 2 ^ n1) 0) as [Hz | Hnz].
    - rewrite (Hex Hz). apply Z.div_le_upper_bound; lia.
    - assert (Hstrict : Z.pos m < 2 ^ n1 * q).
      { destruct (Z.eq_dec (Z.pos m) (2 ^ n1 * q)) as [Heq | Hne]; [| lia].
        exfalso. apply Hnz. rewrite Heq, Z.mul_comm. apply Z.mod_mul. lia. }
      assert (Z.pos m / 2 ^ n1 < q)
        by (apply Z.div_lt_upper_bound; lia).
      lia. }
  (* the second shift *)
  assert (Hpe1 : 0 < 2 ^ (- e1)) by (apply pow2_pos; lia).
  assert (Hq53 : q < 2 ^ (53 - e1)).
  { unfold q. replace (53 - e1) with (53 + - e1) by lia.
    rewrite pow2_split by lia. nia. }
  assert (Hfe2 : fexp prec emax (Zdigits2 m1 + e1) <= 0).
  { destruct m1 as [| p1 | p1]; [| | lia]; cbn [Zdigits2].
    - unfold fexp, emin, prec, emax. lia.
    - assert (Z.pos (digits2_pos p1) <= 53 - e1)
        by (apply digits2_upper; lia).
      unfold fexp, emin, prec, emax. lia. }
  assert (He2' : e1 <= e2 <= 0) by lia.
  set (n2 := e2 - e1) in *.
  assert (Hp2 : 0 < 2 ^ n2) by (apply pow2_pos; unfold n2; lia).
  assert (Hgrid2 : 2 ^ (- e1) = 2 ^ (- e2) * 2 ^ n2).
  { rewrite <- pow2_split by (unfold n2; lia). f_equal. unfold n2. lia. }
  assert (Hm2' : 0 <= m2 <= n * 2 ^ (- e2)).
  { subst m2. split; [apply Z.div_pos; lia |].
    apply Z.div_le_upper_bound; [lia |].
    unfold q in Hm1. rewrite Hgrid2 in Hm1. lia. }
  destruct m2 as [| p2 | p2]; [left; reflexivity | | lia].
  right. exists p2, e2.
  replace (e2 <=? emax - prec) with true
    by (symmetry; apply Z.leb_le; unfold emax, prec; lia).
  repeat split; lia.
Qed.

(** The integer part of a float lying between 0 and an integer [n]. *)
Lemma trunc_below_integer (m : positive) (e n : Z) :
  e <= 0 -> Z.pos m <= n * 2 ^ (- e) ->
  exists c, trunc (S754_finite false m e) = Some c /\ 0 <= c <= n.
Proof.
  intros He Hm. cbn [trunc].
  assert (Hp : 0 < 2 ^ (- e)) by (apply pow2_pos; lia).
  destruct (Z.leb_spec 0 e) as [H0 | H0].
  - assert (e = 0) by lia. subst e. cbn in *. eexists; split; [reflexivity |]. lia.
  - eexists; split; [reflexivity |]. split.
    + apply Z.div_pos; lia.
    + apply Z.div_le_upper_bound; lia.
Qed.

(** ** [subsample]: fractions of the event count *)

Lemma valid_mantissa (s : bool) (m : positive) (e : Z) :
  valid (S754_finite s m e) = true -> Z.pos m < 2 ^ 53.
Proof.
  unfold valid, valid_binary, bounded, canonical_mantissa.
  intros H. apply andb_true_iff in H. destruct H as [H _].
  apply Z.eqb_eq in H. unfold fexp, emin, prec, emax in H.
  pose proof (digits2_bounds m) as [_ Hhi].
  assert (Hd : Z.pos (digits2_pos m) <= 53) by lia.
  assert (2 ^ Z.pos (digits2_pos m) <= 2 ^ 53)
    by (apply Z.pow_le_mono_r; lia).
  lia.
Qed.

(** A float that is not above [1.0] is a fraction [m * 2 ^ e <= 1]. *)
Lemma fraction_le_one (m : positive) (e : Z) :
  valid (S754_finite false m e) = true ->
  ltb one (S754_finite false m e) = false ->
  e <= 0 /\ Z.pos m <= 2 ^ (- e).
Proof.
  intros Hv Hlt. apply valid_mantissa in Hv.
  unfold ltb, SFltb, one in Hlt. cbn [SFcompare] in Hlt.
  change (Pos.compare_cont Eq 4503599627370496 m)
    with (Pos.compare 4503599627370496 m) in Hlt.
  destruct (Z.compare_spec (-52) e) as [He | He | He]; try discriminate Hlt.
  - subst e. split; [lia |].
    change (2 ^ (- -52)) with (Z.pos 4503599627370496).
    destruct (Pos.compare_spec 4503599627370496 m) as [Hm | Hm | Hm].
    + subst m. apply Z.le_refl.
    + discriminate Hlt.
    + apply Z.lt_le_incl, Pos2Z.pos_lt_pos. exact Hm.
  - split; [lia |].
    assert (2 ^ 53 <= 2 ^ (- e)) by (apply Z.pow_le_mono_r; lia). lia.
Qed.

Lemma floor_trunc_nonneg (f : float) :
  nonneg f = true -> floor f = trunc f.
Proof.
  destruct f as [s | s | | s m e]; cbn; try reflexivity.
  destruct s; [discriminate |]. intros _.
  destruct (0 <=? e); reflexivity.
Qed.

(** [int(n * k)] for a fraction [k] of a count [n]: it is computed without
    error, it is the floor of the float product, and it lies between 0 and
    [n]. *)
Lemma scaled_count (n : Z) (k : float) :
  0 <= n < 2 ^ 53 ->
  valid k = true ->
  ltb one k = false -> ltb k zero = false -> is_nan k = false ->
  exists c,
    (p <- Py.int_mul_float n k ;; Py.int_of_float p) = Ok c /\
    floor (mul (of_int n) k) = Some c /\
    0 <= c <= n.
Proof.
  intros Hn Hv H1 H0 Hnan.
  assert (Hzero : forall s,
             exists c, Py.int_of_float (S754_zero s) = Ok c /\
                       floor (S754_zero s) = Some c /\ 0 <= c <= n).
  { intros s. exists 0. repeat split; lia. }
  destruct n as [| p | p]; [| | lia].
  - (* an empty table *)
    unfold Py.int_mul_float. change (of_int 0) with (S754_zero false).
    cbn [bind].
    destruct k as [s | [] | | [] m e]; try discriminate; apply Hzero.
  - destruct (of_int_exact p) as [mx [ex [Hof [Hex [_ Hmx]]]]]; [lia |].
    unfold Py.int_mul_float. rewrite Hof. cbn [bind].
    destruct k as [s | [] | | [] m e]; try discriminate.
    + apply Hzero.
    + destruct (fraction_le_one m e Hv H1) as [He Hm].
      unfold mul, SFmul. cbn [xorb].
      assert (Hprod : Z.pos (mx * m) <= Z.pos p * 2 ^ (- (ex + e))).
      { rewrite Pos2Z.inj_mul, Hmx.
        replace (- (ex + e)) with (- ex + - e) by lia.
        rewrite pow2_split by lia.
        assert (0 < 2 ^ (- ex)) by (apply pow2_pos; lia).
        nia. }
      destruct (round_below_integer (mx * m) (ex + e) (Z.pos p))
        as [-> | [m' [e' [-> [He' Hm']]]]]; try lia.
      * apply Hzero.
      * destruct (trunc_below_integer m' e' (Z.pos p) He' Hm') as [c [Hc Hb]].
        exists c. unfold Py.int_of_float. rewrite Hc.
        rewrite floor_trunc_nonneg by reflexivity.
        repeat split; auto; lia.
Qed.

(** Multiplying by [1.0] changes nothing, and the count comes back. *)
Lemma scaled_by_one (n : Z) :
  0 <= n < 2 ^ 53 ->
  (p <- Py.int_mul_float n one ;; Py.int_of_float p) = Ok n.
Proof.
  intros Hn. destruct n as [| p | p]; [reflexivity | | lia].
  destruct (of_int_exact p) as [mx [ex [Hof [Hex [Hd Hmx]]]]]; [lia |].
  unfold Py.int_mul_float. rewrite Hof. cbn [bind].
  assert (Hmul : mul (S754_finite false mx ex) one = S754_finite false mx ex).
  { unfold mul, SFmul, one. cbn [xorb].
    pose proof (digits2_bounds mx) as [Hlo Hhi]. rewrite Hd in Hlo, Hhi.
    assert (HM : Z.pos (mx * 4503599627370496) = Z.pos mx * 2 ^ 52)
      by (rewrite Pos2Z.inj_mul; reflexivity).
    assert (HD : Z.pos (digits2_pos (mx * 4503599627370496)) = 105).
    { apply digits2_unique. rewrite HM.
      change (2 ^ (105 - 1)) with (2 ^ 52 * 2 ^ 52).
      change (2 ^ 105) with (2 ^ 53 * 2 ^ 52).
      change (2 ^ (53 - 1)) with (2 ^ 52) in Hlo. lia. }
    destruct (binary_round_aux_exact false (Z.pos (mx * 4503599627370496))
                (ex + -52))
      as [m1 [m2 [e1 [e2 [He1 [Hb [Hexa [He2 [Hm2 ->]]]]]]]]]; [lia |].
    cbn [Zdigits2] in He1. rewrite HD in He1.
    assert (Hf : fexp prec emax (105 + (ex + -52)) = ex)
      by (unfold fexp, emin, prec, emax; lia).
    rewrite Hf in He1.
    assert (E1 : e1 = ex) by lia. clear He1. subst e1.
    replace (ex - (ex + -52)) with 52 in Hb, Hexa by lia.
    assert (E2 : m1 = Z.pos mx).
    { rewrite Hexa; rewrite HM.
      - apply Z.div_mul. lia.
      - apply Z.mod_mul. lia. }
    clear Hb Hexa. subst m1.
    cbn [Zdigits2] in He2. rewrite Hd in He2.
    assert (Hf' : fexp prec emax (53 + ex) = ex)
      by (unfold fexp, emin, prec, emax; lia).
    rewrite Hf' in He2.
    assert (E3 : e2 = ex) by lia. clear He2. subst e2.
    replace (ex - ex) with 0 in Hm2 by lia.
    change (2 ^ 0) with 1 in Hm2. rewrite Z.div_1_r in Hm2. subst m2.
    replace (ex <=? emax - prec) with true
      by (symmetry; apply Z.leb_le; unfold emax, prec; lia).
    reflexivity. }
  rewrite Hmul. unfold Py.int_of_float. cbn [trunc].
  assert (Hp : 0 < 2 ^ (- ex)) by (apply pow2_pos; lia).
  destruct (Z.leb_spec 0 ex) as [H0 | H0].
  - assert (ex = 0) by lia. subst ex. cbn in Hmx. f_equal. cbn. lia.
  - f_equal. rewrite Hmx. apply Z.div_mul. lia.
Qed.

(** A float key that passes the range test is replaced by the count it
    scales to. *)
Lemma float_key_as_count (draws : list nat) (self : t) (k : float) (c : Z)
  (order : string) (auto_resize : bool) :
  ltb one k = false -> ltb k zero = false ->
  (p <- Py.int_mul_float (num_rows (data self)) k ;; Py.int_of_float p) = Ok c ->
  subsample draws self (KFloat k) order auto_resize
  = subsample draws self (KInt c) order auto_resize.
Proof.
  intros H1 H0 Hc. unfold subsample, get_data. rewrite H1, H0.
  cbn [orb]. apply bind_ok in Hc. destruct Hc as [p [Hp Hc]].
  rewrite Hp. cbn [bind]. rewrite Hc. reflexivity.
Qed.

(** A float key that fails the range test is refused. *)
Lemma float_key_rejected (draws : list nat) (self : t) (k : float)
  (order : string) (auto_resize : bool) :
  ltb one k || ltb k zero = true ->
  subsample draws self (KFloat k) order auto_resize
  = Raise (ValueError "If float, key must be between 0.0 and 1.0").
Proof.
  intros H. unfold subsample, get_data. rewrite H. reflexivity.
Qed.

(** NaN passes the range test and is refused by [int]. *)
Lemma nan_key_rejected (draws : list nat) (self : t) (order : string)
  (auto_resize : bool) :
  num_rows (data self) < 2 ^ 53 ->
  subsample draws self (KFloat S754_nan) order auto_resize
  = Raise (ValueError "cannot convert float NaN to integer").
Proof.
  intros Hn. pose proof (num_rows_nonneg (data self)) as H0.
  unfold subsample, get_data. cbn [ltb SFltb SFcompare orb bind one].
  unfold Py.int_mul_float.
  destruct (num_rows (data self)) as [| p | p] eqn:E; [reflexivity | | lia].
  destruct (of_int_exact p Hn) as [mx [ex [-> _]]]. reflexivity.
Qed.

(** A count between 0 and the number of events, under any of the three
    orders: the result has exactly that many rows, all of them rows of the
    table.  The row labels have to be distinct for the random order alone,
    and a count of 0 gives the empty table under any order. *)
Lemma int_key_count (draws : list nat) (self : t) (c : Z) (order : string)
  (auto_resize : bool) :
  0 <= c <= num_rows (data self) ->
  (order = "random" /\ NoDup (index (data self))) \/
  order = "start" \/ order = "end" \/ c = 0 ->
  exists newdata,
    subsample draws self (KInt c) order auto_resize = Ok (set_data self newdata) /\
    num_rows newdata = c /\
    columns newdata = columns (data self) /\
    incl (rows newdata) (rows (data self)).
Proof.
  intros Hc Horder.
  destruct Horder as [[-> Hnd] | Horder].
  { destruct (int_key_random draws self c auto_resize Hnd Hc)
      as [nd [H [Hcol [Hnum [_ [_ Hincl]]]]]].
    exists nd; auto. }
  destruct (Z.ltb_spec c 1) as [Hlt | Hge].
  { assert (c = 0) by lia; subst c. rewrite subsample_zero.
    eexists; split; [reflexivity |]. cbn. repeat split. intros x []. }
  assert (Horder' : order = "start" \/ order = "end")
    by (destruct Horder as [H | [H | H]]; [auto | auto | lia]).
  clear Horder. rename Horder' into Horder.
  assert (Hlen : Z.of_nat (length (rows (data self))) = num_rows (data self))
    by reflexivity.
  unfold subsample, get_data, copy. cbn [bind].
  replace (auto_resize && (num_rows (data self) <? c)) with false
    by (destruct (Z.ltb_spec (num_rows (data self)) c); [lia |];
        now rewrite andb_false_r).
  replace (c <? 1) with false by (symmetry; apply Z.ltb_ge; lia).
  destruct Horder as [-> | ->].
  - change (("start" =? "random")%string) with false.
    change (("start" =? "start")%string) with true. cbv iota.
    rewrite iloc_head. cbn [bind].
    eexists; split; [reflexivity |].
    unfold num_rows at 1. cbn [rows columns].
    assert (Hcl : Py.clamp (num_rows (data self)) 0 (num_rows (data self)) c = c)
      by (unfold Py.clamp; destruct (Z.ltb_spec c 0); lia).
    rewrite Hcl. repeat split.
    + rewrite length_firstn. lia.
    + apply firstn_incl.
  - change (("end" =? "random")%string) with false.
    change (("end" =? "start")%string) with false.
    change (("end" =? "end")%string) with true. cbv iota.
    rewrite iloc_tail. cbn [bind].
    eexists; split; [reflexivity |].
    unfold num_rows at 1. cbn [rows columns].
    assert (Hcl : Py.clamp (num_rows (data self)) 0 (num_rows (data self)) (- c)
                  = num_rows (data self) - c)
      by (unfold Py.clamp; destruct (Z.ltb_spec (- c) 0); lia).
    rewrite Hcl. repeat split.
    + rewrite length_skipn. lia.
    + apply skipn_incl.
Qed.

Lemma in_unit_interval (k : float) :
  leb zero k = true -> leb k one = true ->
  is_nan k = false /\ ltb one k = false /\ ltb k zero = false.
Proof.
  intros H0 H1.
  assert (Hnan : is_nan k = false) by (destruct k; [reflexivity .. | discriminate | reflexivity]).
  split; [exact Hnan |].
  apply (leb_key zero k eq_refl Hnan) in H0.
  apply (leb_key k one Hnan eq_refl) in H1.
  split.
  - destruct (ltb one k) eqn:E; [| reflexivity].
    apply (ltb_key one k eq_refl Hnan) in E.
    exfalso. eapply key_lt_irrefl; eassumption.
  - destruct (ltb k zero) eqn:E; [| reflexivity].
    apply (ltb_key k zero Hnan eq_refl) in E.
    exfalso. eapply key_lt_irrefl; eassumption.
Qed.

Lemma off_unit_interval (k : float) :
  is_nan k = false ->
  leb zero k = false \/ leb k one = false ->
  ltb one k || ltb k zero = true.
Proof.
  intros Hnan H. apply orb_true_iff.
  destruct H as [H | H].
  - right. destruct (ltb k zero) eqn:E; [reflexivity |].
    apply (ltb_false_key k zero Hnan eq_refl) in E.
    apply (leb_key zero k eq_refl Hnan) in E. congruence.
  - left. destruct (ltb one k) eqn:E; [reflexivity |].
    apply (ltb_false_key one k eq_refl Hnan) in E.
    apply (leb_key k one Hnan eq_refl) in E. congruence.
Qed.

(** C3, counterexample: a table of two events that carry the same row
    label.  [subsample(0.5)], in the default random order, returns two rows
    although [floor(2 * 0.5) = 1]; [subsample(1.0)] returns four rows. *)
Lemma fraction_of_repeated_labels :
  num_rows (data Examples.sample_dup) = 2 /\
  floor (mul (of_int 2) Examples.half) = Some 1 /\
  (exists new,
      subsample [] Examples.sample_dup (KFloat Examples.half) "random" false
      = Ok new /\
      num_rows (data new) = 2) /\
  (exists new,
      subsample [] Examples.sample_dup (KFloat one) "random" false = Ok new /\
      num_rows (data new) = 4).
Proof.
  split; [reflexivity |].
  split; [reflexivity |].
  split; eexists; split; reflexivity.
Qed.

(** C3, amended: on a table of [N] events ([N] below [2 ^ 53]),
    [subsample(k)] with a float key [k] in [0.0, 1.0] returns a table of
    exactly [floor(N * k)] rows of the original, [N * k] being the binary64
    product, under the orders 'start' and 'end', whenever that count is 0,
    and under the order 'random' when the row labels are distinct;
    [subsample(1.0)] then returns [N] rows; [subsample(0.0)] returns the
    empty table on every table and under every order, as [subsample(0)]
    under the 'start' rule does; a float key above [1.0] or below [0.0]
    fails with the [ValueError] of the range test on every table, and NaN
    fails with a [ValueError] as well. *)
Theorem subsample_fraction :
  forall (draws : list nat) (self : t) (k : float) (order : string)
         (auto_resize : bool),
    let n := num_rows (data self) in
    (n < 2 ^ 53 -> valid k = true ->
     leb zero k = true -> leb k one = true ->
     exists c,
       floor (mul (of_int n) k) = Some c /\
       0 <= c <= n /\
       ((order = "random" /\ NoDup (index (data self))) \/
        order = "start" \/ order = "end" \/ c = 0 ->
        exists newdata,
          subsample draws self (KFloat k) order auto_resize
          = Ok (set_data self newdata) /\
          num_rows newdata = c /\
          columns newdata = columns (data self) /\
          incl (rows newdata) (rows (data self)))) /\
    (n < 2 ^ 53 ->
     (order = "random" /\ NoDup (index (data self))) \/
     order = "start" \/ order = "end" ->
     exists newdata,
       subsample draws self (KFloat one) order auto_resize
       = Ok (set_data self newdata) /\
       num_rows newdata = n) /\
    (n < 2 ^ 53 ->
     subsample draws self (KFloat zero) order auto_resize
     = Ok (set_data self (Frame (columns (data self)) [])) /\
     subsample draws self (KFloat zero) order auto_resize
     = subsample draws self (KInt 0) "start" auto_resize) /\
    (ltb one k = true \/ ltb k zero = true ->
     subsample draws self (KFloat k) order auto_resize
     = Raise (ValueError "If float, key must be between 0.0 and 1.0")) /\
    (n < 2 ^ 53 -> leb zero k = false \/ leb k one = false ->
     exists msg,
       subsample draws self (KFloat k) order auto_resize
       = Raise (ValueError msg)).
Proof.
  intros draws self k order auto_resize n.
  pose proof (num_rows_nonneg (data self)) as Hn0. fold n in Hn0.
  split; [| split; [| split; [| split]]].
  - intros Hn Hv H0 H1.
    destruct (in_unit_interval k H0 H1) as [Hnan [Hgt Hlt]].
    destruct (scaled_count n k (conj Hn0 Hn) Hv Hgt Hlt Hnan)
      as [c [Hc [Hfl Hb]]].
    exists c. split; [exact Hfl |]. split; [exact Hb |].
    intros Horder.
    destruct (int_key_count draws self c order auto_resize Hb Horder)
      as [nd [Hs [Hnum [Hcol Hincl]]]].
    exists nd.
    rewrite (float_key_as_count draws self k c order auto_resize Hgt Hlt Hc).
    auto.
  - intros Hn Horder.
    destruct (int_key_count draws self n order auto_resize
                (conj Hn0 (Z.le_refl n))) as [nd [Hs [Hnum _]]].
    { destruct Horder as [H | [H | H]]; auto. }
    exists nd.
    rewrite (float_key_as_count draws self one n order auto_resize
               eq_refl eq_refl (scaled_by_one n (conj Hn0 Hn))).
    auto.
  - intros Hn.
    assert (Hz : (p <- Py.int_mul_float n zero ;; Py.int_of_float p) = Ok 0).
    { destruct (scaled_count n zero (conj Hn0 Hn) eq_refl eq_refl eq_refl
                  eq_refl) as [c [Hc [Hfl _]]].
      rewrite Hc. f_equal.
      assert (Hmz : exists s, mul (of_int n) zero = S754_zero s).
      { destruct n as [| p | p]; [exists false; reflexivity | | lia].
        destruct (of_int_exact p Hn) as [mx [ex [-> _]]].
        exists false; reflexivity. }
      destruct Hmz as [s Hmz]. rewrite Hmz in Hfl. cbn in Hfl. congruence. }
    rewrite (float_key_as_count draws self zero 0 order auto_resize
               eq_refl eq_refl Hz).
    rewrite !subsample_zero. auto.
  - intros Hout. apply float_key_rejected. apply orb_true_iff. exact Hout.
  - intros Hn Hout.
    destruct (is_nan k) eqn:Hnan.
    + apply is_nan_true in Hnan. subst k.
      eexists. apply nan_key_rejected. exact Hn.
    + eexists. apply float_key_rejected.
      now apply off_unit_interval.
Qed.

Lemma subsample_fraction_witness :
  (exists c,
      floor (mul (of_int 3) Examples.half) = Some c /\
      0 <= c <= 3 /\
      ("random" = "random" /\ NoDup (index Examples.table3) \/
       "random" = "start" \/ "random" = "end" \/ c = 0 ->
       exists newdata,
         subsample [5; 7; 1]%nat Examples.sample3 (KFloat Examples.half) "random"
           false = Ok (set_data Examples.sample3 newdata) /\
         num_rows newdata = c /\
         columns newdata = columns Examples.table3 /\
         incl (rows newdata) (rows Examples.table3))) /\
  (exists newdata,
      subsample [] Examples.sample_dup (KFloat one) "end" false
      = Ok (set_data Examples.sample_dup newdata) /\
      num_rows newdata = 2) /\
  subsample [5; 7; 1]%nat Examples.sample3 (KFloat Examples.two) "random" false
  = Raise (ValueError "If float, key must be between 0.0 and 1.0").
Proof.
  split; [| split].
  - pose proof (subsample_fraction [5; 7; 1]%nat Examples.sample3 Examples.half
                  "random" false) as [H _].
    apply H; reflexivity.
  - pose proof (subsample_fraction [] Examples.sample_dup one "end" false)
      as [_ [H _]].
    apply H; [reflexivity | auto].
  - pose proof (subsample_fraction [5; 7; 1]%nat Examples.sample3 Examples.two
                  "random" false) as [_ [_ [_ [H _]]]].
    apply H. left; reflexivity.
Defined.

(** The product is rounded before it is truncated: a third of three events
    is one event, although the float nearest to one third lies below it. *)
Example third_of_three :
  let third := S754_finite false 6004799503160661 (-54) in
  valid third = true /\
  3 * 6004799503160661 < 2 ^ 54 /\
  mul (of_int 3) third = one /\
  floor (mul (of_int 3) third) = Some 1.
Proof. repeat split; reflexivity. Qed.

(** ** The constants *)

(** [rtol] and [atol] are the doubles nearest to [1e-05] and [1e-08]: each is
    within half a unit in the last place of the decimal value. *)
Example tolerances_nearest :
  valid rtol = true /\ valid atol = true /\
  2 * Z.abs (5902958103587057 * 10 ^ 5 - 2 ^ 69) <= 10 ^ 5 /\
  2 * Z.abs (6044629098073146 * 10 ^ 8 - 2 ^ 79) <= 10 ^ 8.
Proof. repeat split; vm_compute; congruence. Qed.

(** The floats of the sample data are the integers and fractions they are
    named after. *)
Example sample_floats :
  of_int 1000 = Examples.f1000 /\
  of_int 2000 = Examples.f2000 /\
  of_int 1000000 = Examples.f1000000 /\
  of_int 1000001 = Examples.f1000001 /\
  of_int 2 = Examples.two /\
  of_int 3 = Examples.three /\
  of_int 1 = one /\
  mul Examples.half Examples.two = one.
Proof. repeat split; reflexivity. Qed.

(* ===================================================================== *)
(** * Part III: further properties of the code                            *)
(* ===================================================================== *)

(** ** [subsample]: the deterministic orders *)

Lemma int_key_start_end :
  forall (draws : list nat) (self : t) (k : Z) (auto_resize : bool),
    1 <= k ->
    subsample draws self (KInt k) "start" auto_resize
    = Ok (set_data self
            (Frame (columns (data self))
               (firstn (Z.to_nat k) (rows (data self))))) /\
    subsample draws self (KInt k) "end" auto_resize
    = Ok (set_data self
            (Frame (columns (data self))
               (skipn (Z.to_nat (num_rows (data self) - k)) (rows (data self))))).
Proof.
  intros draws self k auto_resize Hk.
  pose proof (num_rows_nonneg (data self)) as Hn.
  assert (Hlen : Z.of_nat (length (rows (data self))) = num_rows (data self))
    by reflexivity.
  set (k' := if auto_resize && (num_rows (data self) <? k)
             then num_rows (data self) else k).
  assert (Hk' : k' = k \/ (k' = num_rows (data self) /\ num_rows (data self) < k)).
  { unfold k'. destruct auto_resize; cbn [andb]; [| auto].
    destruct (Z.ltb_spec (num_rows (data self)) k); auto. }
  destruct (Z.ltb_spec k' 1) as [Hlt | Hge].
  - (* auto_resize on an empty table: the count drops to zero *)
    assert (H0 : k' = 0 /\ num_rows (data self) = 0) by lia.
    destruct H0 as [H0 HN].
    assert (Hrows : rows (data self) = []).
    { destruct (rows (data self)); [reflexivity | cbn in Hlen; lia]. }
    unfold subsample, get_data, copy. cbn [bind]. fold k'. rewrite H0.
    cbn -[iloc num_rows]. rewrite iloc_head. cbn [bind].
    rewrite Hrows. rewrite !firstn_nil, skipn_nil. auto.
  - unfold subsample, get_data, copy. cbn [bind]. fold k'.
    replace (k' <? 1) with false by (symmetry; apply Z.ltb_ge; lia).
    change (("start" =? "random")%string) with false.
    change (("start" =? "start")%string) with true.
    change (("end" =? "random")%string) with false.
    change (("end" =? "start")%string) with false.
    change (("end" =? "end")%string) with true. cbv iota.
    rewrite iloc_head, iloc_tail. cbn [bind]. split.
    + do 3 f_equal. unfold Py.clamp.
      destruct (Z.ltb_spec k' 0); [lia |].
      destruct (Z.le_gt_cases k (num_rows (data self))) as [Hle | Hgt].
      * replace (Z.min k' (num_rows (data self))) with k by lia. reflexivity.
      * rewrite !firstn_all2; [reflexivity | lia | lia].
    + do 3 f_equal. f_equal. unfold Py.clamp.
      destruct (Z.ltb_spec (- k') 0); lia.
Qed.

(** X1: with [order='start'] an integer key [k >= 1] returns the first [k]
    events (all of them when there are fewer), with [order='end'] the last
    [k], in the order of the table; the random source and [auto_resize]
    play no part. *)
Theorem subsample_start_end :
  forall (draws : list nat) (self : t) (k : Z) (auto_resize : bool),
    1 <= k ->
    subsample draws self (KInt k) "start" auto_resize
    = Ok (set_data self
            (Frame (columns (data self))
               (firstn (Z.to_nat k) (rows (data self))))) /\
    subsample draws self (KInt k) "end" auto_resize
    = Ok (set_data self
            (Frame (columns (data self))
               (skipn (Z.to_nat (num_rows (data self) - k)) (rows (data self))))).
Proof. exact int_key_start_end. Qed.

Lemma subsample_start_end_witness :
  subsample [] Examples.sample3 (KInt 2) "start" false
  = Ok (set_data Examples.sample3
          (Frame (columns Examples.table3) (firstn 2 (rows Examples.table3)))) /\
  subsample [] Examples.sample3 (KInt 2) "end" false
  = Ok (set_data Examples.sample3
          (Frame (columns Examples.table3) (skipn 1 (rows Examples.table3)))).
Proof.
  apply (subsample_start_end [] Examples.sample3 2 false). lia.
Defined.

(** ** [subsample]: what every result is made of *)

Lemma take_incl {A : Type} (l : list A) (ps : list Z) : incl (take l ps) l.
Proof.
  intros x Hx. unfold take in Hx. apply in_flat_map in Hx.
  destruct Hx as [p [_ Hp]].
  destruct (nth_error l (Z.to_nat p)) as [y |] eqn:Hy; [| contradiction].
  destruct Hp as [<- | []]. eapply nth_error_In; exact Hy.
Qed.

Lemma iloc_ok (df out : DataFrame) (s : Py.slice) :
  iloc df s = Ok out ->
  columns out = columns df /\ incl (rows out) (rows df).
Proof.
  unfold iloc. intros H. apply bind_ok in H. destruct H as [ps [_ [= <-]]].
  split; [reflexivity | apply take_incl].
Qed.

Lemma loc_rows_incl (rs out : list (Z * list spec_float)) (labels : list Z) :
  loc_rows rs labels = Ok out -> incl out rs.
Proof.
  revert out; induction labels as [| l ls IH]; intros out; cbn [loc_rows].
  - intros [= <-] x [].
  - destruct (filter (fun r => fst r =? l) rs) as [| r0 hit] eqn:Hf;
      [discriminate |].
    intros H. apply bind_ok in H. destruct H as [rest [Hrest [= <-]]].
    intros x Hx. change (In x ((r0 :: hit) ++ rest)) in Hx.
    apply in_app_or in Hx. destruct Hx as [Hx | Hx].
    + rewrite <- Hf in Hx. apply filter_In in Hx. tauto.
    + eapply IH; eauto.
Qed.

Lemma loc_ok (df out : DataFrame) (labels : list Z) :
  loc df labels = Ok out ->
  columns out = columns df /\ incl (rows out) (rows df).
Proof.
  unfold loc. intros H. apply bind_ok in H. destruct H as [rs [Hrs [= <-]]].
  split; [reflexivity | eapply loc_rows_incl; exact Hrs].
Qed.

(** X2: whatever the key, the order, the random draws and the row labels
    are, a successful [subsample] returns a sample with the columns of the
    original whose rows are all rows of the original table, and with the ID,
    the data file and the metadata of the original. *)
Theorem subsample_rows_of_table :
  forall (draws : list nat) (self new : t) (key : key) (order : string)
         (auto_resize : bool),
    subsample draws self key order auto_resize = Ok new ->
    columns (data new) = columns (data self) /\
    incl (rows (data new)) (rows (data self)) /\
    ID new = ID self /\ datafile new = datafile self /\ meta new = meta self.
Proof.
  intros draws self new key order auto_resize H.
  unfold subsample, get_data, copy in H.
  apply bind_ok in H. destruct H as [key' [_ H]].
  apply bind_ok in H. destruct H as [nd [Hnd [= <-]]].
  cbn [data ID datafile meta set_data].
  assert (Hgoal : columns nd = columns (data self) /\
                  incl (rows nd) (rows (data self))).
  { destruct key' as [n | f | xs | s | s |]; try discriminate.
    - set (n' := if auto_resize && (num_rows (data self) <? n)
                 then num_rows (data self) else n) in *.
      destruct (String.eqb (if n' <? 1 then "start" else order) "random").
      + apply bind_ok in Hnd. destruct Hnd as [labels [_ Hnd]].
        eapply loc_ok; exact Hnd.
      + destruct (String.eqb (if n' <? 1 then "start" else order) "start");
          [eapply iloc_ok; exact Hnd |].
        destruct (String.eqb (if n' <? 1 then "start" else order) "end");
          [eapply iloc_ok; exact Hnd | discriminate].
    - apply bind_ok in Hnd. destruct Hnd as [s' [_ Hnd]].
      eapply iloc_ok; exact Hnd. }
  tauto.
Qed.

Lemma subsample_rows_of_table_witness :
  columns (data (set_data Examples.sample_dup
                   (Frame (columns Examples.table_dup)
                      (rows Examples.table_dup ++ rows Examples.table_dup))))
  = columns (data Examples.sample_dup) /\
  incl (rows Examples.table_dup ++ rows Examples.table_dup)
    (rows Examples.table_dup).
Proof.
  pose proof (subsample_rows_of_table [] Examples.sample_dup
                (set_data Examples.sample_dup
                   (Frame (columns Examples.table_dup)
                      (rows Examples.table_dup ++ rows Examples.table_dup)))
                (KFloat one) "random" false eq_refl) as [H1 [H2 _]].
  split; [exact H1 | exact H2].
Defined.

(** ** [subsample]: counts beyond the table *)

Lemma iloc_raise (df : DataFrame) (s : Py.slice) (e : exn) :
  iloc df s = Raise e -> e = ValueError "slice step cannot be zero".
Proof.
  unfold iloc, Py.slice_positions, Py.slice_indices. intros H.
  destruct (match Py.step s with Some k => k | None => 1 end =? 0);
    cbn in H; [congruence | discriminate].
Qed.

Lemma loc_raise (df : DataFrame) (labels : list Z) (e : exn) :
  loc df labels = Raise e -> e = KeyError "label not in index".
Proof.
  unfold loc. intros H. apply bind_raise in H.
  destruct H as [H | [rs [_ H]]]; [| discriminate].
  induction labels as [| l ls IH]; cbn [loc_rows] in H; [discriminate |].
  destruct (filter (fun r => fst r =? l) (rows df)); [congruence |].
  apply bind_raise in H. destruct H as [H | [rest [_ H]]];
    [now apply IH | discriminate].
Qed.

(** X3: a count beyond the number of events, without [auto_resize], is not
    reported as out of bounds: under ['start'] and ['end'] the whole table
    comes back, under ['random'] the call fails with the [ValueError] of
    [random.sample]. *)
Theorem subsample_beyond_table :
  forall (draws : list nat) (self : t) (k : Z),
    num_rows (data self) < k ->
    subsample draws self (KInt k) "start" false = Ok (set_data self (data self)) /\
    subsample draws self (KInt k) "end" false = Ok (set_data self (data self)) /\
    subsample draws self (KInt k) "random" false
    = Raise (ValueError "Sample larger than population or is negative").
Proof.
  intros draws self k Hk.
  pose proof (num_rows_nonneg (data self)) as Hn.
  assert (Hlen : Z.of_nat (length (rows (data self))) = num_rows (data self))
    by reflexivity.
  destruct (int_key_start_end draws self k false) as [Hs He]; [lia |].
  assert (Hdf : forall d : DataFrame, Frame (columns d) (rows d) = d)
    by (intros []; reflexivity).
  rewrite Hs, He.
  rewrite firstn_all2 by lia.
  replace (Z.to_nat (num_rows (data self) - k)) with O by lia.
  rewrite skipn_0, Hdf.
  repeat split.
  unfold subsample, get_data. cbn [bind andb].
  replace (k <? 1) with false by (symmetry; apply Z.ltb_ge; lia).
  change (("random" =? "random")%string) with true. cbv iota.
  unfold Py.sample, index. rewrite length_map, Hlen.
  replace (num_rows (data self) <? k) with true
    by (symmetry; apply Z.ltb_lt; lia).
  rewrite orb_true_r. reflexivity.
Qed.

Lemma subsample_beyond_table_witness :
  subsample [] Examples.sample3 (KInt 5) "start" false
  = Ok (set_data Examples.sample3 (data Examples.sample3)) /\
  subsample [] Examples.sample3 (KInt 5) "end" false
  = Ok (set_data Examples.sample3 (data Examples.sample3)) /\
  subsample [] Examples.sample3 (KInt 5) "random" false
  = Raise (ValueError "Sample larger than population or is negative").
Proof.
  apply (subsample_beyond_table [] Examples.sample3 5). cbn; lia.
Defined.

(** X4: with an int, a float or a slice as key, [subsample] never raises an
    [IndexError]: nothing in its [try] block signals a position out of
    bounds. *)
Theorem subsample_never_index_error :
  forall (draws : list nat) (self : t) (key : key) (order : string)
         (auto_resize : bool) (msg : string),
    (forall xs, key <> KTuple xs) ->
    subsample draws self key order auto_resize <> Raise (IndexError msg).
Proof.
  intros draws self key order auto_resize msg Hkey H.
  unfold subsample, get_data, copy in H.
  apply bind_raise in H. destruct H as [H | [key' [Hconv H]]].
  - destruct key as [n | f | xs | s | s |]; try discriminate.
    + destruct (ltb one f || ltb f zero); [discriminate |].
      apply bind_raise in H. destruct H as [H | [p [_ H]]].
      * unfold Py.int_mul_float in H. destruct (of_int _) as [| [] | |];
          discriminate.
      * apply bind_raise in H. destruct H as [H | [n [_ H]]]; [| discriminate].
        unfold Py.int_of_float in H.
        destruct (trunc p); [discriminate |].
        destruct (is_nan p); discriminate.
    + now apply (Hkey xs).
  - apply bind_raise in H. destruct H as [H | [nd [_ H]]]; [| discriminate].
    destruct key' as [n | f | xs | s | s |]; try discriminate.
    + set (n' := if auto_resize && (num_rows (data self) <? n)
                 then num_rows (data self) else n) in *.
      destruct (String.eqb (if n' <? 1 then "start" else order) "random").
      * apply bind_raise in H. destruct H as [H | [labels [_ H]]].
        -- unfold Py.sample in H.
           destruct ((n' <? 0) || _); discriminate.
        -- apply loc_raise in H. discriminate.
      * destruct (String.eqb (if n' <? 1 then "start" else order) "start");
          [apply iloc_raise in H; discriminate |].
        destruct (String.eqb (if n' <? 1 then "start" else order) "end");
          [apply iloc_raise in H; discriminate | discriminate].
    + apply bind_raise in H. destruct H as [H | [s' [_ H]]].
      * destruct auto_resize; [| discriminate].
        apply bind_raise in H. destruct H as [H | [c [_ H]]].
        -- unfold Py.lt_opt in H. destruct (Py.stop s); discriminate.
        -- apply bind_raise in H. destruct H as [H | [c' [_ H]]];
             [| discriminate].
           unfold Py.lt_opt in H. destruct (Py.start s); discriminate.
      * apply iloc_raise in H. discriminate.
Qed.

Lemma subsample_never_index_error_witness :
  subsample [] Examples.sample3 (KInt 5) "random" false
  <> Raise (IndexError "index out of bounds").
Proof.
  apply (subsample_never_index_error [] Examples.sample3 (KInt 5) "random" false).
  intros xs H. discriminate H.
Defined.

(** ** [subsample]: [auto_resize] and slices *)

Lemma clamp_resized (n lower upper b : Z) :
  0 <= n -> upper <= n ->
  Py.clamp n lower upper (if b <? n then b else n) = Py.clamp n lower upper b.
Proof.
  intros Hn Hu. destruct (Z.ltb_spec b n) as [Hb | Hb]; [reflexivity |].
  unfold Py.clamp.
  destruct (Z.ltb_spec n 0), (Z.ltb_spec b 0); lia.
Qed.

(** X5: on a slice key with integer bounds [auto_resize] changes nothing:
    positions beyond the table are cut off by the positional indexing
    itself. *)
Theorem auto_resize_leaves_slices :
  forall (draws : list nat) (self : t) (lo hi : Z) (st : option Z)
         (order : string),
    subsample draws self (KSlice (Py.Slice (Some lo) (Some hi) st)) order true
    = subsample draws self (KSlice (Py.Slice (Some lo) (Some hi) st)) order false.
Proof.
  intros draws self lo hi st order.
  rewrite slice_key_resized, !slice_key_plain.
  pose proof (num_rows_nonneg (data self)) as Hn.
  set (n := num_rows (data self)) in *.
  f_equal. unfold iloc, Py.slice_positions, Py.slice_indices.
  cbn [Py.start Py.stop Py.step]. fold n.
  destruct (match st with Some k => k | None => 1 end =? 0); [reflexivity |].
  destruct (match st with Some k => k | None => 1 end <? 0);
    rewrite !clamp_resized by lia; reflexivity.
Qed.

(** ** [subsample]: the [order] argument *)

(** X6: an [order] other than 'random', 'start' and 'end' is refused with a
    [ValueError] when at least one event is asked for; when the count is
    below one the order is not looked at and the call succeeds. *)
Theorem subsample_unknown_order :
  forall (draws : list nat) (self : t) (k : Z) (order : string)
         (auto_resize : bool),
    order <> "random" -> order <> "start" -> order <> "end" ->
    (1 <= k -> (auto_resize = true -> 1 <= num_rows (data self)) ->
     subsample draws self (KInt k) order auto_resize
     = Raise (ValueError "order must be in ('random', 'start', 'end')")) /\
    (k < 1 ->
     subsample draws self (KInt k) order auto_resize
     = subsample draws self (KInt k) "start" auto_resize /\
     exists d, subsample draws self (KInt k) order auto_resize
               = Ok (set_data self d)).
Proof.
  intros draws self k order auto_resize Hr Hs He.
  apply String.eqb_neq in Hr, Hs, He.
  split.
  - intros Hk Hn. unfold subsample, get_data. cbn [bind].
    set (k' := if auto_resize && (num_rows (data self) <? k)
               then num_rows (data self) else k).
    assert (Hk' : 1 <= k').
    { unfold k'. destruct auto_resize; cbn [andb]; [| exact Hk].
      destruct (Z.ltb_spec (num_rows (data self)) k); auto. }
    replace (k' <? 1) with false by (symmetry; apply Z.ltb_ge; lia).
    now rewrite Hr, Hs, He.
  - intros Hk. rewrite !subsample_below_one by exact Hk.
    split; [reflexivity | eexists; reflexivity].
Qed.

Lemma subsample_unknown_order_witness :
  subsample [] Examples.sample3 (KInt 2) "middle" false
  = Raise (ValueError "order must be in ('random', 'start', 'end')") /\
  subsample [] Examples.sample3 (KInt 0) "middle" false
  = subsample [] Examples.sample3 (KInt 0) "start" false.
Proof.
  assert (H1 : "middle" <> "random") by discriminate.
  assert (H2 : "middle" <> "start") by discriminate.
  assert (H3 : "middle" <> "end") by discriminate.
  split.
  - apply (proj1 (subsample_unknown_order [] Examples.sample3 2 "middle" false
                    H1 H2 H3)); [lia | discriminate].
  - apply (proj2 (subsample_unknown_order [] Examples.sample3 0 "middle" false
                    H1 H2 H3)). lia.
Defined.

(** ** [subsample]: the whole table in random order *)

(** X7: on a table with distinct row labels, a random subsample of as many
    events as the table holds (or of more, under [auto_resize]) is a
    rearrangement of the table: every row comes back exactly once. *)
Theorem subsample_all_is_permutation :
  forall (draws : list nat) (self : t) (k : Z) (auto_resize : bool),
    NoDup (index (data self)) ->
    k = num_rows (data self) \/ (auto_resize = true /\ num_rows (data self) < k) ->
    exists newdata,
      subsample draws self (KInt k) "random" auto_resize
      = Ok (set_data self newdata) /\
      columns newdata = columns (data self) /\
      Permutation (rows newdata) (rows (data self)).
Proof.
  intros draws self k auto_resize Hnd Hk.
  pose proof (num_rows_nonneg (data self)) as Hn.
  assert (Hsame : subsample draws self (KInt k) "random" auto_resize
                  = subsample draws self (KInt (num_rows (data self))) "random"
                      auto_resize).
  { destruct Hk as [-> | [-> Hlt]]; [reflexivity |].
    unfold subsample, get_data. cbn [bind andb].
    replace (num_rows (data self) <? k) with true
      by (symmetry; apply Z.ltb_lt; exact Hlt).
    now rewrite Z.ltb_irrefl. }
  rewrite Hsame.
  destruct (int_key_random draws self (num_rows (data self)) auto_resize Hnd)
    as [nd [H [Hcol [Hnum [_ [Hnodup Hincl]]]]]]; [lia |].
  exists nd. split; [exact H |]. split; [exact Hcol |].
  apply NoDup_Permutation_bis; [exact Hnodup | | exact Hincl].
  unfold num_rows in Hnum. lia.
Qed.

Lemma subsample_all_is_permutation_witness :
  exists newdata,
    subsample [5; 7; 1]%nat Examples.sample3 (KInt 3) "random" false
    = Ok (set_data Examples.sample3 newdata) /\
    columns newdata = columns Examples.table3 /\
    Permutation (rows newdata) (rows Examples.table3).
Proof.
  apply (subsample_all_is_permutation [5; 7; 1]%nat Examples.sample3 3 false).
  - repeat constructor; simpl; intuition discriminate.
  - left; reflexivity.
Defined.

(** ** [subsample]: windows *)

(** X8: a tuple of two floats [(a, b)], both in [0.0, 1.0], selects the rows
    at the positions [floor(N * a)], ..., [floor(N * b) - 1] of the table
    (none when the second bound does not exceed the first), with or without
    [auto_resize]. *)
Theorem subsample_window :
  forall (draws : list nat) (self : t) (a b : float) (order : string)
         (auto_resize : bool),
    let n := num_rows (data self) in
    n < 2 ^ 53 ->
    valid a = true -> valid b = true ->
    leb zero a = true -> leb a one = true ->
    leb zero b = true -> leb b one = true ->
    exists lo hi,
      floor (mul (of_int n) a) = Some lo /\
      floor (mul (of_int n) b) = Some hi /\
      0 <= lo <= n /\ 0 <= hi <= n /\
      subsample draws self (KTuple [Py.VFloat a; Py.VFloat b]) order auto_resize
      = Ok (set_data self
              (Frame (columns (data self))
                 (firstn (Z.to_nat (hi - lo))
                    (skipn (Z.to_nat lo) (rows (data self)))))).
Proof.
  intros draws self a b order auto_resize n Hn Hva Hvb Ha0 Ha1 Hb0 Hb1.
  pose proof (num_rows_nonneg (data self)) as Hn0. fold n in Hn0.
  destruct (in_unit_interval a Ha0 Ha1) as [Hna [Hga Hla]].
  destruct (in_unit_interval b Hb0 Hb1) as [Hnb [Hgb Hlb]].
  destruct (scaled_count n a (conj Hn0 Hn) Hva Hga Hla Hna) as [lo [Hlo [Hfa Hba]]].
  destruct (scaled_count n b (conj Hn0 Hn) Hvb Hgb Hlb Hnb) as [hi [Hhi [Hfb Hbb]]].
  exists lo, hi. repeat split; try assumption; try lia.
  rewrite (subsample_tuple_window draws self a b order auto_resize lo hi Hlo Hhi).
  assert (Hplain : subsample draws self
                     (KSlice (Py.Slice (Some lo) (Some hi) None)) order auto_resize
                   = subsample draws self
                       (KSlice (Py.Slice (Some lo) (Some hi) None)) order false).
  { destruct auto_resize; [| reflexivity].
    rewrite slice_key_resized, !slice_key_plain.
    f_equal. unfold iloc, Py.slice_positions, Py.slice_indices.
    cbn [Py.start Py.stop Py.step]. fold n. cbn -[Py.clamp Py.range take].
    rewrite !clamp_resized by lia. reflexivity. }
  rewrite Hplain, slice_key_plain, iloc_unit_step. cbn [bind]. fold n.
  assert (Hcl : forall c, 0 <= c <= n -> Py.clamp n 0 n c = c).
  { intros c Hc. unfold Py.clamp. destruct (Z.ltb_spec c 0); lia. }
  rewrite !Hcl by lia. reflexivity.
Qed.

Lemma subsample_window_witness :
  exists lo hi,
    floor (mul (of_int 3) Examples.half) = Some lo /\
    floor (mul (of_int 3) one) = Some hi /\
    0 <= lo <= 3 /\ 0 <= hi <= 3 /\
    subsample [] Examples.sample3
      (KTuple [Py.VFloat Examples.half; Py.VFloat one]) "random" false
    = Ok (set_data Examples.sample3
            (Frame (columns Examples.table3)
               (firstn (Z.to_nat (hi - lo))
                  (skipn (Z.to_nat lo) (rows Examples.table3))))).
Proof.
  apply (subsample_window [] Examples.sample3 Examples.half one "random" false);
    reflexivity.
Defined.

(** ** [FCMeasurement.transform]: channels that are missing *)



(** ** [FCMeasurement.transform]: the transformer that is asked for *)




(** ** [FCMeasurement.transform]: all channels *)

Lemma positions_suffix (cs pre : list string) :
  NoDup (pre ++ cs) ->
  positions cs (pre ++ cs) = Ok (seq (length pre) (length cs)).
Proof.
  revert pre. induction cs as [| c cs IH]; intros pre Hnd; [reflexivity |].
  cbn [positions].
  assert (Hpos : position c (pre ++ c :: cs) = Some (length pre)).
  { apply NoDup_remove_2 in Hnd.
    assert (Hc : ~ In c pre) by (intros Hin; apply Hnd, in_or_app; auto).
    clear - Hc. induction pre as [| p pre IHp]; cbn.
    - now rewrite String.eqb_refl.
    - destruct (String.eqb_spec c p) as [-> | Hne]; [exfalso; apply Hc; now left |].
      rewrite IHp; [reflexivity |]. intros Hin; apply Hc; now right. }
  rewrite Hpos.
  replace (pre ++ c :: cs) with ((pre ++ [c]) ++ cs) in *
    by (rewrite <- app_assoc; reflexivity).
  rewrite (IH (pre ++ [c]) Hnd). cbn [bind].
  rewrite length_app. cbn [length]. rewrite Nat.add_1_r. reflexivity.
Qed.

Lemma project_all (n : nat) (r : label * list cell) :
  length (snd r) = n -> project (seq 0 n) r = r.
Proof.
  intros Hlen. destruct r as [l cells]. unfold project. cbn [fst snd] in *.
  f_equal. subst n. apply nth_ext with (d := S754_nan) (d' := S754_nan).
  - now rewrite length_map, length_seq.
  - intros i Hi. rewrite length_map, length_seq in Hi.
    rewrite (nth_indep _ S754_nan (nth 0 cells S754_nan))
      by (rewrite length_map, length_seq; exact Hi).
    rewrite (map_nth (fun i => nth i cells S754_nan) (seq 0 (length cells)) 0%nat).
    rewrite seq_nth by exact Hi. reflexivity.
Qed.

Lemma getitem_all_columns (df : DataFrame) :
  well_formed df -> Pandas.getitem df (columns df) = Ok df.
Proof.
  intros [Hnd Hrect]. unfold Pandas.getitem.
  pose proof (positions_suffix (columns df) [] Hnd) as Hps.
  cbn [app length] in Hps. rewrite Hps. cbn [bind].
  destruct df as [cols rs]. cbn [columns rows] in *. f_equal. f_equal.
  unfold rectangular in Hrect. cbn [columns rows] in Hrect.
  induction Hrect as [| r rs Hr _ IH]; [reflexivity |].
  cbn [map]. rewrite IH, (project_all _ r Hr). reflexivity.
Qed.

(** X11: when no channels are named, every column is transformed and
    [return_all] makes no difference, on a table with distinct column names
    and rows of full width. *)
Theorem transform_all_channels :
  forall (tfun : transform_fun) (self : t) (spec : transform_spec)
         (direction : string) (auto_range use_spln get_transformer : bool)
         (new_ID : option string) (args : list argument)
         (kwargs : list (string * argument)),
    well_formed (data self) ->
    transform tfun self spec direction None false auto_range use_spln
      get_transformer new_ID args kwargs
    = transform tfun self spec direction None true auto_range use_spln
        get_transformer new_ID args kwargs /\
    forall new out c,
      transform tfun self spec direction None false auto_range use_spln
        get_transformer new_ID args kwargs = Ok (new, out) ->
      columns (data new) = columns (data self) /\
      exists tr,
        column (data new) c
        = option_map (map (tfun tr use_spln (data self))) (column (data self) c).
Proof.
  intros tfun self spec direction auto_range use_spln get_transformer new_ID
    args kwargs Hwf.
  pose proof (getitem_all_columns (data self) Hwf) as Hall.
  assert (Hfilter : filter_items (data self) (columns (data self)) = Ok (data self))
    by (apply filter_items_getitem; exact Hall).
  assert (Heq : transform tfun self spec direction None false auto_range use_spln
                  get_transformer new_ID args kwargs
                = transform tfun self spec direction None true auto_range use_spln
                    get_transformer new_ID args kwargs).
  { rewrite !transform_blocks. cbv zeta.
    destruct (create_transformer self spec direction (columns (data self))
                auto_range args kwargs) as [tr | e]; [| reflexivity].
    cbn [bind]. unfold create_new_data, copy. rewrite Hall. cbn [bind].
    rewrite Hfilter. reflexivity. }
  split; [exact Heq |].
  intros new out c H. rewrite Heq in H.
  rewrite transform_blocks in H. cbv zeta in H.
  apply queueable_ok in H. destruct H as [H _].
  apply bind_ok in H. destruct H as [tr [_ H]].
  destruct (create_new_data_spec tfun self tr (columns (data self)) true use_spln
              get_transformer new_ID (data self) (proj2 Hwf) (proj1 Hwf) Hall)
    as [new_data [Hnew [_ [_ [Hcols [Hsel _]]]]]].
  rewrite Hnew in H. injection H as <- _. cbn [data].
  split; [exact Hcols |].
  exists tr.
  destruct (in_dec string_dec c (columns (data self))) as [Hin | Hnot].
  - apply (Hsel c Hin).
  - unfold column. rewrite Hcols.
    destruct (position c (columns (data self))) as [i |] eqn:Hp; [| reflexivity].
    exfalso. apply Hnot. apply position_In. eauto.
Qed.

Lemma transform_all_channels_witness :
  transform Examples.negate Examples.sample3 (ToBuild "linear") "forward" None
    false false true false None [] []
  = transform Examples.negate Examples.sample3 (ToBuild "linear") "forward" None
      true false true false None [] [].
Proof.
  apply (transform_all_channels Examples.negate Examples.sample3
           (ToBuild "linear") "forward" false true false None [] []).
  split; [| repeat constructor].
  repeat constructor; cbn; intuition discriminate.
Defined.

(** ** [transform]: the range taken from the metadata *)

Lemma py_getitem_In {A : Type} (l : list A) (i : Z) (x : A) :
  Py.getitem l i = Ok x -> In x l.
Proof.
  unfold Py.getitem.
  destruct ((_ <? 0) || (_ <=? _)); [discriminate |].
  destruct (nth_error l _) as [y |] eqn:Hnth; [| discriminate].
  intros H; injection H as <-. eapply nth_error_In; eauto.
Qed.

Lemma py_getitem_raise {A : Type} (l : list A) (i : Z) (e : exn) :
  Py.getitem l i = Raise e -> exists msg, e = IndexError msg.
Proof.
  unfold Py.getitem.
  destruct ((_ <? 0) || (_ <=? _)).
  - intros H; injection H as <-; eauto.
  - destruct (nth_error l _); [discriminate |].
    intros H; injection H as <-; eauto.
Qed.

Lemma selected_ranges_no_match (channel_meta : list (Z * channel_row))
  (names chans : list string) :
  (forall c, In c chans -> ~ In c names) ->
  selected_ranges channel_meta names chans = Ok [] \/
  exists msg, selected_ranges channel_meta names chans = Raise (IndexError msg).
Proof.
  intros Hno. induction channel_meta as [| [i r] rest IH]; [now left |].
  cbn [selected_ranges].
  destruct (Py.getitem names (i - 1)) as [name | e] eqn:Hname; cbn [bind].
  - destruct IH as [-> | [msg ->]]; cbn [bind]; [| eauto].
    destruct (has_column chans name) eqn:Hhas; [| now left].
    exfalso. apply has_column_In in Hhas.
    apply (Hno name Hhas). eapply py_getitem_In; eauto.
  - destruct (py_getitem_raise _ _ _ Hname) as [msg ->]. eauto.
Qed.

(** X12: when a Transformation is to be built under [auto_range] without a
    [d], and none of the selected channels is listed among the channel names
    of the metadata, [transform] raises an [IndexError]: the list of ranges
    is empty and its first item is asked for, before the table is looked
    at. *)
Theorem transform_range_of_unknown_channels :
  forall (tfun : transform_fun) (self : t) (name direction : string)
         (chans : option (list string))
         (return_all use_spln get_transformer : bool) (new_ID : option string)
         (args : list argument) (kwargs : list (string * argument)),
    let sel := match chans with
               | None => columns (data self)
               | Some cs => cs
               end in
    has_key "d" kwargs = false ->
    (forall c, In c sel -> ~ In c (channel_names self)) ->
    exists msg,
      transform tfun self (ToBuild name) direction chans return_all true
        use_spln get_transformer new_ID args kwargs = Raise (IndexError msg).
Proof.
  intros tfun self name direction chans return_all use_spln get_transformer
    new_ID args kwargs sel Hd Hno.
  rewrite transform_blocks. cbv zeta. fold sel.
  unfold create_transformer. rewrite Hd.
  destruct (selected_ranges_no_match (channels self) (channel_names self) sel Hno)
    as [-> | [msg ->]]; cbn; eauto.
Qed.

Lemma transform_range_of_unknown_channels_witness :
  exists msg,
    transform Examples.negate Examples.sample3 (ToBuild "hlog") "forward"
      (Some ["FSC-A"]) true true true false None [] [] = Raise (IndexError msg).
Proof.
  apply (transform_range_of_unknown_channels Examples.negate Examples.sample3
           "hlog" "forward" (Some ["FSC-A"]) true true false None [] []).
  - reflexivity.
  - intros c [<- | []]. cbn. intuition discriminate.
Defined.



(** ** [FCCollection.transform]: member by member *)

(** X14: without [share_transform] the collection is transformed member by
    member, each with the arguments of the call: the result holds the same
    keys in the same order, each member being what [FCMeasurement.transform]
    returns for it; no transformer is handed back even under
    [get_transformer=True], and the new ID goes to the collection, not to
    its members.  The call fails with the exception of a member that fails,
    and succeeds when every member does. *)
Theorem collection_transform_memberwise :
  forall (tfun : transform_fun) (self : FCCollection.t) (spec : transform_spec)
         (direction : string) (chans : option (list string))
         (return_all auto_range use_spln get_transformer : bool)
         (new_ID : option string) (args : list argument)
         (kwargs : list (string * argument)),
    let each := fun v : FCMeasurement.t =>
      transform tfun v spec direction chans return_all auto_range use_spln
        false None args kwargs in
    let outcome :=
      FCCollection.transform tfun self spec direction false chans return_all
        auto_range use_spln get_transformer new_ID args kwargs in
    (forall new out,
        outcome = Ok (new, out) ->
        out = None /\
        FCCollection.ID new
        = match new_ID with Some i => i | None => FCCollection.ID self end /\
        map fst (FCCollection.members new) = map fst (FCCollection.members self) /\
        Forall2 (fun kv kv' => each (snd kv) = Ok (snd kv', None))
          (FCCollection.members self) (FCCollection.members new)) /\
    (forall e,
        outcome = Raise e ->
        exists k v, In (k, v) (FCCollection.members self) /\ each v = Raise e) /\
    ((forall k v, In (k, v) (FCCollection.members self) -> is_ok (each v) = true) ->
     is_ok outcome = true).
Proof.
  intros tfun self spec direction chans return_all auto_range use_spln
    get_transformer new_ID args kwargs each outcome.
  assert (Hout : outcome
                 = (items <- FCCollection.traverse
                               (fun kv => r <- each (snd kv) ;; Ok (fst kv, fst r))
                               (FCCollection.members self) ;;
                    Ok (FCCollection.mk
                          (match new_ID with
                           | Some i => i
                           | None => FCCollection.ID self
                           end) items, None))).
  { unfold outcome, FCCollection.transform, FCCollection.copy. cbn [andb].
    fold each.
    destruct (FCCollection.traverse _ (FCCollection.members self)); cbn;
      [destruct new_ID |]; reflexivity. }
  assert (Hnone : forall v r, each v = Ok r -> snd r = None).
  { intros v r. apply transform_without_transformer. }
  split; [| split].
  - intros new out H. rewrite Hout in H.
    apply bind_ok in H. destruct H as [items [Hitems [= <- <-]]].
    destruct (traverse_members each _ _ Hnone Hitems) as [Hkeys Hall].
    cbn [FCCollection.ID FCCollection.members]. auto.
  - intros e H. rewrite Hout in H.
    destruct (FCCollection.traverse _ (FCCollection.members self)) as [items | e']
      eqn:Htr; cbn [bind] in H; [discriminate |].
    injection H as <-. now apply traverse_members_raise in Htr.
  - intros Hall. rewrite Hout.
    destruct (FCCollection.traverse _ (FCCollection.members self)) as [items | e']
      eqn:Htr; [reflexivity |].
    apply traverse_members_raise in Htr. destruct Htr as [k [v [Hin He]]].
    specialize (Hall k v Hin). rewrite He in Hall. discriminate.
Qed.

Lemma collection_transform_memberwise_witness :
  is_ok (FCCollection.transform Examples.negate Examples.plate
           (ToBuild "hlog") "forward" false (Some ["A"; "B"]) true true true true
           (Some "negated plate") [] []) = true.
Proof.
  apply (collection_transform_memberwise Examples.negate Examples.plate
           (ToBuild "hlog") "forward" (Some ["A"; "B"]) true true true true
           (Some "negated plate") [] []).
  intros k v [[= <- <-] | [[= <- <-] | []]]; reflexivity.
Defined.

(** X15: with [share_transform] every member is transformed with one and the
    same Transformation over the same channels, with [use_spln] and
    [return_all] as passed: the result holds the same keys in the same
    order, the members keep their IDs, and the transformer handed back under
    [get_transformer=True] is the one that was applied. *)
Theorem collection_transform_shared :
  forall (tfun : transform_fun) (self : FCCollection.t) (spec : transform_spec)
         (direction : string) (chans : option (list string))
         (return_all auto_range use_spln get_transformer : bool)
         (new_ID : option string) (args : list argument)
         (kwargs : list (string * argument))
         (new : FCCollection.t) (out : option Transformation),
    FCCollection.transform tfun self spec direction true chans return_all
      auto_range use_spln get_transformer new_ID args kwargs = Ok (new, out) ->
    exists tr,
      out = (if get_transformer then Some tr else None) /\
      (forall t0, spec = Prebuilt t0 -> tr = t0) /\
      FCCollection.ID new
      = match new_ID with Some i => i | None => FCCollection.ID self end /\
      map fst (FCCollection.members new) = map fst (FCCollection.members self) /\
      Forall2 (fun kv kv' =>
                 transform tfun (snd kv) (Prebuilt tr) "forward"
                   (Some (shared_channels self chans)) return_all true use_spln
                   false None [] [] = Ok (snd kv', None) /\
                 ID (snd kv') = ID (snd kv))
        (FCCollection.members self) (FCCollection.members new).
Proof.
  intros tfun self spec direction chans return_all auto_range use_spln
    get_transformer new_ID args kwargs new out H.
  destruct (values_nonempty _ _ _ _ _ _ _ _ _ _ _ _ _ H) as [first Hfirst].
  rewrite (shared_blocks tfun self first _ _ _ _ _ _ _ _ _ _ Hfirst) in H.
  cbv zeta in H.
  apply bind_ok in H. destruct H as [tr [Htr H]].
  apply bind_ok in H. destruct H as [items [Hitems [= <- <-]]].
  exists tr. split; [reflexivity |]. split.
  { intros t0 ->. cbn in Htr. now injection Htr. }
  cbn [FCCollection.ID FCCollection.members].
  split; [reflexivity |].
  unfold FCCollection.transform_all in Hitems.
  destruct (traverse_members
              (fun v => transform tfun v (Prebuilt tr) "forward"
                          (Some (shared_channels self chans)) return_all true
                          use_spln false None [] [])
              _ _ (fun v r => transform_without_transformer _ _ _ _ _ _ _ _ _ _ _ r)
              Hitems) as [Hkeys Hall].
  split; [exact Hkeys |].
  clear - Hall. induction Hall as [| kv kv' l items Hkv _ IH]; constructor; auto.
  split; [exact Hkv |].
  rewrite transform_default in Hkv. cbn [create_transformer bind] in Hkv.
  unfold create_new_data in Hkv.
  apply bind_ok in Hkv. destruct Hkv as [sub [_ Hkv]].
  apply bind_ok in Hkv. destruct Hkv as [d0 [_ Hkv]].
  apply bind_ok in Hkv. destruct Hkv as [d1 [_ Hkv]].
  injection Hkv as <-. reflexivity.
Qed.

Lemma collection_transform_shared_witness :
  exists tr,
    Some (new_Transformation "linear" "forward" [] []) = Some tr /\
    (forall t0, ToBuild "linear" = Prebuilt t0 -> tr = t0) /\
    "plate" = "plate" /\
    ["A1"; "B1"] = map fst (FCCollection.members Examples.plate) /\
    Forall2 (fun kv kv' =>
               transform Examples.negate (snd kv) (Prebuilt tr) "forward"
                 (Some ["B"]) false true false false None [] []
               = Ok (snd kv', None) /\
               ID (snd kv') = ID (snd kv))
      (FCCollection.members Examples.plate)
      [("A1", set_data Examples.sample3
                (Frame ["B"] [(0, [of_int (-2)]); (1, [of_int (-5)]);
                              (2, [of_int (-8)])]));
       ("B1", set_data Examples.sample3'
                (Frame ["B"] [(0, [of_int (-20)]); (1, [of_int (-50)])]))].
Proof.
  apply (collection_transform_shared Examples.negate Examples.plate
           (ToBuild "linear") "forward" (Some ["B"]) false false false true None
           [] []
           (FCCollection.mk "plate"
              [("A1", set_data Examples.sample3
                        (Frame ["B"] [(0, [of_int (-2)]); (1, [of_int (-5)]);
                                      (2, [of_int (-8)])]));
               ("B1", set_data Examples.sample3'
                        (Frame ["B"] [(0, [of_int (-20)]); (1, [of_int (-50)])]))])
           (Some (new_Transformation "linear" "forward" [] []))).
  vm_compute. reflexivity.
Defined.

(** ** [FCCollection.transform]: what [share_transform] changes *)

Lemma traverse_ext {A B : Type} (f g : A -> result B) (l : list A) :
  (forall x, f x = g x) -> FCCollection.traverse f l = FCCollection.traverse g l.
Proof.
  intros Hfg. induction l as [| x l IH]; [reflexivity |].
  cbn. now rewrite Hfg, IH.
Qed.

(** X16: given a built Transformation and a list of channels, a collection
    that holds at least one measurement is transformed the same way with and
    without [share_transform] (the transformer aside, which only the shared
    branch hands back).  An empty collection tells the two apart, whatever
    is to be applied: the shared branch raises an [IndexError] for it, the
    other returns an empty collection. *)
Theorem share_transform_with_built_transformer :
  forall (tfun : transform_fun) (self : FCCollection.t) (tr : Transformation)
         (spec : transform_spec) (direction : string) (cs : list string)
         (chans : option (list string))
         (return_all auto_range use_spln get_transformer : bool)
         (new_ID : option string) (args : list argument)
         (kwargs : list (string * argument)),
    (FCCollection.members self <> [] ->
     FCCollection.transform tfun self (Prebuilt tr) direction true (Some cs)
       return_all auto_range use_spln false new_ID args kwargs
     = FCCollection.transform tfun self (Prebuilt tr) direction false (Some cs)
         return_all auto_range use_spln get_transformer new_ID args kwargs) /\
    (FCCollection.members self = [] ->
     (exists msg,
         FCCollection.transform tfun self spec direction true chans return_all
           auto_range use_spln get_transformer new_ID args kwargs
         = Raise (IndexError msg)) /\
     FCCollection.transform tfun self spec direction false chans return_all
       auto_range use_spln get_transformer new_ID args kwargs
     = Ok (FCCollection.mk
             (match new_ID with Some i => i | None => FCCollection.ID self end)
             [], None)).
Proof.
  intros tfun self tr spec direction cs chans return_all auto_range use_spln
    get_transformer new_ID args kwargs.
  split.
  - intros Hne. unfold FCCollection.transform, FCCollection.values,
      FCCollection.copy.
    destruct (FCCollection.members self) as [| kv rest] eqn:Hm; [congruence |].
    cbn [map andb]. change (Py.getitem (snd kv :: map snd rest) 0) with
      (@Ok FCMeasurement.t (snd kv)).
    cbn [bind].
    rewrite (traverse_ext
               (fun kv0 =>
                  r <- transform tfun (snd kv0) (Prebuilt tr) direction (Some cs)
                         return_all auto_range use_spln false None args kwargs ;;
                  Ok (fst kv0, fst r))
               (fun kv0 =>
                  r <- transform tfun (snd kv0) (Prebuilt tr) "forward" (Some cs)
                         return_all true use_spln false None [] [] ;;
                  Ok (fst kv0, fst r))) by reflexivity.
    destruct (FCCollection.traverse _ (kv :: rest)); reflexivity.
  - intros Hm. unfold FCCollection.transform, FCCollection.values,
      FCCollection.copy. rewrite Hm. cbn. split; [eauto |].
    destruct new_ID; reflexivity.
Qed.

Lemma share_transform_with_built_transformer_witness :
  FCCollection.transform Examples.negate Examples.plate
    (Prebuilt (new_Transformation "hlog" "inverse" [] [])) "forward" true
    (Some ["C"]) true true false false None [] []
  = FCCollection.transform Examples.negate Examples.plate
      (Prebuilt (new_Transformation "hlog" "inverse" [] [])) "forward" false
      (Some ["C"]) true true false true None [] [] /\
  FCCollection.transform Examples.negate (FCCollection.mk "empty" [])
    (ToBuild "hlog") "forward" false None true true true true None [] []
  = Ok (FCCollection.mk "empty" [], None).
Proof.
  split.
  - apply (proj1 (share_transform_with_built_transformer Examples.negate
                    Examples.plate (new_Transformation "hlog" "inverse" [] [])
                    (ToBuild "hlog") "forward" ["C"] None true true false true
                    None [] [])).
    discriminate.
  - apply (proj2 (share_transform_with_built_transformer Examples.negate
                    (FCCollection.mk "empty" [])
                    (new_Transformation "hlog" "inverse" [] [])
                    (ToBuild "hlog") "forward" ["C"] None true true true true
                    None [] [])).
    reflexivity.
Defined.

(** X17: in the shared branch the range is looked up in the metadata of the
    first measurement alone: when a Transformation is to be built under
    [auto_range] without a [d] and none of the channels passed is among the
    channel names of that measurement, the call raises an [IndexError],
    whatever the other members declare. *)
Theorem shared_range_of_unknown_channels :
  forall (tfun : transform_fun) (self : FCCollection.t) (first : FCMeasurement.t)
         (name direction : string) (cs : list string)
         (return_all use_spln get_transformer : bool) (new_ID : option string)
         (args : list argument) (kwargs : list (string * argument)),
    hd_error (FCCollection.values self) = Some first ->
    has_key "d" kwargs = false ->
    (forall c, In c cs -> ~ In c (channel_names first)) ->
    exists msg,
      FCCollection.transform tfun self (ToBuild name) direction true (Some cs)
        return_all true use_spln get_transformer new_ID args kwargs
      = Raise (IndexError msg).
Proof.
  intros tfun self first name direction cs return_all use_spln get_transformer
    new_ID args kwargs Hfirst Hd Hno.
  rewrite (shared_blocks tfun self first _ _ _ _ _ _ _ _ _ _ Hfirst).
  cbv zeta. cbn [shared_channels].
  unfold FCCollection.create_shared_transformer. rewrite Hd.
  destruct (selected_ranges_no_match (channels first) (channel_names first) cs Hno)
    as [-> | [msg ->]]; cbn; eauto.
Qed.

Lemma shared_range_of_unknown_channels_witness :
  exists msg,
    FCCollection.transform Examples.negate Examples.plate (ToBuild "tlog")
      "forward" true (Some ["SSC-A"]) true true true false None [] []
    = Raise (IndexError msg).
Proof.
  apply (shared_range_of_unknown_channels Examples.negate Examples.plate
           Examples.sample3 "tlog" "forward" ["SSC-A"] true true false None [] []).
  - reflexivity.
  - reflexivity.
  - intros c [<- | []]. cbn. intuition discriminate.
Defined.

(** ** [ID_from_data] *)

(** X18: [ID_from_data] raises nothing: the dict it indexes is built with
    the very key it is indexed by, so the handler of [KeyError] is never
    entered; a field the metadata does not have gives [None]. *)
Theorem ID_from_data_never_raises :
  forall (self : t) (ID_field : string),
    ID_from_data self ID_field = Ok (meta_get (meta self) ID_field) /\
    (ID_field <> "_channels_" -> ID_field <> "_channel_names_" ->
     (forall v, ~ In (ID_field, v) (meta_fields (meta self))) ->
     ID_from_data self ID_field = Ok None).
Proof.
  intros self ID_field.
  assert (H : ID_from_data self ID_field = Ok (meta_get (meta self) ID_field)).
  { unfold ID_from_data, get_meta_fields, dict_getitem. cbn [map assoc].
    now rewrite String.eqb_refl. }
  split; [exact H |].
  intros Hc Hn Hno. rewrite H. f_equal. unfold meta_get.
  apply String.eqb_neq in Hc, Hn. rewrite Hc, Hn.
  induction (meta_fields (meta self)) as [| [k v] rest IH]; [reflexivity |].
  cbn [assoc]. destruct (String.eqb_spec ID_field k) as [-> | Hne].
  - exfalso. apply (Hno v). now left.
  - apply IH. intros v' Hin. apply (Hno v'). now right.
Qed.

Lemma ID_from_data_never_raises_witness :
  ID_from_data Examples.sample3 "$SRC" = Ok None.
Proof.
  apply (proj2 (ID_from_data_never_raises Examples.sample3 "$SRC"));
    [discriminate | discriminate | intros v []].
Defined.

(** ** [view_interactively] *)

(** X19: [view_interactively] starts the wx launcher for [backend='wx'], and
    for [backend='auto'] when the matplotlib version string sorts before
    ['1.4.3']; it starts the webagg launcher for [backend='webagg'] alone.
    With [backend='auto'] and any other version the name chosen is
    ['WebAgg'], which the dispatch that follows does not know: the call
    raises [ValueError].  String order puts ['1.10.0'] before ['1.4.3']. *)
Theorem view_interactively_backends :
  forall (version backend : string),
    (view_interactively version backend = Ok webagg_backend <->
     backend = "webagg") /\
    (view_interactively version backend = Ok wx_backend <->
     backend = "wx" \/ (backend = "auto" /\ String.leb "1.4.3" version = false)) /\
    (backend = "auto" -> String.leb "1.4.3" version = true ->
     view_interactively version backend
     = Raise (ValueError "No support for backend WebAgg")) /\
    view_interactively "1.10.0" "auto" = Ok wx_backend.
Proof.
  intros version backend. unfold view_interactively.
  destruct (String.eqb_spec backend "auto") as [-> | Hauto].
  - destruct (String.leb "1.4.3" version) eqn:Hv; cbn.
    + repeat split; try discriminate; try reflexivity.
      intros [H | [_ H]]; discriminate.
    + repeat split; try discriminate; try reflexivity; auto.
  - destruct (String.eqb_spec backend "wx") as [-> | Hwx].
    + repeat split; try discriminate; try reflexivity; try congruence; auto.
    + destruct (String.eqb_spec backend "webagg") as [-> | Hweb].
      * repeat split; try discriminate; try reflexivity; try congruence.
        intros [H | [H _]]; discriminate.
      * repeat split; try discriminate; try reflexivity; try congruence.
        intros [H | [H _]]; congruence.
Qed.

Lemma view_interactively_backends_witness :
  view_interactively "3.5.1" "auto"
  = Raise (ValueError "No support for backend WebAgg").
Proof.
  apply (view_interactively_backends "3.5.1" "auto"); reflexivity.
Defined.

(** ** [plot]: the gates that are drawn *)

Section Zip3.

Context {A B C : Type}.

Lemma zip3_total (xs : list A) (ys : nat -> option B) (zs : nat -> option C)
  (fy : nat -> B) (fz : nat -> C) (i : nat) :
  (forall j, (i <= j < i + length xs)%nat -> ys j = Some (fy j) /\ zs j = Some (fz j)) ->
  Py.zip3 i xs ys zs
  = map (fun jx => (snd jx, fy (fst jx), fz (fst jx)))
      (combine (seq i (length xs)) xs).
Proof.
  revert i. induction xs as [| x xs IH]; intros i H; [reflexivity |].
  cbn [Py.zip3 length seq combine map fst snd].
  destruct (H i) as [-> ->]; [cbn [length]; lia |].
  f_equal. apply IH. intros j Hj. apply H. cbn [length]. lia.
Qed.

Lemma zip3_no_width (xs : list A) (ys : nat -> option B) (i : nat) :
  Py.zip3 i xs ys (fun _ => @None C) = [].
Proof.
  destruct xs as [| x xs]; [reflexivity |]. cbn. now destruct (ys i).
Qed.

End Zip3.

Lemma cycle_nth_some {A : Type} (l : list A) (d : A) (i : nat) :
  l <> [] -> Py.cycle_nth l i = Some (nth (i mod length l) l d).
Proof.
  intros Hne. destruct l as [| x l]; [congruence |].
  unfold Py.cycle_nth. apply nth_error_nth'.
  apply Nat.mod_upper_bound. cbn [length]. lia.
Qed.

(** X20: without [gate_colors] every gate is drawn, in the order given: the
    gate at position [i] in the colour at position [i mod 6] of
    b, g, r, m, c, y, and with the width at position [i mod n] of the [n]
    widths passed (the one width, when a number was passed). *)
Theorem plot_gates_default_colors :
  forall (G : Type) (gs : list G) (gate_lw : line_width),
    gate_widths gate_lw <> [] ->
    plot_gates (Some gs) None gate_lw
    = map (fun ig =>
             (snd ig,
              nth (fst ig mod 6) default_gate_colors "",
              nth (fst ig mod length (gate_widths gate_lw))
                (gate_widths gate_lw) zero))
        (combine (seq 0 (length gs)) gs).
Proof.
  intros G gs gate_lw Hne. unfold plot_gates.
  apply (zip3_total gs _ _
           (fun j => nth (j mod 6) default_gate_colors "")
           (fun j => nth (j mod length (gate_widths gate_lw))
                       (gate_widths gate_lw) zero)). intros j _. split.
  - apply (cycle_nth_some default_gate_colors "" j). discriminate.
  - now apply cycle_nth_some.
Qed.

Lemma plot_gates_default_colors_witness :
  plot_gates (Some [1; 2; 3; 4; 5; 6; 7]) None (OneWidth one)
  = [(1, "b", one); (2, "g", one); (3, "r", one); (4, "m", one);
     (5, "c", one); (6, "y", one); (7, "b", one)].
Proof.
  apply (plot_gates_default_colors Z [1; 2; 3; 4; 5; 6; 7] (OneWidth one)).
  discriminate.
Defined.

Lemma zip3_colors {G C : Type} (gs : list G) (cs pre : list string)
  (zs : nat -> option C) (fz : nat -> C) :
  (forall j, zs j = Some (fz j)) ->
  Py.zip3 (length pre) gs (nth_error (pre ++ cs)) zs
  = map (fun ig => (fst (snd ig), snd (snd ig), fz (fst ig)))
      (combine (seq (length pre) (Nat.min (length gs) (length cs)))
         (combine gs cs)).
Proof.
  intros Hz. revert cs pre.
  induction gs as [| g gs IH]; intros cs pre; [reflexivity |].
  destruct cs as [| c cs].
  - cbn [Py.zip3]. rewrite app_nil_r.
    replace (nth_error pre (length pre)) with (@None string)
      by (symmetry; apply nth_error_None; lia).
    reflexivity.
  - cbn [Py.zip3 length Nat.min seq combine map fst snd].
    rewrite nth_error_app2 by lia. rewrite Nat.sub_diag. cbn [nth_error].
    rewrite Hz. f_equal.
    replace (pre ++ c :: cs) with ((pre ++ [c]) ++ cs)
      by (rewrite <- app_assoc; reflexivity).
    replace (S (length pre)) with (length (pre ++ [c]))
      by (rewrite length_app; cbn [length]; lia).
    apply IH.
Qed.

Lemma firstn_combine_fst {G : Type} (gs : list G) (cs : list string) (i : nat) :
  map (fun ig : nat * (G * string) => fst (snd ig))
    (combine (seq i (Nat.min (length gs) (length cs))) (combine gs cs))
  = firstn (length cs) gs.
Proof.
  revert cs i. induction gs as [| g gs IH]; intros cs i;
    [now rewrite firstn_nil |].
  destruct cs as [| c cs]; [reflexivity |].
  cbn [length Nat.min firstn combine seq map fst snd]. f_equal. apply IH.
Qed.

(** X21: a list of [gate_colors] is not cycled: with [m] colours only the
    first [m] gates are drawn, the others are dropped without notice; and
    with an empty sequence of widths no gate is drawn at all. *)
Theorem plot_gates_given_colors :
  forall (G : Type) (gs : list G) (cs : list string)
         (colors : option (list string)) (gate_lw : line_width),
    (gate_widths gate_lw <> [] ->
     plot_gates (Some gs) (Some cs) gate_lw
     = map (fun ig =>
              (fst (snd ig), snd (snd ig),
               nth (fst ig mod length (gate_widths gate_lw))
                 (gate_widths gate_lw) zero))
         (combine (seq 0 (Nat.min (length gs) (length cs))) (combine gs cs)) /\
     map (fun t => fst (fst t)) (plot_gates (Some gs) (Some cs) gate_lw)
     = firstn (length cs) gs) /\
    (gate_widths gate_lw = [] -> plot_gates (Some gs) colors gate_lw = []).
Proof.
  intros G gs cs colors gate_lw. split.
  - intros Hne.
    assert (Hmain : plot_gates (Some gs) (Some cs) gate_lw
                    = map (fun ig =>
                             (fst (snd ig), snd (snd ig),
                              nth (fst ig mod length (gate_widths gate_lw))
                                (gate_widths gate_lw) zero))
                        (combine (seq 0 (Nat.min (length gs) (length cs)))
                           (combine gs cs))).
    { unfold plot_gates.
      apply (zip3_colors gs cs []
               (Py.cycle_nth (gate_widths gate_lw))
               (fun j => nth (j mod length (gate_widths gate_lw))
                           (gate_widths gate_lw) zero)).
      intros j. now apply cycle_nth_some. }
    split; [exact Hmain |].
    rewrite Hmain, map_map. cbn [fst snd]. apply firstn_combine_fst.
  - intros Hnil. unfold plot_gates. rewrite Hnil.
    destruct colors; apply zip3_no_width.
Qed.

Lemma plot_gates_given_colors_witness :
  map (fun t => fst (fst t))
    (plot_gates (Some [1; 2; 3]) (Some ["k"; "w"]) (Widths [one; Examples.two]))
  = [1; 2] /\
  plot_gates (Some [1; 2; 3]) None (Widths []) = [].
Proof.
  split.
  - apply (proj1 (plot_gates_given_colors Z [1; 2; 3] ["k"; "w"] None
                    (Widths [one; Examples.two]))).
    discriminate.
  - apply (proj2 (plot_gates_given_colors Z [1; 2; 3] ["k"; "w"] None
                    (Widths []))).
    reflexivity.
Defined.

(** ** [FCOrderedCollection.plot]: the limits of the bins *)

Section Builtins.

Lemma ltb_nan (a b : float) :
  is_nan a = true \/ is_nan b = true -> ltb a b = false.
Proof.
  intros [H | H]; apply is_nan_true in H; subst.
  - reflexivity.
  - destruct a; reflexivity.
Qed.

Lemma py_min_nan (rest : list float) (x : float) :
  is_nan x = true ->
  fold_left (fun best y => if ltb y best then y else best) rest x = x.
Proof.
  intros Hx. induction rest as [| y rest IH]; [reflexivity |].
  cbn [fold_left]. rewrite ltb_nan by auto. exact IH.
Qed.

Lemma py_max_nan (rest : list float) (x : float) :
  is_nan x = true ->
  fold_left (fun best y => if ltb best y then y else best) rest x = x.
Proof.
  intros Hx. induction rest as [| y rest IH]; [reflexivity |].
  cbn [fold_left]. rewrite ltb_nan by auto. exact IH.
Qed.

Lemma py_min_number (rest : list float) (x : float) :
  is_nan x = false ->
  let m := fold_left (fun best y => if ltb y best then y else best) rest x in
  is_nan m = false /\ In m (x :: rest) /\
  forall y, In y (x :: rest) -> is_nan y = false ->
            key_le (order_key m) (order_key y).
Proof.
  revert x. induction rest as [| y rest IH]; intros x Hx; cbn [fold_left].
  - split; [exact Hx |]. split; [now left |].
    intros y [<- | []] _. now right.
  - destruct (ltb y x) eqn:Hyx.
    + assert (Hy : is_nan y = false).
      { destruct (is_nan y) eqn:E; [| reflexivity].
        rewrite ltb_nan in Hyx by auto. discriminate. }
      destruct (IH y Hy) as [Hm [Hin Hle]].
      split; [exact Hm |]. split; [now right |].
      intros z [<- | Hz] Hzn; [| now apply Hle].
      eapply key_le_trans; [apply Hle; [now left | exact Hy] |].
      left. now apply (ltb_key y x Hy Hx).
    + destruct (IH x Hx) as [Hm [Hin Hle]].
      split; [exact Hm |]. split.
      { destruct Hin as [<- | Hin]; [now left | right; now right]. }
      intros z [<- | [<- | Hz]] Hzn.
      * apply Hle; [now left | exact Hx].
      * eapply key_le_trans; [apply Hle; [now left | exact Hx] |].
        now apply ltb_false_key.
      * apply Hle; [now right | exact Hzn].
Qed.

Lemma py_max_number (rest : list float) (x : float) :
  is_nan x = false ->
  let m := fold_left (fun best y => if ltb best y then y else best) rest x in
  is_nan m = false /\ In m (x :: rest) /\
  forall y, In y (x :: rest) -> is_nan y = false ->
            key_le (order_key y) (order_key m).
Proof.
  revert x. induction rest as [| y rest IH]; intros x Hx; cbn [fold_left].
  - split; [exact Hx |]. split; [now left |].
    intros y [<- | []] _. now right.
  - destruct (ltb x y) eqn:Hxy.
    + assert (Hy : is_nan y = false).
      { destruct (is_nan y) eqn:E; [| reflexivity].
        rewrite ltb_nan in Hxy by auto. discriminate. }
      destruct (IH y Hy) as [Hm [Hin Hle]].
      split; [exact Hm |]. split; [now right |].
      intros z [<- | Hz] Hzn; [| now apply Hle].
      eapply key_le_trans; [| apply Hle; [now left | exact Hy]].
      left. now apply (ltb_key x y Hx Hy).
    + destruct (IH x Hx) as [Hm [Hin Hle]].
      split; [exact Hm |]. split.
      { destruct Hin as [<- | Hin]; [now left | right; now right]. }
      intros z [<- | [<- | Hz]] Hzn.
      * apply Hle; [now left | exact Hx].
      * eapply key_le_trans; [| apply Hle; [now left | exact Hx]].
        now apply ltb_false_key.
      * apply Hle; [now right | exact Hzn].
Qed.

Lemma py_getitem_nth {A : Type} (l : list A) (i : nat) (x : A) :
  nth_error l i = Some x -> Py.getitem l (Z.of_nat i) = Ok x.
Proof.
  intros H. unfold Py.getitem.
  assert (Hi : (i < length l)%nat) by (apply nth_error_Some; congruence).
  replace (Z.of_nat i <? 0) with false by (symmetry; apply Z.ltb_ge; lia).
  replace (Z.of_nat i <? 0) with false by (symmetry; apply Z.ltb_ge; lia).
  replace (Z.of_nat (length l) <=? Z.of_nat i) with false
    by (symmetry; apply Z.leb_gt; lia).
  cbn [orb]. now rewrite Nat2Z.id, H.
Qed.

Lemma map_seq_nth {A B : Type} (f : A -> B) (l : list A) (d : A) (g : nat -> B) :
  (forall i, (i < length l)%nat -> g i = f (nth i l d)) ->
  map g (seq 0 (length l)) = map f l.
Proof.
  revert g. induction l as [| a l IH]; intros g Hg; [reflexivity |].
  cbn [length seq map]. rewrite (Hg 0%nat) by (cbn; lia). cbn [nth]. f_equal.
  rewrite <- seq_shift, map_map. apply IH.
  intros i Hi. rewrite (Hg (S i)) by (cbn; lia). reflexivity.
Qed.

Lemma nth_map_in {A B : Type} (f : A -> B) (l : list A) (d : A) (d' : B) (i : nat) :
  (i < length l)%nat -> nth i (map f l) d' = f (nth i l d).
Proof.
  intros Hi. rewrite (nth_indep _ d' (f d)) by (now rewrite length_map).
  apply map_nth.
Qed.

End Builtins.

Lemma column_cells_getitem (df sub : DataFrame) (cs : list string) :
  Pandas.getitem df cs = Ok sub ->
  column_cells sub = map (channel_cells df) cs.
Proof.
  unfold Pandas.getitem.
  destruct (positions cs (columns df)) as [ps | e] eqn:Hps; cbn [bind];
    [| discriminate].
  intros H; injection H as <-. apply positions_spec in Hps.
  unfold column_cells. cbn [columns rows].
  assert (Hlen : length cs = length ps) by (eapply Forall2_length; eauto).
  transitivity (map (fun p => map (fun r : label * list cell => nth p (snd r) S754_nan)
                                (rows df)) ps).
  - rewrite Hlen. apply (map_seq_nth _ ps 0%nat). intros i Hi.
    rewrite map_map. apply map_ext. intros r. unfold project. cbn [snd].
    now apply (nth_map_in (fun p => nth p (snd r) S754_nan) ps 0%nat).
  - clear Hlen. induction Hps as [| c p cs ps Hp _ IH]; [reflexivity |].
    cbn [map]. rewrite IH. f_equal.
    unfold channel_cells, column. now rewrite Hp.
Qed.

Lemma zip_star_rows {V : Type} (h : V -> string -> float) (vs : list V)
  (cns : list string) :
  vs <> [] ->
  Py.zip_star (map (fun v => map (h v) cns) vs)
  = map (fun c => map (fun v => h v c) vs) cns.
Proof.
  intros Hne. destruct vs as [| v0 vs]; [congruence |].
  cbn [map]. unfold Py.zip_star.
  assert (Hn : fold_left Nat.min
                 (map (@length float) (map (fun v => map (h v) cns) vs))
                 (length (map (h v0) cns)) = length cns).
  { rewrite length_map. clear. induction vs as [| v vs IH]; [reflexivity |].
    cbn [map fold_left]. rewrite length_map, Nat.min_id. exact IH. }
  rewrite Hn. apply (map_seq_nth _ cns ""). intros i Hi.
  change (map (h v0) cns :: map (fun v => map (h v) cns) vs)
    with (map (fun v => map (h v) cns) (v0 :: vs)).
  change (h v0 (nth i cns "") :: map (fun v => h v (nth i cns "")) vs)
    with (map (fun v => h v (nth i cns "")) (v0 :: vs)).
  rewrite map_map. apply map_ext. intros v.
  now apply (nth_map_in (h v) cns "").
Qed.

Lemma channel_bins_spec (M X : string -> list float) (n : Z)
  (cs pre : list string) :
  (forall c, In c cs -> M c <> [] /\ X c <> []) ->
  exists bs,
    FCOrderedCollection.channel_bins (Z.of_nat (length pre)) cs
      (map M (pre ++ cs)) (map X (pre ++ cs)) n = Ok bs /\
    Forall2 (fun c b => exists lo hi,
                 b = FCOrderedCollection.Linspace lo hi n /\
                 Py.min (M c) = Ok lo /\ Py.max (X c) = Ok hi) cs bs.
Proof.
  revert pre. induction cs as [| c cs IH]; intros pre Hne.
  - exists []. split; [reflexivity | constructor].
  - cbn [FCOrderedCollection.channel_bins].
    assert (Hnth : forall F : string -> list float,
               nth_error (map F (pre ++ c :: cs)) (length pre) = Some (F c)).
    { intros F. rewrite nth_error_map, nth_error_app2 by lia.
      now rewrite Nat.sub_diag. }
    rewrite (py_getitem_nth _ _ _ (Hnth M)), (py_getitem_nth _ _ _ (Hnth X)).
    cbn [bind].
    destruct (Hne c (or_introl eq_refl)) as [HM HX].
    destruct (M c) as [| m0 ms] eqn:EM; [congruence |].
    destruct (X c) as [| x0 xs] eqn:EX; [congruence |].
    cbn [Py.min Py.max bind].
    destruct (IH (pre ++ [c])) as [bs [Hbs Hall]].
    { intros c' Hc'. apply Hne. now right. }
    rewrite <- app_assoc in Hbs. cbn [app] in Hbs.
    rewrite length_app in Hbs. cbn [length] in Hbs.
    replace (Z.of_nat (length pre) + 1) with (Z.of_nat (length pre + 1)) by lia.
    rewrite Hbs. cbn [bind]. eexists. split; [reflexivity |].
    constructor; [| exact Hall].
    do 2 eexists. split; [reflexivity |]. rewrite EM, EX. split; reflexivity.
Qed.

Import FCOrderedCollection.

(** X22: the limits of the bins of a histogram.  For a collection that holds
    at least one measurement, all of which have the channels asked for,
    [plot] with a number of bins (200 when none is passed) computes one
    [np.linspace(lo, hi, bins)] per channel, handed on as that array alone
    when there is one channel.  When the first measurement has a number in
    the channel, [lo] and [hi] are the least and the greatest of the numbers
    the channel holds over all the measurements.  When the first measurement
    has none there (an empty table, or NaN only), both limits are NaN,
    whatever the other measurements hold. *)
Theorem plot_bins_limits :
  forall (self : FCCollection.t) (channel_names : list string) (n : Z)
         (bins_kwarg : option bins_argument)
         (first : FCMeasurement.t) (others : list FCMeasurement.t),
    FCCollection.values self = first :: others ->
    (bins_kwarg = None /\ n = 200) \/ bins_kwarg = Some (BinCount n) ->
    (forall v, In v (first :: others) -> incl channel_names (columns (data v))) ->
    exists bs,
      plot_bins self channel_names "histogram" bins_kwarg
      = Ok (Some (if Nat.eqb (length channel_names) 1
                  then OneAxis (hd (Linspace zero zero n) bs)
                  else Axes bs)) /\
      Forall2
        (fun c b =>
           exists lo hi,
             b = Linspace lo hi n /\
             ((forall x, In x (channel_cells (data first) c) -> is_nan x = true) ->
              is_nan lo = true /\ is_nan hi = true) /\
             (forall x0,
                 In x0 (channel_cells (data first) c) -> is_nan x0 = false ->
                 is_nan lo = false /\ is_nan hi = false /\
                 (exists v, In v (first :: others) /\
                            In lo (channel_cells (data v) c)) /\
                 (exists v, In v (first :: others) /\
                            In hi (channel_cells (data v) c)) /\
                 forall v x,
                   In v (first :: others) ->
                   In x (channel_cells (data v) c) -> is_nan x = false ->
                   leb lo x = true /\ leb x hi = true))
        channel_names bs.
Proof.
  intros self cns n kw first others Hvals Hkw Hcols.
  set (M := fun c : string =>
              map (fun v => Np.nanmin (channel_cells (data v) c)) (first :: others)).
  set (X := fun c : string =>
              map (fun v => Np.nanmax (channel_cells (data v) c)) (first :: others)).
  destruct (channel_bins_spec M X n cns []) as [bs [Hbs Hall]].
  { intros c _. split; discriminate. }
  cbn [length app] in Hbs. change (Z.of_nat 0) with 0 in Hbs.
  exists bs. split.
  - unfold plot_bins. change (("histogram" =? "histogram")%string) with true.
    cbv iota.
    replace (match kw with Some b => b | None => BinCount 200 end)
      with (BinCount n) by (destruct Hkw as [[-> ->] | ->]; reflexivity).
    rewrite Hvals.
    rewrite (traverse_total _
               (fun v => (map (fun c => Np.nanmin (channel_cells (data v) c)) cns,
                          map (fun c => Np.nanmax (channel_cells (data v) c)) cns))).
    2:{ intros v Hv.
        destruct (getitem_ok (data v) cns (Hcols v Hv)) as [sub Hsub].
        rewrite Hsub. cbn [bind].
        rewrite (column_cells_getitem _ _ _ Hsub), !map_map. reflexivity. }
    cbn [bind]. rewrite !map_map. cbn [fst snd].
    rewrite (zip_star_rows (fun v c => Np.nanmin (channel_cells (data v) c)))
      by discriminate.
    rewrite (zip_star_rows (fun v c => Np.nanmax (channel_cells (data v) c)))
      by discriminate.
    fold M X. rewrite Hbs. cbn [bind].
    destruct (Nat.eqb (length cns) 1) eqn:Hone; [| reflexivity].
    apply Nat.eqb_eq in Hone.
    apply Forall2_length in Hall. rewrite Hone in Hall.
    destruct bs as [| b [| b' bs]]; try discriminate. reflexivity.
  - clear Hbs Hcols.
    induction Hall as [| c b cs bs Hb _ IH]; [constructor |].
    constructor; [| exact IH].
    destruct Hb as [lo [hi [-> [Hlo Hhi]]]].
    exists lo, hi. split; [reflexivity |].
    unfold M in Hlo. unfold X in Hhi. cbn [map Py.min Py.max] in Hlo, Hhi.
    injection Hlo as Hlo. injection Hhi as Hhi.
    pose (cells := fun v : FCMeasurement.t => channel_cells (data v) c).
    split.
    + intros Hnone.
      assert (Hmin : is_nan (Np.nanmin (cells first)) = true).
      { destruct (is_nan (Np.nanmin (cells first))) eqn:E; [reflexivity |].
        apply (proj2 (nanmin_spec (cells first))) in E as Hin.
        rewrite (Hnone _ Hin) in E. discriminate. }
      assert (Hmax : is_nan (Np.nanmax (cells first)) = true).
      { destruct (is_nan (Np.nanmax (cells first))) eqn:E; [reflexivity |].
        apply (proj2 (nanmax_spec (cells first))) in E as Hin.
        rewrite (Hnone _ Hin) in E. discriminate. }
      rewrite <- Hlo, <- Hhi.
      rewrite (py_min_nan _ _ Hmin), (py_max_nan _ _ Hmax). auto.
    + intros x0 Hx0 Hx0n.
      destruct (proj1 (nanmin_spec (cells first)) x0 Hx0 Hx0n) as [Hmin _].
      destruct (proj1 (nanmax_spec (cells first)) x0 Hx0 Hx0n) as [Hmax _].
      pose proof (py_min_number (map (fun v => Np.nanmin (cells v)) others) _ Hmin)
        as Hpmin.
      pose proof (py_max_number (map (fun v => Np.nanmax (cells v)) others) _ Hmax)
        as Hpmax.
      cbv zeta in Hpmin, Hpmax.
      assert (Hlon : is_nan lo = false /\
                     In lo (map (fun v => Np.nanmin (cells v)) (first :: others)) /\
                     forall y,
                       In y (map (fun v => Np.nanmin (cells v)) (first :: others)) ->
                       is_nan y = false -> key_le (order_key lo) (order_key y))
        by (rewrite <- Hlo; exact Hpmin).
      assert (Hhin : is_nan hi = false /\
                     In hi (map (fun v => Np.nanmax (cells v)) (first :: others)) /\
                     forall y,
                       In y (map (fun v => Np.nanmax (cells v)) (first :: others)) ->
                       is_nan y = false -> key_le (order_key y) (order_key hi))
        by (rewrite <- Hhi; exact Hpmax).
      clear Hpmin Hpmax.
      destruct Hlon as [Hlon [Hloin Hlole]]. destruct Hhin as [Hhin [Hhiin Hhile]].
      split; [exact Hlon |]. split; [exact Hhin |]. split; [| split].
      * apply in_map_iff in Hloin. destruct Hloin as [v [Hv Hin]].
        exists v. split; [exact Hin |].
        rewrite <- Hv. apply (proj2 (nanmin_spec (cells v))). now rewrite Hv.
      * apply in_map_iff in Hhiin. destruct Hhiin as [v [Hv Hin]].
        exists v. split; [exact Hin |].
        rewrite <- Hv. apply (proj2 (nanmax_spec (cells v))). now rewrite Hv.
      * intros v x Hv Hx Hxn.
        destruct (proj1 (nanmin_spec (cells v)) x Hx Hxn) as [Hvmin Hvle].
        destruct (proj1 (nanmax_spec (cells v)) x Hx Hxn) as [Hvmax Hvge].
        split.
        -- apply (leb_key lo x Hlon Hxn).
           eapply key_le_trans.
           ++ apply (Hlole (Np.nanmin (cells v))); [| exact Hvmin].
              apply in_map_iff. eauto.
           ++ now apply (leb_key _ x Hvmin Hxn).
        -- apply (leb_key x hi Hxn Hhin).
           eapply key_le_trans.
           ++ now apply (leb_key x _ Hxn Hvmax).
           ++ apply (Hhile (Np.nanmax (cells v))); [| exact Hvmax].
              apply in_map_iff. eauto.
Qed.

Lemma plot_bins_limits_witness :
  exists bs,
    plot_bins Examples.plate ["A"] "histogram" None
    = Ok (Some (OneAxis (hd (Linspace zero zero 200) bs))).
Proof.
  destruct (plot_bins_limits Examples.plate ["A"] 200 None Examples.sample3
              [Examples.sample3'] eq_refl (or_introl (conj eq_refl eq_refl)))
    as [bs [H _]].
  - intros v [<- | [<- | []]] c [<- | []]; cbn; auto.
  - exists bs. exact H.
Defined.
